(** * Multi-provider invocation scripts: a shallow embedding

    The repository is a handful of Python scripts that send one prompt to
    several AI vendors ([claude/llm_query.py], [query_llms.py],
    [claude/image_generation.py], their [_v2] twins and
    [image_generation_v2.py]).  The scripts are
    embedded as functions of a state-and-exception monad [Py] over an explicit
    [World]: environment variables, importable packages, a file system, the
    standard output, a logical clock and the log of vendor requests.

    Conventions of the embedding:
    - an [exn] is an instance of a subclass of Python's [Exception]; the
      only other way out of a function is [sys.exit], kept apart as [Exit]
      because [except Exception] does not catch it (a keyboard interrupt
      is not an error of a provider and is left out);
    - vendor SDKs and HTTP are collaborators of the scripts: each entry
      point is an oracle of [Services]; the [n]-th request to an entry
      point may be answered differently from the [m]-th one;
    - a request blocks its caller: it moves the clock by the latency of
      its reply and is recorded in [calls];
    - a path is the list of its components (pathlib's [parts]); [Path]
      parses a string and [path_str] prints a path.  The file system maps
      paths to nodes; links and [".."] are not resolved. *)

From Stdlib Require Import ZArith NArith Ascii String List Lia DecimalString DecimalNat.
From stdpp Require Import base tactics option list strings gmap.

Local Open Scope Z_scope.

(** ** Python values used by the scripts *)

Inductive exc_class :=
  | ImportError
  | ModuleNotFoundError
  | ValueError
  | IndexError
  | KeyError
  | FileNotFoundError
  | FileExistsError
  | IsADirectoryError
  | NotADirectoryError
  | VendorError (name : string).

Record exn := mkExn { exn_class : exc_class; exn_msg : string }.

(** [except ImportError] also catches the subclass raised by a failed
    [import]. *)
Definition is_ImportError (e : exn) : bool :=
  match exn_class e with
  | ImportError | ModuleNotFoundError => true
  | _ => false
  end.

(** Truth value of a [str] and of an [Optional[str]]. *)
Definition str_truthy (s : string) : bool :=
  match s with EmptyString => false | _ => true end.

Definition truthy (o : option string) : bool :=
  match o with Some s => str_truthy s | None => false end.

(** [x or d] on an [Optional[str]] and a [str]. *)
Definition or_default (o : option string) (d : string) : string :=
  match o with
  | Some s => if str_truthy s then s else d
  | None => d
  end.

(** [f"{x}"] for an [Optional[str]]. *)
Definition format_opt (o : option string) : string :=
  match o with Some s => s | None => "None" end.

Definition nl : string := String (ascii_of_nat 10) EmptyString.

Fixpoint str_repeat (s : string) (n : nat) : string :=
  match n with O => "" | S n => s +:+ str_repeat s n end.

(** [str.lower()] and [str.upper()], on ASCII letters. *)
Definition ascii_lower (c : ascii) : ascii :=
  let n := nat_of_ascii c in
  if ((65 <=? n) && (n <=? 90))%nat then ascii_of_nat (n + 32) else c.

Definition ascii_upper (c : ascii) : ascii :=
  let n := nat_of_ascii c in
  if ((97 <=? n) && (n <=? 122))%nat then ascii_of_nat (n - 32) else c.

Fixpoint str_map (f : ascii -> ascii) (s : string) : string :=
  match s with
  | EmptyString => EmptyString
  | String c s => String (f c) (str_map f s)
  end.

(** [s.lower()] and [s.upper()] on the letters of ASCII; [str.lower] also
    lowers the capitals outside ASCII, which the scripts' provider names do
    not contain. *)
Definition lower : string -> string := str_map ascii_lower.
Definition upper : string -> string := str_map ascii_upper.

(** [s.replace(old, new)] for one-character [old] and [new]. *)
Definition replace_char (old new : ascii) : string -> string :=
  str_map (fun c => if Ascii.eqb c old then new else c).

(** [sub in s] *)
Fixpoint contains (sub s : string) : bool :=
  String.prefix sub s ||
  match s with
  | EmptyString => false
  | String _ s' => contains sub s'
  end.

(** [f"{n}"] for an [int]. *)
Definition str_of_nat (n : nat) : string := NilEmpty.string_of_uint (Nat.to_uint n).

Definition str_of_Z (z : Z) : string := NilZero.string_of_int (Z.to_int z).

(** A [dict[str, str]]: insertion ordered, assignment to a present key
    replaces the value in place. *)
Definition dict := list (string * string).

Fixpoint dict_set (k v : string) (d : dict) : dict :=
  match d with
  | [] => [(k, v)]
  | (k', v') :: d => if String.eqb k k' then (k, v) :: d else (k', v') :: dict_set k v d
  end.

Fixpoint dict_get (k : string) (d : dict) : option string :=
  match d with
  | [] => None
  | (k', v') :: d => if String.eqb k k' then Some v' else dict_get k d
  end.

Definition keys (d : dict) : list string := map fst d.

(** ** The world outside the scripts *)

Definition path := list string.

Inductive node := Dir | File (content : string).

Record Reply (A : Type) := mkReply { latency : N; outcome : exn + A }.
Arguments mkReply {A} _ _.
Arguments latency {A} _.
Arguments outcome {A} _.

(** What the Stability endpoint sends back, as far as the scripts look. *)
Record Json := mkJson { artifacts : option (list (option string)) }.

Record HttpResponse := mkHttp {
  status_code : Z;
  text : string;
  content : string;
  json : exn + Json
}.

Inductive PostBody :=
  | JsonBody (text_prompt : string) (cfg_scale width height samples steps : Z)
  | FormBody (prompt model : string) (width height : Z) (output_format : string).

Record Services := mkServices {
  (* google-genai *)
  genai_Client : option string -> option exn;
  models_generate_content : nat -> option string -> string -> string -> Reply string;
  models_generate_images : nat -> option string -> string -> string -> Z -> Reply (list string);
  (* google-generativeai *)
  generativeai_configure : option string -> option exn;
  GenerativeModel : string -> option exn;
  GenerativeModel_generate_content :
    nat -> option string -> string -> string -> Reply string;
  (* openai *)
  OpenAI : option string -> option exn;
  chat_completions_create :
    nat -> option string -> string -> list (string * string) -> Reply (list string);
  images_generate :
    nat -> option string -> string -> string -> string -> string -> string -> Z ->
    Reply (list string);
  (* anthropic *)
  Anthropic : option string -> option exn;
  messages_create :
    nat -> option string -> string -> Z -> list (string * string) -> option string ->
    Reply (list string);
  (* requests, base64 *)
  requests_post : nat -> string -> list (string * string) -> PostBody -> Reply HttpResponse;
  b64decode : string -> exn + string
}.

Record Call := mkCall { endpoint : string; started : N; finished : N }.

Record World := mkWorld {
  environ : gmap string string;
  site_packages : gset string;
  services : Services;
  fs : gmap path node;
  stdout : list string;
  clock : N;
  calls : list Call
}.

(** ** The monad of script fragments *)

Inductive Res (A : Type) :=
  | Ret (a : A)
  | Raise (e : exn)
  | Exit (code : Z).
Arguments Ret {A} _.
Arguments Raise {A} _.
Arguments Exit {A} _.

Definition Py (A : Type) : Type := World -> Res A * World.

Definition ret {A} (a : A) : Py A := fun w => (Ret a, w).

Definition bind {A B} (m : Py A) (k : A -> Py B) : Py B :=
  fun w =>
    match m w with
    | (Ret a, w') => k a w'
    | (Raise e, w') => (Raise e, w')
    | (Exit c, w') => (Exit c, w')
    end.

Definition raise {A} (e : exn) : Py A := fun w => (Raise e, w).

Definition sys_exit {A} (code : Z) : Py A := fun w => (Exit code, w).

(** [try: m  except Exception as e: h e] *)
Definition try_except {A} (m : Py A) (h : exn -> Py A) : Py A :=
  fun w =>
    match m w with
    | (Raise e, w') => h e w'
    | r => r
    end.

Declare Scope py_scope.
Delimit Scope py_scope with py.
Notation "x ← m ; k" := (bind m (fun x => k))
  (at level 20, m at level 100, k at level 200) : py_scope.
Notation "m ;; k" := (bind m (fun _ => k))
  (at level 100, k at level 200, right associativity) : py_scope.
Local Open Scope py_scope.

(** The status the interpreter hands to the shell. *)
Definition exit_code {A} (r : Res A) : Z :=
  match r with
  | Ret _ => 0
  | Raise _ => 1
  | Exit c => c
  end.

(** ** Primitives *)

(** [os.environ.get(name)] and [os.getenv(name)]. *)
Definition getenv (name : string) : Py (option string) :=
  fun w => (Ret (environ w !! name), w).

(** [import pkg] / [from pkg import ...].  The text of the exception is
    that of [import pkg]; for [from google import genai] Python names the
    missing parent ([No module named 'google']) or says
    [cannot import name 'genai']. *)
Definition import_ (pkg : string) : Py unit :=
  fun w =>
    if decide (pkg ∈ site_packages w) then (Ret tt, w)
    else (Raise (mkExn ModuleNotFoundError ("No module named '" +:+ pkg +:+ "'")), w).

Definition print (line : string) : Py unit :=
  fun w =>
    (Ret tt,
     mkWorld (environ w) (site_packages w) (services w) (fs w)
             (stdout w ++ [line]) (clock w) (calls w)).

(** A constructor or configuration call of an SDK: local, may raise. *)
Definition construct (f : Services -> option exn) : Py unit :=
  fun w =>
    match f (services w) with
    | Some e => (Raise e, w)
    | None => (Ret tt, w)
    end.

Definition ncalls (ep : string) (cs : list Call) : nat :=
  length (filter (fun c => endpoint c = ep) cs).

(** A request to the entry point [ep] of a vendor. *)
Definition request {A} (ep : string) (f : Services -> nat -> Reply A) : Py A :=
  fun w =>
    let r := f (services w) (ncalls ep (calls w)) in
    let t := (clock w + latency r)%N in
    let w' := mkWorld (environ w) (site_packages w) (services w) (fs w) (stdout w)
                      t (calls w ++ [mkCall ep (clock w) t]) in
    match outcome r with
    | inl e => (Raise e, w')
    | inr a => (Ret a, w')
    end.

(** [base64.b64decode]. *)
Definition decode (s : string) : Py string :=
  fun w =>
    match b64decode (services w) s with
    | inl e => (Raise e, w)
    | inr b => (Ret b, w)
    end.

(** [xs[0]] *)
Definition first {A} (xs : list A) : Py A :=
  match xs with
  | x :: _ => ret x
  | [] => raise (mkExn IndexError "list index out of range")
  end.

(** *** Paths and the file system *)

(** [s.split("/")] *)
Fixpoint split_slash (s : string) : list string :=
  match s with
  | EmptyString => [""]
  | String c s' =>
      if Ascii.eqb c "/" then "" :: split_slash s'
      else match split_slash s' with
           | x :: xs => String c x :: xs
           | [] => [String c ""]
           end
  end.

Fixpoint no_slash (s : string) : bool :=
  match s with
  | EmptyString => true
  | String c s' => negb (Ascii.eqb c "/") && no_slash s'
  end.

Fixpoint join_slash (parts : list string) : string :=
  match parts with
  | [] => ""
  | [x] => x
  | x :: xs => x +:+ "/" +:+ join_slash xs
  end.

Definition is_absolute (s : string) : bool :=
  match s with
  | String c _ => Ascii.eqb c "/"
  | EmptyString => false
  end.

(** A component that [Path] keeps. *)
Definition kept (x : string) : Prop := x ≠ "" ∧ x ≠ ".".

(** [Path(s)]: empty and ["."] components vanish, a leading slash is the
    root component ["/"].  (pathlib keeps exactly two leading slashes as the
    root ["//"]; here they are the root ["/"].) *)
Definition Path (s : string) : path :=
  let parts := filter kept (split_slash s) in
  if is_absolute s then "/" :: parts else parts.

(** [str(p)] *)
Definition path_str (p : path) : string :=
  match p with
  | [] => "."
  | root :: rest => if String.eqb root "/" then "/" +:+ join_slash rest else join_slash p
  end.

(** [p / name] for a one-component [name]. *)
Definition path_join (p : path) (name : string) : path := p ++ [name].

(** [p.parent] *)
Definition parent (p : path) : path :=
  match p with
  | [root] => if String.eqb root "/" then p else []
  | _ => removelast p
  end.

(** The working directory and the root always exist. *)
Definition is_dir (f : gmap path node) (p : path) : bool :=
  match p with
  | [] => true
  | _ =>
      if decide (p = ["/"]) then true
      else match f !! p with Some Dir => true | _ => false end
  end.

Definition is_file (f : gmap path node) (p : path) : bool :=
  if is_dir f p then false
  else match f !! p with Some (File _) => true | _ => false end.

Definition set_fs (f : gmap path node) (w : World) : World :=
  mkWorld (environ w) (site_packages w) (services w) f (stdout w) (clock w) (calls w).

Definition no_parent (f : gmap path node) (p : path) : exn :=
  if is_file f (parent p)
  then mkExn NotADirectoryError ("[Errno 20] Not a directory: '" +:+ path_str p +:+ "'")
  else mkExn FileNotFoundError
         ("[Errno 2] No such file or directory: '" +:+ path_str p +:+ "'").

(** [p.mkdir(exist_ok=True)]: [parents] keeps its default [False]. *)
Definition mkdir_exist_ok (p : path) : Py unit :=
  fun w =>
    if is_dir (fs w) p then (Ret tt, w)
    else if is_file (fs w) p then
      (Raise (mkExn FileExistsError
                ("[Errno 17] File exists: '" +:+ path_str p +:+ "'")), w)
    else if is_dir (fs w) (parent p) then (Ret tt, set_fs (<[p := Dir]> (fs w)) w)
    else (Raise (no_parent (fs w) p), w).

(** [p.write_bytes(data)] *)
Definition write_bytes (p : path) (data : string) : Py unit :=
  fun w =>
    if is_dir (fs w) p then
      (Raise (mkExn IsADirectoryError
                ("[Errno 21] Is a directory: '" +:+ path_str p +:+ "'")), w)
    else if is_dir (fs w) (parent p) then
      (Ret tt, set_fs (<[p := File data]> (fs w)) w)
    else (Raise (no_parent (fs w) p), w).

(** [for x in xs: body x] *)
Fixpoint for_each {A} (xs : list A) (body : A -> Py unit) : Py unit :=
  match xs with
  | [] => ret tt
  | x :: xs => body x;; for_each xs body
  end.

(** [for i, x in enumerate(xs): acc = body i x acc], counting from [i]. *)
Fixpoint for_enumerate {A B} (xs : list A) (i : nat) (body : nat -> A -> B -> Py B)
    (acc : B) : Py B :=
  match xs with
  | [] => ret acc
  | x :: xs => acc ← body i x acc; for_enumerate xs (S i) body acc
  end.

(** [os.environ[name] = value] *)
Definition setenv (name value : string) : Py unit :=
  fun w =>
    (Ret tt,
     mkWorld (<[name := value]> (environ w)) (site_packages w) (services w) (fs w)
             (stdout w) (clock w) (calls w)).

(** ** claude/llm_query.py and claude/llm_query_v2.py

    The two files differ in the default model names only. *)
Module llm_query.

Record Defaults := mkDefaults {
  gemini_model : string;
  openai_model : string;
  anthropic_model : string
}.

Definition v1 : Defaults :=
  mkDefaults "gemini-2.0-flash" "gpt-4o" "claude-sonnet-4-20250514".
Definition v2 : Defaults :=
  mkDefaults "gemini-3-flash-preview" "gpt-5.2" "claude-opus-4-5-20251101".

Record Args := mkArgs {
  arg_prompt : string;
  arg_provider : string;
  arg_model : option string
}.

Section script.
Variable dflt : Defaults.

Definition query_gemini (prompt model : string) : Py string :=
  import_ "google.genai";;
  api_key ← getenv "GEMINI_API_KEY";
  construct (fun s => genai_Client s api_key);;
  response ← request "genai.models.generate_content"
                   (fun s n => models_generate_content s n api_key model prompt);
  ret response.

Definition query_openai (prompt model : string) (system_prompt : option string)
  : Py string :=
  import_ "openai";;
  api_key ← getenv "OPENAI_API_KEY";
  construct (fun s => OpenAI s api_key);;
  let messages := [] in
  let messages :=
    if truthy system_prompt
    then messages ++ [("system", format_opt system_prompt)]
    else messages in
  let messages := messages ++ [("user", prompt)] in
  response ← request "openai.chat.completions.create"
                   (fun s n => chat_completions_create s n api_key model messages);
  choice ← first response;
  ret choice.

Definition query_anthropic (prompt model : string) (system_prompt : option string)
    (max_tokens : Z) : Py string :=
  import_ "anthropic";;
  api_key ← getenv "ANTHROPIC_API_KEY";
  construct (fun s => Anthropic s api_key);;
  let system := if truthy system_prompt then system_prompt else None in
  response ← request "anthropic.messages.create"
                   (fun s n => messages_create s n api_key model max_tokens
                                 [("user", prompt)] system);
  block ← first response;
  ret block.

Definition query_all (prompt : string) : Py dict :=
  let results : dict := [] in
  results ← try_except
      (v ← query_gemini prompt (gemini_model dflt);
       ret (dict_set "gemini" v results))
      (fun e => ret (dict_set "gemini" ("Error: " +:+ exn_msg e) results));
  results ← try_except
      (v ← query_openai prompt (openai_model dflt) None;
       ret (dict_set "openai" v results))
      (fun e => ret (dict_set "openai" ("Error: " +:+ exn_msg e) results));
  results ← try_except
      (v ← query_anthropic prompt (anthropic_model dflt) None 1024;
       ret (dict_set "anthropic" v results))
      (fun e => ret (dict_set "anthropic" ("Error: " +:+ exn_msg e) results));
  ret results.

(** The callables of [func_map], applied to [prompt] and to [model] when
    the command line gives one. *)
Definition func_map (provider : string)
  : option (string -> option string -> Py string) :=
  if String.eqb provider "gemini" then
    Some (fun prompt model => query_gemini prompt (default (gemini_model dflt) model))
  else if String.eqb provider "openai" then
    Some (fun prompt model => query_openai prompt (default (openai_model dflt) model) None)
  else if String.eqb provider "anthropic" then
    Some (fun prompt model =>
            query_anthropic prompt (default (anthropic_model dflt) model) None 1024)
  else None.

(** The [__main__] block, from the parsed arguments on. *)
Definition main (args : Args) : Py unit :=
  if String.eqb (arg_provider args) "all" then
    results ← query_all (arg_prompt args);
    for_each results (fun '(provider, response) =>
      print (nl +:+ str_repeat "=" 50);;
      print (upper provider +:+ ":");;
      print (str_repeat "=" 50);;
      print response)
  else
    match func_map (arg_provider args) with
    | None => raise (mkExn KeyError ("'" +:+ arg_provider args +:+ "'"))
    | Some func =>
        let model := if truthy (arg_model args) then arg_model args else None in
        out ← func (arg_prompt args) model;
        print out
    end.

End script.
End llm_query.

(** ** claude/image_generation.py *)
Module image_generation.

Definition generate_dalle (prompt output_path model size quality : string) : Py string :=
  import_ "openai";;
  api_key ← getenv "OPENAI_API_KEY";
  construct (fun s => OpenAI s api_key);;
  response ← request "openai.images.generate"
               (fun s n => images_generate s n api_key model prompt size quality
                             "b64_json" 1);
  b64_json ← first response;
  image_data ← decode b64_json;
  write_bytes (Path output_path) image_data;;
  ret output_path.

Definition generate_imagen (prompt output_path model : string) : Py string :=
  import_ "google.genai";;
  api_key ← getenv "GEMINI_API_KEY";
  construct (fun s => genai_Client s api_key);;
  response ← request "genai.models.generate_images"
               (fun s n => models_generate_images s n api_key model prompt 1);
  match response with
  | image_data :: _ =>
      write_bytes (Path output_path) image_data;;
      ret output_path
  | [] => raise (mkExn ValueError "No image generated")
  end.

(** [data["artifacts"][0]["base64"]] *)
Definition first_artifact (data : Json) : Py string :=
  match artifacts data with
  | None => raise (mkExn KeyError "'artifacts'")
  | Some items =>
      item ← first items;
      match item with
      | None => raise (mkExn KeyError "'base64'")
      | Some b64 => ret b64
      end
  end.

(** [response.json()] *)
Definition json_of (response : HttpResponse) : Py Json :=
  match json response with
  | inl e => raise e
  | inr data => ret data
  end.

(** [requests] is imported when the module is loaded, not here. *)
Definition generate_stability (prompt output_path model : string) (width height : Z)
  : Py string :=
  api_key ← getenv "STABILITY_API_KEY";
  response ← request "requests.post"
               (fun s n => requests_post s n
                  ("https://api.stability.ai/v1/generation/" +:+ model +:+ "/text-to-image")
                  [("Authorization", "Bearer " +:+ format_opt api_key);
                   ("Content-Type", "application/json");
                   ("Accept", "application/json")]
                  (JsonBody prompt 7 width height 1 30));
  if negb (status_code response =? 200) then
    raise (mkExn ValueError ("Stability API error: " +:+ text response))
  else
    data ← json_of response;
    b64 ← first_artifact data;
    image_data ← decode b64;
    write_bytes (Path output_path) image_data;;
    ret output_path.

Definition generate_all (prompt output_dir : string) : Py dict :=
  let results : dict := [] in
  let output_dir := Path output_dir in
  mkdir_exist_ok output_dir;;
  results ← try_except
      (v ← generate_dalle prompt (path_str (path_join output_dir "dalle_output.png"))
             "dall-e-3" "1024x1024" "standard";
       ret (dict_set "dalle" v results))
      (fun e => ret (dict_set "dalle" ("Error: " +:+ exn_msg e) results));
  results ← try_except
      (v ← generate_imagen prompt (path_str (path_join output_dir "imagen_output.png"))
             "imagen-3.0-generate-002";
       ret (dict_set "imagen" v results))
      (fun e => ret (dict_set "imagen" ("Error: " +:+ exn_msg e) results));
  results ← try_except
      (v ← generate_stability prompt
             (path_str (path_join output_dir "stability_output.png"))
             "stable-diffusion-xl-1024-v1-0" 1024 1024;
       ret (dict_set "stability" v results))
      (fun e => ret (dict_set "stability" ("Error: " +:+ exn_msg e) results));
  ret results.

Record Args := mkArgs {
  arg_prompt : string;
  arg_provider : string;
  arg_output : string;
  arg_output_dir : string
}.

(** The callables of [func_map], applied to the prompt and to the output
    path; their other parameters keep their defaults. *)
Definition func_map (provider : string) : option (string -> string -> Py string) :=
  if String.eqb provider "dalle" then
    Some (fun prompt output => generate_dalle prompt output "dall-e-3" "1024x1024" "standard")
  else if String.eqb provider "imagen" then
    Some (fun prompt output => generate_imagen prompt output "imagen-3.0-generate-002")
  else if String.eqb provider "stability" then
    Some (fun prompt output => generate_stability prompt output "stable-diffusion-xl-1024-v1-0" 1024 1024)
  else None.

(** The [__main__] block, from the parsed arguments on. *)
Definition main (args : Args) : Py unit :=
  if String.eqb (arg_provider args) "all" then
    results ← generate_all (arg_prompt args) (arg_output_dir args);
    for_each results (fun '(provider, result) => print (provider +:+ ": " +:+ result))
  else
    match func_map (arg_provider args) with
    | None => raise (mkExn KeyError ("'" +:+ arg_provider args +:+ "'"))
    | Some func =>
        output ← func (arg_prompt args) (arg_output args);
        print ("Image saved to: " +:+ output)
    end.

End image_generation.

(** ** claude/image_generation_v2.py *)
Module image_generation_v2.

Definition generate_openai_image (prompt output_path model size quality : string)
  : Py string :=
  import_ "openai";;
  api_key ← getenv "OPENAI_API_KEY";
  construct (fun s => OpenAI s api_key);;
  response ← request "openai.images.generate"
               (fun s n => images_generate s n api_key model prompt size quality
                             "b64_json" 1);
  b64_json ← first response;
  image_data ← decode b64_json;
  write_bytes (Path output_path) image_data;;
  ret output_path.

Definition generate_imagen (prompt output_path model : string) : Py string :=
  import_ "google.genai";;
  api_key ← getenv "GEMINI_API_KEY";
  construct (fun s => genai_Client s api_key);;
  response ← request "genai.models.generate_images"
               (fun s n => models_generate_images s n api_key model prompt 1);
  match response with
  | image_data :: _ =>
      write_bytes (Path output_path) image_data;;
      ret output_path
  | [] => raise (mkExn ValueError "No image generated")
  end.

Definition generate_stability (prompt output_path model : string) (width height : Z)
  : Py string :=
  api_key ← getenv "STABILITY_API_KEY";
  response ← request "requests.post"
               (fun s n => requests_post s n
                  "https://api.stability.ai/v2beta/stable-image/generate/sd3"
                  [("Authorization", "Bearer " +:+ format_opt api_key);
                   ("Accept", "image/*")]
                  (FormBody prompt model width height "png"));
  if negb (status_code response =? 200) then
    raise (mkExn ValueError ("Stability API error: " +:+ text response))
  else
    write_bytes (Path output_path) (content response);;
    ret output_path.

Definition generate_all (prompt output_dir : string) : Py dict :=
  let results : dict := [] in
  let output_dir := Path output_dir in
  mkdir_exist_ok output_dir;;
  results ← try_except
      (v ← generate_openai_image prompt
             (path_str (path_join output_dir "openai_output.png"))
             "gpt-image-1.5" "1024x1024" "standard";
       ret (dict_set "openai" v results))
      (fun e => ret (dict_set "openai" ("Error: " +:+ exn_msg e) results));
  results ← try_except
      (v ← generate_imagen prompt (path_str (path_join output_dir "imagen_output.png"))
             "imagen-4.0-generate-preview";
       ret (dict_set "imagen" v results))
      (fun e => ret (dict_set "imagen" ("Error: " +:+ exn_msg e) results));
  results ← try_except
      (v ← generate_stability prompt
             (path_str (path_join output_dir "stability_output.png"))
             "sd3.5-large" 1024 1024;
       ret (dict_set "stability" v results))
      (fun e => ret (dict_set "stability" ("Error: " +:+ exn_msg e) results));
  ret results.

Record Args := mkArgs {
  arg_prompt : string;
  arg_provider : string;
  arg_output : string;
  arg_output_dir : string
}.

(** The callables of [func_map], applied to the prompt and to the output
    path; their other parameters keep their defaults. *)
Definition func_map (provider : string) : option (string -> string -> Py string) :=
  if String.eqb provider "openai" then
    Some (fun prompt output => generate_openai_image prompt output "gpt-image-1.5" "1024x1024" "standard")
  else if String.eqb provider "imagen" then
    Some (fun prompt output => generate_imagen prompt output "imagen-4.0-generate-preview")
  else if String.eqb provider "stability" then
    Some (fun prompt output => generate_stability prompt output "sd3.5-large" 1024 1024)
  else None.

(** The [__main__] block, from the parsed arguments on. *)
Definition main (args : Args) : Py unit :=
  if String.eqb (arg_provider args) "all" then
    results ← generate_all (arg_prompt args) (arg_output_dir args);
    for_each results (fun '(provider, result) => print (provider +:+ ": " +:+ result))
  else
    match func_map (arg_provider args) with
    | None => raise (mkExn KeyError ("'" +:+ arg_provider args +:+ "'"))
    | Some func =>
        output ← func (arg_prompt args) (arg_output args);
        print ("Image saved to: " +:+ output)
    end.

End image_generation_v2.

(** ** query_llms.py and query_llms_v2.py

    The two files differ in the default model names and in the wording of
    the usage text and of one banner. *)
Module query_llms.

Record Defaults := mkDefaults {
  gemini_model : string;
  openai_model : string;
  anthropic_model : string;
  usage : list string;
  all_banner : string
}.

Definition v1 : Defaults :=
  mkDefaults "gemini-1.5-pro" "gpt-4o" "claude-3-5-sonnet-20241022"
    ["Usage: python query_llms.py '<prompt>' [provider] [model]";
     nl +:+ "Providers: gemini, openai, anthropic";
     nl +:+ "Example models:";
     "  Gemini: gemini-1.5-pro, gemini-1.5-flash, gemini-pro";
     "  OpenAI: gpt-4o, gpt-4-turbo, gpt-3.5-turbo, o1-preview, o1-mini";
     "  Anthropic: claude-3-5-sonnet-20241022, claude-3-5-haiku-20241022";
     nl +:+ "Example:";
     "  python query_llms.py 'What is AI?' gemini gemini-1.5-pro"]
    ("Querying all providers..." +:+ nl).

Definition v2 : Defaults :=
  mkDefaults "gemini-2.0-flash-exp" "gpt-4o-2025-01-07" "claude-3-7-sonnet-20250224"
    ["Usage: python query_llms_v2.py '<prompt>' [provider] [model]";
     nl +:+ "Providers: gemini, openai, anthropic";
     nl +:+ "Example models (latest versions):";
     "  Gemini: gemini-2.0-flash-exp, gemini-2.0-flash-thinking-exp, gemini-2.5-pro";
     "  OpenAI: gpt-4o-2025-01-07, gpt-4o, o3, o1-preview, o1-mini";
     "  Anthropic: claude-3-7-sonnet-20250224, claude-opus-4.5-20251124, claude-3-5-sonnet-20241022";
     nl +:+ "Example:";
     "  python query_llms_v2.py 'What is AI?' gemini gemini-2.0-flash-exp"]
    ("Querying all providers with latest models..." +:+ nl).

Definition query_gemini (prompt model : string) : Py (option string) :=
  try_except
    (import_ "google.generativeai";;
     api_key ← getenv "GOOGLE_API_KEY";
     if negb (truthy api_key) then
       print "Error: GOOGLE_API_KEY environment variable not set";;
       ret None
     else
       construct (fun s => generativeai_configure s api_key);;
       construct (fun s => GenerativeModel s model);;
       response ← request "generativeai.GenerativeModel.generate_content"
                    (fun s n => GenerativeModel_generate_content s n api_key model prompt);
       ret (Some response))
    (fun e =>
       if is_ImportError e then
         print "Error: google-generativeai package not installed. Install with: pip install google-generativeai";;
         ret None
       else
         print ("Error querying Gemini: " +:+ exn_msg e);;
         ret None).

Definition query_openai (prompt model : string) : Py (option string) :=
  try_except
    (import_ "openai";;
     api_key ← getenv "OPENAI_API_KEY";
     if negb (truthy api_key) then
       print "Error: OPENAI_API_KEY environment variable not set";;
       ret None
     else
       construct (fun s => OpenAI s api_key);;
       response ← request "openai.chat.completions.create"
                    (fun s n => chat_completions_create s n api_key model
                                  [("user", prompt)]);
       choice ← first response;
       ret (Some choice))
    (fun e =>
       if is_ImportError e then
         print "Error: openai package not installed. Install with: pip install openai";;
         ret None
       else
         print ("Error querying OpenAI: " +:+ exn_msg e);;
         ret None).

Definition query_anthropic (prompt model : string) : Py (option string) :=
  try_except
    (import_ "anthropic";;
     api_key ← getenv "ANTHROPIC_API_KEY";
     if negb (truthy api_key) then
       print "Error: ANTHROPIC_API_KEY environment variable not set";;
       ret None
     else
       construct (fun s => Anthropic s api_key);;
       message ← request "anthropic.messages.create"
                   (fun s n => messages_create s n api_key model 4096
                                 [("user", prompt)] None);
       block ← first message;
       ret (Some block))
    (fun e =>
       if is_ImportError e then
         print "Error: anthropic package not installed. Install with: pip install anthropic";;
         ret None
       else
         print ("Error querying Anthropic: " +:+ exn_msg e);;
         ret None).

Section script.
Variable dflt : Defaults.

(** [if response: print(response)] *)
Definition print_if (response : option string) : Py unit :=
  if truthy response then print (format_opt response) else ret tt.

(** [main()], from [sys.argv] on. *)
Definition main (argv : list string) : Py unit :=
  match argv with
  | [] | [_] =>
      for_each (usage dflt) print;;
      sys_exit 1
  | _ :: prompt :: rest =>
      let provider := match rest with p :: _ => Some (lower p) | [] => None end in
      let model := match rest with _ :: m :: _ => Some m | _ => None end in
      if truthy provider then
        response ←
          (if String.eqb (format_opt provider) "gemini" then
             let model := or_default model (gemini_model dflt) in
             print ("Querying Gemini (" +:+ model +:+ ")...");;
             query_gemini prompt model
           else if String.eqb (format_opt provider) "openai" then
             let model := or_default model (openai_model dflt) in
             print ("Querying OpenAI (" +:+ model +:+ ")...");;
             query_openai prompt model
           else if String.eqb (format_opt provider) "anthropic" then
             let model := or_default model (anthropic_model dflt) in
             print ("Querying Anthropic (" +:+ model +:+ ")...");;
             query_anthropic prompt model
           else
             print ("Unknown provider: " +:+ format_opt provider);;
             sys_exit 1);
        if truthy response then
          print (nl +:+ "Response:");;
          print (format_opt response)
        else sys_exit 1
      else
        print (all_banner dflt);;
        print (str_repeat "=" 60);;
        print "GEMINI";;
        print (str_repeat "=" 60);;
        response ← query_gemini prompt (gemini_model dflt);
        print_if response;;
        print "";;
        print (str_repeat "=" 60);;
        print "OPENAI";;
        print (str_repeat "=" 60);;
        response ← query_openai prompt (openai_model dflt);
        print_if response;;
        print "";;
        print (str_repeat "=" 60);;
        print "ANTHROPIC";;
        print (str_repeat "=" 60);;
        response ← query_anthropic prompt (anthropic_model dflt);
        print_if response
  end.

End script.
End query_llms.

(** ** image_generation_v2.py

    The script at the top of the repository (the module of
    [claude/image_generation_v2.py] is [image_generation_v2] above).  Its
    vendors answer with URLs, with a JSON body whose artifacts carry a seed,
    or with whatever a Replicate model returns: they are the oracles of
    [Vendors], a parameter of the script, used next to the constructors and
    the base64 codec of [Services].  The items of a list are taken to have
    the types the script treats them as: URLs are strings and an artifact is
    an object. *)
Module image_generation_v2_script.

(** An item of [response.data]; [revised_prompt] is read with [getattr]
    and a default. *)
Record Image := mkImage { url : string; revised_prompt : option string }.

(** An entry of ["artifacts"], as far as the script looks. *)
Record Artifact := mkArtifact { base64 : option string; seed : option Z }.

Record Body := mkBody { artifacts : option (list Artifact) }.

Record Response := mkResponse {
  status_code : Z;
  reason : string;
  response_url : string;
  text : string;
  content : string;
  json : exn + Body
}.

(** The form fields of the Stability request. *)
Record Form := mkForm {
  text_prompt : string;
  cfg_scale : Z;
  height : Z;
  width : Z;
  samples : Z;
  steps : Z
}.

(** The [input] of [replicate.run]. *)
Inductive Input :=
  | FluxInput (prompt : string) (num_outputs : Z) (aspect_ratio output_format : string)
  | PlainInput (prompt : string).

(** What [replicate.run] returns: a list, a string, or something else,
    given by its [str]. *)
Inductive Output :=
  | OutList (items : list string)
  | OutStr (s : string)
  | OutOther (str : string).

Record Vendors := mkVendors {
  (* key, model, prompt, size, quality when sent, n *)
  images_generate :
    nat -> option string -> string -> string -> string -> option string -> Z ->
    Reply (list Image);
  (* url, headers, form *)
  requests_post : nat -> string -> list (string * string) -> Form -> Reply Response;
  (* the token of the environment, model, input *)
  replicate_run : nat -> option string -> string -> Input -> Reply Output;
  requests_get : nat -> string -> Reply Response
}.

(** The dicts returned by the three generators. *)
Record OpenAIResult := mkOpenAIResult {
  openai_urls : list string;
  openai_model : string;
  openai_revised_prompt : option string
}.

Record StabilityResult := mkStabilityResult {
  stability_image_paths : list string;
  stability_model : string;
  stability_seed : option Z
}.

Record ReplicateResult := mkReplicateResult {
  replicate_urls : list string;
  replicate_model : string
}.

(** [response.raise_for_status()] *)
Definition raise_for_status (r : Response) : Py unit :=
  let code := status_code r in
  if (400 <=? code) && (code <? 500) then
    raise (mkExn (VendorError "HTTPError")
             (str_of_Z code +:+ " Client Error: " +:+ reason r +:+ " for url: "
              +:+ response_url r))
  else if (500 <=? code) && (code <? 600) then
    raise (mkExn (VendorError "HTTPError")
             (str_of_Z code +:+ " Server Error: " +:+ reason r +:+ " for url: "
              +:+ response_url r))
  else ret tt.

(** [response.json()] *)
Definition json_of (response : Response) : Py Body :=
  match json response with
  | inl e => raise e
  | inr data => ret data
  end.

(** [image["base64"]] *)
Definition base64_of (image : Artifact) : Py string :=
  match base64 image with
  | None => raise (mkExn KeyError "'base64'")
  | Some b64 => ret b64
  end.

(** Truth value of an [Optional[int]], and [f"{x}"] for one. *)
Definition int_truthy (o : option Z) : bool :=
  match o with Some z => negb (z =? 0) | None => false end.

Definition format_int (o : option Z) : string :=
  match o with Some z => str_of_Z z | None => "None" end.

Definition usage : list string :=
  ["Usage: python image_generation_v2.py '<prompt>' [provider] [options]";
   nl +:+ "Providers:";
   "  openai    - OpenAI DALL-E models (dall-e-3)";
   "  stability - Stability AI models (stable-diffusion-3, SDXL)";
   "  replicate - Replicate (Flux, SDXL, and other models)";
   nl +:+ "Examples:";
   "  python image_generation_v2.py 'a futuristic city' openai";
   "  python image_generation_v2.py 'a beautiful landscape' stability";
   "  python image_generation_v2.py 'an abstract painting' replicate"].

Section script.
Variable vendors : Vendors.

Definition generate_image_openai (prompt model size quality : string) (n : Z)
  : Py (option OpenAIResult) :=
  try_except
    (import_ "openai";;
     api_key ← getenv "OPENAI_API_KEY";
     if negb (truthy api_key) then
       print "Error: OPENAI_API_KEY environment variable not set";;
       ret None
     else
       construct (fun s => OpenAI s api_key);;
       response ←
         (if String.eqb model "dall-e-3" then
            request "openai.images.generate"
              (fun _ k => images_generate vendors k api_key model prompt size
                            (Some quality) 1)
          else
            request "openai.images.generate"
              (fun _ k => images_generate vendors k api_key model prompt size None n));
       let urls := map url response in
       head ← first response;
       ret (Some (mkOpenAIResult urls model (revised_prompt head))))
    (fun e =>
       if is_ImportError e then
         print "Error: openai package not installed. Install with: pip install openai";;
         ret None
       else
         print ("Error generating image with OpenAI: " +:+ exn_msg e);;
         ret None).

(** The file of the [i]-th artifact. *)
Definition stability_path (model : string) (i : nat) : path :=
  path_join (Path "generated_images")
    ("stability_" +:+ replace_char "/" "_" model +:+ "_" +:+ str_of_nat i +:+ ".png").

(** The body of the loop over the artifacts. *)
Definition save_artifact (model : string) (i : nat) (image : Artifact)
    (image_paths : list string) : Py (list string) :=
  b64 ← base64_of image;
  image_data ← decode b64;
  let image_path := stability_path model i in
  write_bytes image_path image_data;;
  ret (image_paths ++ [path_str image_path]).

Definition generate_image_stability (prompt model : string) (width height steps : Z)
  : Py (option StabilityResult) :=
  try_except
    (import_ "requests";;
     api_key ← getenv "STABILITY_API_KEY";
     if negb (truthy api_key) then
       print "Error: STABILITY_API_KEY environment variable not set";;
       ret None
     else
       api_host ← getenv "API_HOST";
       let api_host := default "https://api.stability.ai" api_host in
       let url := api_host +:+ "/v1/generation/" +:+ model +:+ "/text-to-image" in
       let headers := [("Accept", "application/json");
                       ("Authorization", "Bearer " +:+ format_opt api_key)] in
       let data := mkForm prompt 7 height width 1 steps in
       response ← request "requests.post"
                    (fun _ k => requests_post vendors k url headers data);
       if negb (status_code response =? 200) then
         print ("Error: API request failed with status "
                +:+ str_of_Z (status_code response));;
         print (text response);;
         ret None
       else
         result ← json_of response;
         let output_dir := Path "generated_images" in
         mkdir_exist_ok output_dir;;
         image_paths ←
           for_enumerate (default [] (artifacts result)) 0 (save_artifact model) [];
         head ← first (default [mkArtifact None None] (artifacts result));
         ret (Some (mkStabilityResult image_paths model (seed head))))
    (fun e =>
       if is_ImportError e then
         print "Error: requests package not installed. Install with: pip install requests";;
         ret None
       else
         print ("Error generating image with Stability AI: " +:+ exn_msg e);;
         ret None).

(** [replicate.run(model, input=...)]: the client takes its token from the
    environment. *)
Definition run (model : string) (input : Input) : Py Output :=
  token ← getenv "REPLICATE_API_TOKEN";
  request "replicate.run" (fun _ k => replicate_run vendors k token model input).

Definition generate_image_replicate (prompt model : string)
  : Py (option ReplicateResult) :=
  try_except
    (import_ "replicate";;
     api_token ← getenv "REPLICATE_API_TOKEN";
     if negb (truthy api_token) then
       print "Error: REPLICATE_API_TOKEN environment variable not set";;
       ret None
     else
       setenv "REPLICATE_API_TOKEN" (format_opt api_token);;
       output ←
         (if contains "flux" (lower model) then
            run model (FluxInput prompt 1 "1:1" "png")
          else
            run model (PlainInput prompt));
       let urls :=
         match output with
         | OutList items => items
         | OutStr s => [s]
         | OutOther str => [str]
         end in
       ret (Some (mkReplicateResult urls model)))
    (fun e =>
       if is_ImportError e then
         print "Error: replicate package not installed. Install with: pip install replicate";;
         ret None
       else
         print ("Error generating image with Replicate: " +:+ exn_msg e);;
         ret None).

Definition download_image (url output_path : string) : Py bool :=
  try_except
    (import_ "requests";;
     response ← request "requests.get" (fun _ k => requests_get vendors k url);
     raise_for_status response;;
     write_bytes (Path output_path) (content response);;
     ret true)
    (fun e =>
       print ("Error downloading image: " +:+ exn_msg e);;
       ret false).

(** The loop over [result["urls"]] of the [openai] and [replicate]
    branches of [main]; the two differ in the prefix of the file names. *)
Definition download_all (prefix : string) (urls : list string) : Py unit :=
  for_enumerate urls 0
    (fun i url _ =>
       print ("  " +:+ str_of_nat (i + 1) +:+ ". " +:+ url);;
       let output_dir := Path "generated_images" in
       mkdir_exist_ok output_dir;;
       let output_path := path_join output_dir (prefix +:+ "_" +:+ str_of_nat i +:+ ".png") in
       ok ← download_image url (path_str output_path);
       if ok then print ("     Downloaded to: " +:+ path_str output_path) else ret tt)
    tt.

(** [main()], from [sys.argv] on. *)
Definition main (argv : list string) : Py unit :=
  match argv with
  | [] | [_] =>
      for_each usage print;;
      sys_exit 1
  | _ :: prompt :: rest =>
      let provider := match rest with p :: _ => lower p | [] => "openai" end in
      print ("Generating image with " +:+ provider +:+ " (using latest models)...");;
      print ("Prompt: " +:+ prompt +:+ nl);;
      if String.eqb provider "openai" then
        result ← generate_image_openai prompt "dall-e-3" "1024x1024" "standard" 1;
        match result with
        | Some result =>
            print "Generated image URLs:";;
            download_all "dalle" (openai_urls result);;
            if truthy (openai_revised_prompt result) then
              print (nl +:+ "Revised prompt: " +:+ format_opt (openai_revised_prompt result))
            else ret tt
        | None => ret tt
        end
      else if String.eqb provider "stability" then
        result ← generate_image_stability prompt "stable-diffusion-3-medium-diffusers"
                   1024 1024 30;
        match result with
        | Some result =>
            print "Generated images saved to:";;
            for_each (stability_image_paths result) (fun path => print ("  - " +:+ path));;
            if int_truthy (stability_seed result) then
              print (nl +:+ "Seed: " +:+ format_int (stability_seed result))
            else ret tt
        | None => ret tt
        end
      else if String.eqb provider "replicate" then
        result ← generate_image_replicate prompt "black-forest-labs/flux-dev";
        match result with
        | Some result =>
            print "Generated image URLs:";;
            download_all "replicate" (replicate_urls result)
        | None => ret tt
        end
      else
        print ("Unknown provider: " +:+ provider);;
        print "Available providers: openai, stability, replicate";;
        sys_exit 1
  end.

End script.
End image_generation_v2_script.

(** ** Notions used by the statements *)

(** A vendor is deterministic when the reply to a request does not depend
    on how many requests came before it. *)
Record deterministic (S : Services) : Prop := mkDet {
  det_generate_content :
    forall n m k mo c, models_generate_content S n k mo c = models_generate_content S m k mo c;
  det_generate_images :
    forall n m k mo c i, models_generate_images S n k mo c i = models_generate_images S m k mo c i;
  det_generativeai :
    forall n m k mo c,
      GenerativeModel_generate_content S n k mo c = GenerativeModel_generate_content S m k mo c;
  det_chat :
    forall n m k mo ms, chat_completions_create S n k mo ms = chat_completions_create S m k mo ms;
  det_images :
    forall n m k mo p sz q f i,
      images_generate S n k mo p sz q f i = images_generate S m k mo p sz q f i;
  det_messages :
    forall n m k mo t ms sy, messages_create S n k mo t ms sy = messages_create S m k mo t ms sy;
  det_post :
    forall n m u h b, requests_post S n u h b = requests_post S m u h b
}.

(** Two worlds that a script fragment cannot tell apart: same environment,
    packages and vendors, the same directories, with [d] among them, and
    the same number of earlier requests to the entry points selected by
    [E].  With [det] the vendors are, moreover, deterministic. *)
Definition alike (det : bool) (E : string -> bool) (d : path) (w w' : World) : Prop :=
  environ w = environ w' /\
  site_packages w = site_packages w' /\
  services w = services w' /\
  (forall p, is_dir (fs w) p = is_dir (fs w') p) /\
  is_dir (fs w) d = true /\
  (forall ep, E ep = true -> ncalls ep (calls w) = ncalls ep (calls w')) /\
  (det = true -> deterministic (services w)).

(** [m] gives the same result, takes the same time and keeps the worlds
    alike when started in worlds that are alike. *)
Definition respects (R : World -> World -> Prop) {A} (m : Py A) : Prop :=
  forall w w', R w w' ->
    fst (m w) = fst (m w') /\
    R (snd (m w)) (snd (m w')) /\
    exists dt, clock (snd (m w)) = (clock w + dt)%N /\
               clock (snd (m w')) = (clock w' + dt)%N.

(** The effects of [m] are invisible to [R]. *)
Definition quiet (R : World -> World -> Prop) {A} (m : Py A) : Prop :=
  forall w0 w, R w0 w -> R w0 (snd (m w)).

(** [m] never leaves through [sys.exit]. *)
Definition no_exit {A} (m : Py A) : Prop :=
  forall w, match fst (m w) with Exit _ => False | _ => True end.

(** [m], started in [w], ends in a result and a world that satisfy [Q]. *)
Definition post {A} (m : Py A) (w : World) (Q : Res A -> World -> Prop) : Prop :=
  Q (fst (m w)) (snd (m w)).

(** Time spent in [m] when started in [w]. *)
Definition elapsed {A} (m : Py A) (w : World) : N := (clock (snd (m w)) - clock w)%N.

(** The entry that [query_all] and [generate_all] store for the outcome of
    one provider. *)
Definition entry_of (r : Res string) : string :=
  match r with
  | Ret v => v
  | Raise e => "Error: " +:+ exn_msg e
  | Exit _ => ""
  end.

(** A path component as [Path] produces them, and a file name. *)
Definition good (x : string) : Prop := kept x /\ no_slash x = true.

(** The entry points behind the three providers of [llm_query]. *)
Definition ep_gemini : string := "genai.models.generate_content".
Definition ep_openai : string := "openai.chat.completions.create".
Definition ep_anthropic : string := "anthropic.messages.create".
Definition ep_generativeai : string := "generativeai.GenerativeModel.generate_content".

Definition only (ep : string) : string -> bool := String.eqb ep.

(** Everything but the clock and the log of requests is as it was. *)
Definition untouched (w w' : World) : Prop :=
  environ w' = environ w /\ site_packages w' = site_packages w /\
  services w' = services w /\ stdout w' = stdout w /\ fs w' = fs w.

(** [m] touches nothing but the clock and the log. *)
Definition still {A} (m : Py A) : Prop := forall w, untouched w (snd (m w)).

(** A provider leaves the environment, the packages and the standard
    output alone; when it fails it leaves the file system alone too, and
    when it returns no directory has gone. *)
Definition tidy {A} (m : Py A) : Prop :=
  forall w,
    environ (snd (m w)) = environ w /\ site_packages (snd (m w)) = site_packages w /\
    services (snd (m w)) = services w /\ stdout (snd (m w)) = stdout w /\
    match fst (m w) with
    | Ret _ => forall p, is_dir (fs (snd (m w))) p = is_dir (fs w) p
    | _ => fs (snd (m w)) = fs w
    end.

Definition nothing : string -> bool := fun _ => false.

(** [m] only prints: it returns, takes no time and keeps alike worlds
    alike. *)
Definition silent (m : Py unit) : Prop :=
  forall w, fst (m w) = Ret tt /\ clock (snd (m w)) = clock w /\
            forall det E d w0, alike det E d w0 w -> alike det E d w0 (snd (m w)).

(** The three [try]/[except] blocks of [query_all] and of [generate_all],
    for providers [a1], [a2], [a3] stored under [k1], [k2], [k3]. *)
Definition fan_out (k1 k2 k3 : string) (a1 a2 a3 : Py string) : Py dict :=
  let results : dict := [] in
  results ← try_except
      (v ← a1; ret (dict_set k1 v results))
      (fun e => ret (dict_set k1 ("Error: " +:+ exn_msg e) results));
  results ← try_except
      (v ← a2; ret (dict_set k2 v results))
      (fun e => ret (dict_set k2 ("Error: " +:+ exn_msg e) results));
  results ← try_except
      (v ← a3; ret (dict_set k3 v results))
      (fun e => ret (dict_set k3 ("Error: " +:+ exn_msg e) results));
  ret results.

(** The calls that [generate_all] makes, in [claude/image_generation.py]
    and in [claude/image_generation_v2.py]. *)
Definition dalle_call (prompt output_dir : string) : Py string :=
  image_generation.generate_dalle prompt
    (path_str (path_join (Path output_dir) "dalle_output.png"))
    "dall-e-3" "1024x1024" "standard".

Definition imagen_call (prompt output_dir : string) : Py string :=
  image_generation.generate_imagen prompt
    (path_str (path_join (Path output_dir) "imagen_output.png"))
    "imagen-3.0-generate-002".

Definition stability_call (prompt output_dir : string) : Py string :=
  image_generation.generate_stability prompt
    (path_str (path_join (Path output_dir) "stability_output.png"))
    "stable-diffusion-xl-1024-v1-0" 1024 1024.

Definition openai_call_v2 (prompt output_dir : string) : Py string :=
  image_generation_v2.generate_openai_image prompt
    (path_str (path_join (Path output_dir) "openai_output.png"))
    "gpt-image-1.5" "1024x1024" "standard".

Definition imagen_call_v2 (prompt output_dir : string) : Py string :=
  image_generation_v2.generate_imagen prompt
    (path_str (path_join (Path output_dir) "imagen_output.png"))
    "imagen-4.0-generate-preview".

Definition stability_call_v2 (prompt output_dir : string) : Py string :=
  image_generation_v2.generate_stability prompt
    (path_str (path_join (Path output_dir) "stability_output.png"))
    "sd3.5-large" 1024 1024.

(** The calls that [query_all] makes. *)
Definition text_providers (dflt : llm_query.Defaults) (prompt : string)
  : list (string * Py string) :=
  [("gemini", llm_query.query_gemini prompt (llm_query.gemini_model dflt));
   ("openai", llm_query.query_openai prompt (llm_query.openai_model dflt) None);
   ("anthropic",
    llm_query.query_anthropic prompt (llm_query.anthropic_model dflt) None 1024)].

Definition image_providers (prompt output_dir : string) : list (string * Py string) :=
  [("dalle", dalle_call prompt output_dir);
   ("imagen", imagen_call prompt output_dir);
   ("stability", stability_call prompt output_dir)].

Definition image_providers_v2 (prompt output_dir : string) : list (string * Py string) :=
  [("openai", openai_call_v2 prompt output_dir);
   ("imagen", imagen_call_v2 prompt output_dir);
   ("stability", stability_call_v2 prompt output_dir)].

(** Failure isolation of a fan-out [run] over [providers] that starts
    with [setup] (nothing for [query_all], [mkdir] for [generate_all]).
    Take two worlds in which [setup] returns; in the first provider [k]
    raises [e], in the second it succeeds with [v], and the other
    providers behave alike in both.  Then both runs return, both dicts
    have the providers' keys, the entry of [k] is the failure text
    ["Error: " ++ str(e)] in the first run and [v] in the second, and the
    entries of the other providers are the same in both runs. *)
Definition failure_isolated (providers : list (string * Py string))
    (setup : Py unit) (run : Py dict) : Prop :=
  forall (wa wb : World) k fk e v,
    fst (setup wa) = Ret tt -> fst (setup wb) = Ret tt ->
    (k, fk) ∈ providers ->
    fst (fk (snd (setup wa))) = Raise e ->
    fst (fk (snd (setup wb))) = Ret v ->
    (forall j fj, (j, fj) ∈ providers -> j <> k ->
                  fst (fj (snd (setup wa))) = fst (fj (snd (setup wb)))) ->
    exists ra rb wa' wb',
      run wa = (Ret ra, wa') /\ run wb = (Ret rb, wb') /\
      keys ra = map fst providers /\ keys rb = map fst providers /\
      dict_get k ra = Some ("Error: " +:+ exn_msg e) /\
      dict_get k rb = Some v /\
      forall j, j <> k -> dict_get j ra = dict_get j rb.


(** The world after one request to [ep] that took [l]: the clock has
    moved and the request is in the log, nothing else has changed. *)
Definition requested (ep : string) (l : N) (w : World) : World :=
  mkWorld (environ w) (site_packages w) (services w) (fs w) (stdout w)
          (clock w + l) (calls w ++ [mkCall ep (clock w) (clock w + l)]).

(** The world after [lines] have been printed. *)
Definition printed (lines : list string) (w : World) : World :=
  mkWorld (environ w) (site_packages w) (services w) (fs w) (stdout w ++ lines)
          (clock w) (calls w).

(** The reply that the next request of a provider of [query_llms.py] gets
    in [w]. *)
Definition generativeai_reply (prompt model : string) (w : World) : Reply string :=
  GenerativeModel_generate_content (services w) (ncalls ep_generativeai (calls w))
    (environ w !! "GOOGLE_API_KEY") model prompt.

Definition chat_reply (prompt model : string) (w : World) : Reply (list string) :=
  chat_completions_create (services w) (ncalls ep_openai (calls w))
    (environ w !! "OPENAI_API_KEY") model [("user", prompt)].

Definition messages_reply (prompt model : string) (w : World) : Reply (list string) :=
  messages_create (services w) (ncalls ep_anthropic (calls w))
    (environ w !! "ANTHROPIC_API_KEY") model 4096 [("user", prompt)] None.

(** A provider of [query_llms.py] gets as far as its request: the package
    is importable, the key is set and the SDK object can be made. *)
Definition gemini_ready (model : string) (w : World) : Prop :=
  "google.generativeai" ∈ site_packages w /\
  truthy (environ w !! "GOOGLE_API_KEY") = true /\
  generativeai_configure (services w) (environ w !! "GOOGLE_API_KEY") = None /\
  GenerativeModel (services w) model = None.

Definition openai_ready (w : World) : Prop :=
  "openai" ∈ site_packages w /\
  truthy (environ w !! "OPENAI_API_KEY") = true /\
  OpenAI (services w) (environ w !! "OPENAI_API_KEY") = None.

Definition anthropic_ready (w : World) : Prop :=
  "anthropic" ∈ site_packages w /\
  truthy (environ w !! "ANTHROPIC_API_KEY") = true /\
  Anthropic (services w) (environ w !! "ANTHROPIC_API_KEY") = None.

(** The lines that a provider of [query_llms.py] prints when it fails:
    the package is not installed, the key is not set, or the text of the
    error that was caught. *)
Definition report_line (vendor package key line : string) : Prop :=
  line = "Error: " +:+ package +:+ " package not installed. Install with: pip install "
         +:+ package \/
  line = "Error: " +:+ key +:+ " environment variable not set" \/
  exists e, line = "Error querying " +:+ vendor +:+ ": " +:+ exn_msg e.

(** What a provider of [query_llms.py] that returned [v] has done to the
    world: it printed nothing when it has an answer and one line of
    [report_line] when it has none, and it left the environment, the
    packages and the files alone. *)
Definition reported (vendor package key : string) (v : option string) (w w' : World)
  : Prop :=
  environ w' = environ w /\ site_packages w' = site_packages w /\ fs w' = fs w /\
  match v with
  | Some _ => stdout w' = stdout w
  | None => exists line, stdout w' = stdout w ++ [line] /\ report_line vendor package key line
  end.

(** The request of [query_openai] of [query_llms.py] is made and answered
    with at least one choice.  The provider then returns the content of
    the first choice as it is.  The replies of the model hold that content
    as text; the SDK types it as optional, and a content of [None] would be
    returned without a line. *)
Definition chat_answered (prompt model : string) (w : World) : Prop :=
  openai_ready w /\
  exists t more, outcome (chat_reply prompt model w) = inr (t :: more).

(** [reported], with the line of a provider that has no answer asked for
    only when [skip] does not hold. *)
Definition reported_unless (skip : Prop) (vendor package key : string)
    (v : option string) (w w' : World) : Prop :=
  environ w' = environ w /\ site_packages w' = site_packages w /\ fs w' = fs w /\
  match v with
  | Some _ => stdout w' = stdout w
  | None =>
      ~ skip ->
      exists line, stdout w' = stdout w ++ [line] /\ report_line vendor package key line
  end.

(** The line for an error [e] caught by a provider of [query_llms.py]:
    [except ImportError] comes first. *)
Definition caught_line (vendor package : string) (e : exn) : string :=
  if is_ImportError e then
    "Error: " +:+ package +:+ " package not installed. Install with: pip install "
    +:+ package
  else "Error querying " +:+ vendor +:+ ": " +:+ exn_msg e.

(** The reply that the next request of a provider of
    [claude/image_generation.py] or [claude/image_generation_v2.py] gets
    in [w]. *)
Definition images_reply (prompt model size quality : string) (w : World)
  : Reply (list string) :=
  images_generate (services w) (ncalls "openai.images.generate" (calls w))
    (environ w !! "OPENAI_API_KEY") model prompt size quality "b64_json" 1.

Definition imagen_reply (prompt model : string) (w : World) : Reply (list string) :=
  models_generate_images (services w) (ncalls "genai.models.generate_images" (calls w))
    (environ w !! "GEMINI_API_KEY") model prompt 1.

Definition stability_reply (prompt model : string) (width height : Z) (w : World)
  : Reply HttpResponse :=
  requests_post (services w) (ncalls "requests.post" (calls w))
    ("https://api.stability.ai/v1/generation/" +:+ model +:+ "/text-to-image")
    [("Authorization", "Bearer " +:+ format_opt (environ w !! "STABILITY_API_KEY"));
     ("Content-Type", "application/json");
     ("Accept", "application/json")]
    (JsonBody prompt 7 width height 1 30).

Definition stability_reply_v2 (prompt model : string) (width height : Z) (w : World)
  : Reply HttpResponse :=
  requests_post (services w) (ncalls "requests.post" (calls w))
    "https://api.stability.ai/v2beta/stable-image/generate/sd3"
    [("Authorization", "Bearer " +:+ format_opt (environ w !! "STABILITY_API_KEY"));
     ("Accept", "image/*")]
    (FormBody prompt model width height "png").

(** The outcome of an image provider that was asked to write to
    [output_path]: when it returns, the value is [output_path] and the one
    change to the file system is the file at that path, whose content
    satisfies [P]; when it raises, the file system is as it was. *)
Definition wrote (output_path : string) (P : string -> Prop) (w : World)
    (r : Res string) (w' : World) : Prop :=
  match r with
  | Ret v =>
      v = output_path /\
      exists data, P data /\ fs w' = <[Path output_path := File data]> (fs w)
  | Raise _ => fs w' = fs w
  | Exit _ => False
  end.

(** The image that the reply of a vendor carries. *)
Definition b64_image (reply : Reply (list string)) (w : World) (data : string) : Prop :=
  exists b64 rest, outcome reply = inr (b64 :: rest) /\ b64decode (services w) b64 = inr data.

Definition first_image (reply : Reply (list string)) (data : string) : Prop :=
  exists rest, outcome reply = inr (data :: rest).

Definition artifact_image (reply : Reply HttpResponse) (w : World) (data : string) : Prop :=
  exists response b64 rest,
    outcome reply = inr response /\ status_code response = 200 /\
    json response = inr (mkJson (Some (Some b64 :: rest))) /\
    b64decode (services w) b64 = inr data.

Definition content_image (reply : Reply HttpResponse) (data : string) : Prop :=
  exists response,
    outcome reply = inr response /\ status_code response = 200 /\
    data = content response.

(** The exception that [data["artifacts"][0]["base64"]] raises on a body
    that cannot be parsed or has not the expected shape; [None] for a body
    with a first artifact that has a ["base64"] entry. *)
Definition body_error (body : exn + Json) : option exn :=
  match body with
  | inl e => Some e
  | inr (mkJson None) => Some (mkExn KeyError "'artifacts'")
  | inr (mkJson (Some [])) => Some (mkExn IndexError "list index out of range")
  | inr (mkJson (Some (None :: _))) => Some (mkExn KeyError "'base64'")
  | inr (mkJson (Some (Some _ :: _))) => None
  end.

(** [m] writes the file [x] and nothing else: when it returns, the value
    is the string of [x] and the file is there; when it raises, the file
    system is as it was. *)
Definition writes (x : path) (m : Py string) : Prop :=
  forall w,
    match fst (m w) with
    | Ret v => v = path_str x /\ exists data, fs (snd (m w)) = <[x := File data]> (fs w)
    | Raise _ => fs (snd (m w)) = fs w
    | Exit _ => False
    end.

(** The file [x] of a provider with outcome [r] is in the file system of
    [w'] when the provider returned. *)
Definition stored (x : path) (r : Res string) (w' : World) : Prop :=
  match r with
  | Ret v => v = path_str x /\ exists data, fs w' !! x = Some (File data)
  | _ => True
  end.

(** The reply that the next request of a provider of
    [claude/llm_query.py] gets in [w].  A system prompt that is [None] or
    empty is left out. *)
Definition genai_reply (prompt model : string) (w : World) : Reply string :=
  models_generate_content (services w) (ncalls ep_gemini (calls w))
    (environ w !! "GEMINI_API_KEY") model prompt.

Definition system_chat_reply (prompt model : string) (system_prompt : option string)
    (w : World) : Reply (list string) :=
  chat_completions_create (services w) (ncalls ep_openai (calls w))
    (environ w !! "OPENAI_API_KEY") model
    ((if truthy system_prompt then [("system", format_opt system_prompt)] else [])
     ++ [("user", prompt)]).

Definition system_messages_reply (prompt model : string) (system_prompt : option string)
    (max_tokens : Z) (w : World) : Reply (list string) :=
  messages_create (services w) (ncalls ep_anthropic (calls w))
    (environ w !! "ANTHROPIC_API_KEY") model max_tokens [("user", prompt)]
    (if truthy system_prompt then system_prompt else None).

(** *** Notions for image_generation_v2.py *)

(** What a generator of [image_generation_v2.py] that returned [v] has
    printed: nothing when it has a result, at least one line when it has
    none. *)
Definition explained {A} (v : option A) (w w' : World) : Prop :=
  match v with
  | Some _ => stdout w' = stdout w
  | None => exists lines, lines <> [] /\ stdout w' = stdout w ++ lines
  end.

Section image_generation_v2_notions.
Import image_generation_v2_script.
Variable vendors : Vendors.

(** The replies that the next requests of the generators get in [w]. *)
Definition openai_images_reply (prompt model size quality : string) (n : Z) (w : World)
  : Reply (list Image) :=
  if String.eqb model "dall-e-3" then
    images_generate vendors (ncalls "openai.images.generate" (calls w))
      (environ w !! "OPENAI_API_KEY") model prompt size (Some quality) 1
  else
    images_generate vendors (ncalls "openai.images.generate" (calls w))
      (environ w !! "OPENAI_API_KEY") model prompt size None n.

Definition stability_form_reply (prompt model : string) (width height steps : Z)
    (w : World) : Reply Response :=
  requests_post vendors (ncalls "requests.post" (calls w))
    (default "https://api.stability.ai" (environ w !! "API_HOST")
     +:+ "/v1/generation/" +:+ model +:+ "/text-to-image")
    [("Accept", "application/json");
     ("Authorization", "Bearer " +:+ format_opt (environ w !! "STABILITY_API_KEY"))]
    (mkForm prompt 7 height width 1 steps).

Definition replicate_reply (prompt model : string) (w : World) : Reply Output :=
  replicate_run vendors (ncalls "replicate.run" (calls w))
    (environ w !! "REPLICATE_API_TOKEN") model
    (if contains "flux" (lower model) then FluxInput prompt 1 "1:1" "png"
     else PlainInput prompt).

Definition get_reply (url : string) (w : World) : Reply Response :=
  requests_get vendors (ncalls "requests.get" (calls w)) url.

(** [generate_image_stability] gets a response with status 200, and
    [generated_images] is not a file, so that the directory exists or can
    be made. *)
Definition stability_ok (prompt model : string) (width height steps : Z) (w : World)
    (response : Response) : Prop :=
  "requests" ∈ site_packages w /\
  truthy (environ w !! "STABILITY_API_KEY") = true /\
  outcome (stability_form_reply prompt model width height steps w) = inr response /\
  status_code response = 200 /\
  is_file (fs w) ["generated_images"] = false.

(** [generate_image_replicate] gets as far as its request. *)
Definition replicate_ready (w : World) : Prop :=
  "replicate" ∈ site_packages w /\
  truthy (environ w !! "REPLICATE_API_TOKEN") = true.

(** The value of [result["urls"]] for what [replicate.run] returned. *)
Definition urls_of (output : Output) : list string :=
  match output with
  | OutList items => items
  | OutStr s => [s]
  | OutOther str => [str]
  end.

(** The image of an artifact: its ["base64"] entry, decoded. *)
Definition image_of (s : Services) (a : Artifact) : option string :=
  match base64 a with
  | Some b64 =>
      match b64decode s b64 with
      | inr data => Some data
      | inl _ => None
      end
  | None => None
  end.

(** The images of the leading artifacts of [arts] that have one, and the
    exception at the first artifact that has none. *)
Fixpoint decoded (s : Services) (arts : list Artifact) : list string :=
  match arts with
  | [] => []
  | a :: arts =>
      match base64 a with
      | Some b64 =>
          match b64decode s b64 with
          | inr data => data :: decoded s arts
          | inl _ => []
          end
      | None => []
      end
  end.

Fixpoint artifact_error (s : Services) (arts : list Artifact) : option exn :=
  match arts with
  | [] => None
  | a :: arts =>
      match base64 a with
      | Some b64 =>
          match b64decode s b64 with
          | inr _ => artifact_error s arts
          | inl e => Some e
          end
      | None => Some (mkExn KeyError "'base64'")
      end
  end.

(** The file system after the images [datas] have been saved as the
    files of the artifacts [i], [i+1], ... of [model]. *)
Fixpoint saved (model : string) (i : nat) (datas : list string) (f : gmap path node)
  : gmap path node :=
  match datas with
  | [] => f
  | data :: datas => saved model (S i) datas (<[stability_path model i := File data]> f)
  end.

(** The strings of the paths of the artifacts [i], ..., [i + n - 1]. *)
Definition stability_paths (model : string) (i n : nat) : list string :=
  map (fun j => path_str (stability_path model j)) (seq i n).

(** The line that [generate_image_stability] prints for an error [e] that
    it caught: [except ImportError] comes first. *)
Definition stability_caught (e : exn) : string :=
  if is_ImportError e then
    "Error: requests package not installed. Install with: pip install requests"
  else "Error generating image with Stability AI: " +:+ exn_msg e.

End image_generation_v2_notions.

(** *** Sample worlds

    [demo_world] has every package and key and vendors that always answer;
    the other worlds take something away from it. *)
Definition reply_ok {A} (l : N) (a : A) : Reply A := mkReply l (inr a).

Definition reply_err {A} (l : N) (name msg : string) : Reply A :=
  mkReply l (inl (mkExn (VendorError name) msg)).

Definition http_ok : HttpResponse :=
  mkHttp 200 "" "png-bytes" (inr (mkJson (Some [Some "cG5n"]))).

Definition http_error : HttpResponse :=
  mkHttp 401 "unauthorized" "" (inr (mkJson None)).

Definition demo_services : Services := {|
  genai_Client := fun _ => None;
  models_generate_content := fun _ _ _ _ => reply_ok 5 "ok";
  models_generate_images := fun _ _ _ _ _ => reply_ok 6 ["imagen-bytes"];
  generativeai_configure := fun _ => None;
  GenerativeModel := fun _ => None;
  GenerativeModel_generate_content := fun _ _ _ _ => reply_ok 5 "ok";
  OpenAI := fun _ => None;
  chat_completions_create := fun _ _ _ _ => reply_ok 3 ["hello"];
  images_generate := fun _ _ _ _ _ _ _ _ => reply_ok 7 ["cG5n"];
  Anthropic := fun _ => None;
  messages_create := fun _ _ _ _ _ _ => reply_ok 4 ["hi there"];
  requests_post := fun _ _ _ _ => reply_ok 8 http_ok;
  b64decode := fun s => inr s
|}.

(** Vendors that refuse every request. *)
Definition down_services : Services := {|
  genai_Client := fun _ => None;
  models_generate_content := fun _ _ _ _ => reply_err 1 "ServerError" "503";
  models_generate_images := fun _ _ _ _ _ => reply_ok 1 [];
  generativeai_configure := fun _ => None;
  GenerativeModel := fun _ => None;
  GenerativeModel_generate_content := fun _ _ _ _ => reply_err 1 "ServerError" "503";
  OpenAI := fun _ => None;
  chat_completions_create := fun _ _ _ _ => reply_err 1 "APIError" "503";
  images_generate := fun _ _ _ _ _ _ _ _ => reply_err 1 "APIError" "503";
  Anthropic := fun _ => None;
  messages_create := fun _ _ _ _ _ _ => reply_err 1 "APIError" "503";
  requests_post := fun _ _ _ _ => reply_ok 1 http_error;
  b64decode := fun s => inr s
|}.

Definition all_keys : gmap string string :=
  <["GEMINI_API_KEY" := "g-key"]> (<["GOOGLE_API_KEY" := "g-key"]>
  (<["OPENAI_API_KEY" := "o-key"]> (<["ANTHROPIC_API_KEY" := "a-key"]>
  (<["STABILITY_API_KEY" := "s-key"]> ∅)))).

Definition all_packages : gset string :=
  {["google.genai"; "google.generativeai"; "openai"; "anthropic"]}.

Definition demo_world : World :=
  mkWorld all_keys all_packages demo_services ∅ [] 0 [].

(** No [google.genai] package. *)
Definition no_genai_world : World :=
  mkWorld all_keys {["google.generativeai"; "openai"; "anthropic"]} demo_services ∅ [] 0 [].

(** Vendors that check the key: the Stability endpoint answers 401 to
    a request without the right bearer token. *)
Definition strict_services : Services := {|
  genai_Client := fun _ => None;
  models_generate_content := fun _ _ _ _ => reply_ok 5 "ok";
  models_generate_images := fun _ _ _ _ _ => reply_ok 6 ["imagen-bytes"];
  generativeai_configure := fun _ => None;
  GenerativeModel := fun _ => None;
  GenerativeModel_generate_content := fun _ _ _ _ => reply_ok 5 "ok";
  OpenAI := fun _ => None;
  chat_completions_create := fun _ _ _ _ => reply_ok 3 ["hello"];
  images_generate := fun _ _ _ _ _ _ _ _ => reply_ok 7 ["cG5n"];
  Anthropic := fun _ => None;
  messages_create := fun _ _ _ _ _ _ => reply_ok 4 ["hi there"];
  requests_post := fun _ _ headers _ =>
    match headers with
    | (_, bearer) :: _ =>
        if String.eqb bearer "Bearer s-key" then reply_ok 8 http_ok
        else reply_ok 8 http_error
    | [] => reply_ok 8 http_error
    end;
  b64decode := fun s => inr s
|}.

(** No key is set. *)
Definition no_keys_world : World :=
  mkWorld ∅ all_packages demo_services ∅ [] 0 [].

(** No key is set and the vendors check it. *)
Definition no_keys_strict_world : World :=
  mkWorld ∅ all_packages strict_services ∅ [] 0 [].

(** Every vendor is down. *)
Definition down_world : World :=
  mkWorld all_keys all_packages down_services ∅ [] 0 [].

(** Vendors that answer with nothing: no choice, no image, and a body
    whose list of artifacts is empty. *)
Definition blank_services : Services := {|
  genai_Client := fun _ => None;
  models_generate_content := fun _ _ _ _ => reply_ok 5 "";
  models_generate_images := fun _ _ _ _ _ => reply_ok 6 [];
  generativeai_configure := fun _ => None;
  GenerativeModel := fun _ => None;
  GenerativeModel_generate_content := fun _ _ _ _ => reply_ok 5 "";
  OpenAI := fun _ => None;
  chat_completions_create := fun _ _ _ _ => reply_ok 3 [];
  images_generate := fun _ _ _ _ _ _ _ _ => reply_ok 7 [];
  Anthropic := fun _ => None;
  messages_create := fun _ _ _ _ _ _ => reply_ok 4 [];
  requests_post := fun _ _ _ _ => reply_ok 8 (mkHttp 200 "" "" (inr (mkJson (Some []))));
  b64decode := fun s => inr s
|}.

Definition blank_world : World :=
  mkWorld all_keys all_packages blank_services ∅ [] 0 [].

(** Sample vendors of [image_generation_v2.py]: one image URL, a
    response with status 200 and the body [body], one URL from Replicate,
    and downloads that end with the status [code]. *)
Definition vendors_with (body : image_generation_v2_script.Body) (code : Z)
  : image_generation_v2_script.Vendors :=
  image_generation_v2_script.mkVendors
    (fun _ _ _ _ _ _ _ =>
       reply_ok 7 [image_generation_v2_script.mkImage "https://img.example/0"
                     (Some "a cat, detailed")])
    (fun _ u _ _ =>
       reply_ok 8 (image_generation_v2_script.mkResponse 200 "OK" u "" "" (inr body)))
    (fun _ _ _ _ => reply_ok 9 (image_generation_v2_script.OutStr "https://rep.example/0"))
    (fun _ u =>
       reply_ok 2 (image_generation_v2_script.mkResponse code "" u "" "bytes"
                     (inl (mkExn ValueError "not JSON")))).

Definition two_artifacts : list image_generation_v2_script.Artifact :=
  [image_generation_v2_script.mkArtifact (Some "cG5n") (Some 42);
   image_generation_v2_script.mkArtifact (Some "anBn") None].

Definition demo_vendors : image_generation_v2_script.Vendors :=
  vendors_with (image_generation_v2_script.mkBody (Some two_artifacts)) 200.

Definition image_packages : gset string := {["openai"; "requests"; "replicate"]}.

Definition image_world : World :=
  mkWorld (<["OPENAI_API_KEY" := "o-key"]> (<["STABILITY_API_KEY" := "s-key"]>
           (<["REPLICATE_API_TOKEN" := "r-token"]> ∅)))
          image_packages demo_services ∅ [] 0 [].

(** The same without any key. *)
Definition image_world_no_keys : World :=
  mkWorld ∅ image_packages demo_services ∅ [] 0 [].

(** ** Generic facts about the monad *)

(** ** The model on small inputs *)

Example Path_examples :
  Path "out" = ["out"] /\ Path "." = [] /\ Path "a//b/./c/" = ["a"; "b"; "c"] /\
  Path "/tmp/x" = ["/"; "tmp"; "x"] /\
  path_str (path_join (Path "a/b") "dalle_output.png") = "a/b/dalle_output.png" /\
  path_str (path_join (Path ".") "dalle_output.png") = "dalle_output.png" /\
  parent ["a"; "b"] = ["a"] /\ parent ["a"] = [] /\ parent ["/"] = ["/"].
Proof. repeat split. Qed.

Example dict_examples :
  dict_set "b" "2" (dict_set "a" "1" []) = [("a", "1"); ("b", "2")] /\
  dict_set "a" "3" [("a", "1"); ("b", "2")] = [("a", "3"); ("b", "2")] /\
  dict_get "b" [("a", "1"); ("b", "2")] = Some "2" /\
  dict_get "c" [("a", "1"); ("b", "2")] = None.
Proof. repeat split. Qed.

Example str_examples :
  lower "OpenAI" = "openai" /\ upper "gemini" = "GEMINI" /\
  str_repeat "=" 3 = "===" /\ or_default (Some "") "gpt-4o" = "gpt-4o" /\
  truthy (Some "") = false /\ format_opt None = "None".
Proof. repeat split. Qed.

Example mkdir_examples :
  fst (mkdir_exist_ok ["out"] demo_world) = Ret tt /\
  fs (snd (mkdir_exist_ok ["out"] demo_world)) = <[["out"] := Dir]> ∅ /\
  exn_class (no_parent ∅ ["missing"; "out"]) = FileNotFoundError /\
  fst (mkdir_exist_ok ["out"] (set_fs (<[["out"] := File "x"]> ∅) demo_world))
    = Raise (mkExn FileExistsError "[Errno 17] File exists: 'out'") /\
  fst (write_bytes ["out"] "x" (set_fs (<[["out"] := Dir]> ∅) demo_world))
    = Raise (mkExn IsADirectoryError "[Errno 21] Is a directory: 'out'").
Proof. repeat split; vm_compute; reflexivity. Qed.

Example query_all_example :
  fst (llm_query.query_all llm_query.v2 "hi" demo_world)
    = Ret [("gemini", "ok"); ("openai", "hello"); ("anthropic", "hi there")] /\
  fst (llm_query.query_all llm_query.v2 "hi" no_genai_world)
    = Ret [("gemini", "Error: No module named 'google.genai'"); ("openai", "hello");
           ("anthropic", "hi there")] /\
  fst (image_generation.generate_all "a cat" "out" demo_world)
    = Ret [("dalle", "out/dalle_output.png"); ("imagen", "out/imagen_output.png");
           ("stability", "out/stability_output.png")] /\
  fs (snd (image_generation_v2.generate_all "a cat" "out" demo_world))
    = <[["out"; "stability_output.png"] := File "png-bytes"]>
        (<[["out"; "imagen_output.png"] := File "imagen-bytes"]>
           (<[["out"; "openai_output.png"] := File "cG5n"]>
              (<[["out"] := Dir]> ∅))).
Proof. repeat split; vm_compute; reflexivity. Qed.

Ltac split_ands := repeat match goal with |- _ /\ _ => split end.

Lemma bind_run {A B} (m : Py A) (k : A -> Py B) w :
  bind m k w =
  match m w with
  | (Ret a, w') => k a w'
  | (Raise e, w') => (Raise e, w')
  | (Exit c, w') => (Exit c, w')
  end.
Proof. reflexivity. Qed.

Lemma try_except_run {A} (m : Py A) (h : exn -> Py A) w :
  try_except m h w =
  match m w with
  | (Raise e, w') => h e w'
  | r => r
  end.
Proof. reflexivity. Qed.

Section combinators.
Context (R : World -> World -> Prop).

Lemma respects_ret {A} (a : A) : respects R (ret a).
Proof. intros w w' H. repeat split; auto. exists 0%N. simpl. lia. Qed.

Lemma respects_raise {A} e : respects R (@raise A e).
Proof. intros w w' H. repeat split; auto. exists 0%N. simpl. lia. Qed.

Lemma respects_sys_exit {A} c : respects R (@sys_exit A c).
Proof. intros w w' H. repeat split; auto. exists 0%N. simpl. lia. Qed.

Lemma respects_bind {A B} (m : Py A) (k : A -> Py B) :
  respects R m -> (forall a, respects R (k a)) -> respects R (bind m k).
Proof.
  intros Hm Hk w w' H. rewrite !bind_run.
  destruct (Hm w w' H) as (Hr & HR & dt & Hc & Hc').
  destruct (m w) as [r1 w1], (m w') as [r2 w2]; simpl in *. subst r2.
  destruct r1 as [a|e|c].
  - destruct (Hk a w1 w2 HR) as (Hr2 & HR2 & dt2 & Hd & Hd').
    repeat split; auto. exists (dt + dt2)%N. lia.
  - repeat split; eauto.
  - repeat split; eauto.
Qed.

Lemma respects_try_except {A} (m : Py A) (h : exn -> Py A) :
  respects R m -> (forall e, respects R (h e)) -> respects R (try_except m h).
Proof.
  intros Hm Hh w w' H. rewrite !try_except_run.
  destruct (Hm w w' H) as (Hr & HR & dt & Hc & Hc').
  destruct (m w) as [r1 w1], (m w') as [r2 w2]; simpl in *. subst r2.
  destruct r1 as [a|e|c].
  - repeat split; eauto.
  - destruct (Hh e w1 w2 HR) as (Hr2 & HR2 & dt2 & Hd & Hd').
    repeat split; auto. exists (dt + dt2)%N. lia.
  - repeat split; eauto.
Qed.

Lemma quiet_ret {A} (a : A) : quiet R (ret a).
Proof. intros w0 w H. exact H. Qed.

Lemma quiet_raise {A} e : quiet R (@raise A e).
Proof. intros w0 w H. exact H. Qed.

Lemma quiet_sys_exit {A} c : quiet R (@sys_exit A c).
Proof. intros w0 w H. exact H. Qed.

Lemma quiet_bind {A B} (m : Py A) (k : A -> Py B) :
  quiet R m -> (forall a, quiet R (k a)) -> quiet R (bind m k).
Proof.
  intros Hm Hk w0 w H. rewrite bind_run. specialize (Hm w0 w H).
  destruct (m w) as [[a|e|c] w1]; simpl in *; auto. apply Hk, Hm.
Qed.

Lemma quiet_try_except {A} (m : Py A) (h : exn -> Py A) :
  quiet R m -> (forall e, quiet R (h e)) -> quiet R (try_except m h).
Proof.
  intros Hm Hh w0 w H. rewrite try_except_run. specialize (Hm w0 w H).
  destruct (m w) as [[a|e|c] w1]; simpl in *; auto. apply Hh, Hm.
Qed.

End combinators.

Lemma no_exit_ret {A} (a : A) : no_exit (ret a).
Proof. intros w. exact I. Qed.

Lemma no_exit_raise {A} e : no_exit (@raise A e).
Proof. intros w. exact I. Qed.

Lemma no_exit_bind {A B} (m : Py A) (k : A -> Py B) :
  no_exit m -> (forall a, no_exit (k a)) -> no_exit (bind m k).
Proof.
  intros Hm Hk w. rewrite bind_run. specialize (Hm w).
  destruct (m w) as [[a|e|c] w1]; simpl in *; auto. apply Hk.
Qed.

Lemma no_exit_try_except {A} (m : Py A) (h : exn -> Py A) :
  no_exit m -> (forall e, no_exit (h e)) -> no_exit (try_except m h).
Proof.
  intros Hm Hh w. rewrite try_except_run. specialize (Hm w).
  destruct (m w) as [[a|e|c] w1]; simpl in *; auto. apply Hh.
Qed.

(** ** The primitives and worlds that are alike *)

Lemma ncalls_snoc ep cs c :
  ncalls ep (cs ++ [c]) = (ncalls ep cs + (if decide (endpoint c = ep) then 1 else 0))%nat.
Proof.
  unfold ncalls. rewrite filter_app, length_app. f_equal.
  rewrite filter_cons, filter_nil. destruct (decide (endpoint c = ep)); reflexivity.
Qed.

Lemma is_dir_write f q data p :
  is_dir f q = false -> is_dir (<[q := File data]> f) p = is_dir f p.
Proof.
  unfold is_dir. intros Hq. destruct p as [|c p]; [reflexivity|].
  destruct q as [|c' q]; [discriminate|].
  repeat case_decide; try reflexivity; try discriminate.
  destruct (decide (c' :: q = c :: p)) as [Heq|Hne].
  - rewrite Heq in *. rewrite lookup_insert_eq.
    destruct (f !! (c :: p)) as [[|?]|]; congruence.
  - rewrite lookup_insert_ne by exact Hne. reflexivity.
Qed.

Section primitives.
Context (det : bool) (E : string -> bool) (d : path).

Ltac conjs := unfold alike; repeat match goal with |- _ /\ _ => split end.

Ltac same_world H :=
  simpl; split; [reflexivity | split; [exact H | exists 0%N; lia]].

Lemma respects_getenv name : respects (alike det E d) (getenv name).
Proof.
  intros w w' H. pose proof H as (He & _). unfold getenv. rewrite He. same_world H.
Qed.

Lemma respects_import pkg : respects (alike det E d) (import_ pkg).
Proof.
  intros w w' H. pose proof H as (_ & Hp & _). unfold import_. rewrite Hp.
  destruct (decide (pkg ∈ site_packages w')); same_world H.
Qed.

Lemma respects_print line : respects (alike det E d) (print line).
Proof.
  intros w w' H. simpl. split; [reflexivity|]. split; [exact H|]. exists 0%N. lia.
Qed.

Lemma respects_construct f : respects (alike det E d) (construct f).
Proof.
  intros w w' H. pose proof H as (_ & _ & Hs & _). unfold construct. rewrite Hs.
  destruct (f (services w')); same_world H.
Qed.

Lemma respects_decode s : respects (alike det E d) (decode s).
Proof.
  intros w w' H. pose proof H as (_ & _ & Hs & _). unfold decode. rewrite Hs.
  destruct (b64decode (services w') s); same_world H.
Qed.

Lemma respects_first {A} (xs : list A) : respects (alike det E d) (first xs).
Proof. destruct xs; [apply respects_raise | apply respects_ret]. Qed.

Lemma respects_request {A} ep (f : Services -> nat -> Reply A) :
  E ep = true \/ (det = true /\ forall S, deterministic S -> forall n m, f S n = f S m) ->
  respects (alike det E d) (request ep f).
Proof.
  intros HE w w' H. destruct H as (He & Hp & Hs & Hd & Hdir & Hc & Hdet).
  assert (f (services w) (ncalls ep (calls w)) =
          f (services w') (ncalls ep (calls w'))) as Hf.
  { rewrite <- Hs. destruct HE as [HE|[Hdt HE]].
    - rewrite (Hc ep HE). reflexivity.
    - apply HE, Hdet, Hdt. }
  unfold request. rewrite <- Hf.
  set (r := f (services w) (ncalls ep (calls w))).
  assert (alike det E d
    (mkWorld (environ w) (site_packages w) (services w) (fs w) (stdout w)
       (clock w + latency r) (calls w ++ [mkCall ep (clock w) (clock w + latency r)]))
    (mkWorld (environ w') (site_packages w') (services w') (fs w') (stdout w')
       (clock w' + latency r)
       (calls w' ++ [mkCall ep (clock w') (clock w' + latency r)]))) as HR.
  { conjs; simpl; auto. intros ep' HE'. rewrite !ncalls_snoc. simpl.
    rewrite (Hc ep' HE'). reflexivity. }
  destruct (outcome r); simpl;
    (split; [reflexivity | split; [exact HR | exists (latency r); split; reflexivity]]).
Qed.

Lemma respects_write_bytes q data :
  parent q = d -> respects (alike det E d) (write_bytes q data).
Proof.
  intros Hq w w' H. pose proof H as (He & Hp & Hs & Hd & Hdir & Hc & Hdet).
  unfold write_bytes. rewrite <- (Hd q), <- (Hd (parent q)), Hq, Hdir.
  destruct (is_dir (fs w) q) eqn:Hisq; [same_world H|].
  simpl. split; [reflexivity|]. split; [|exists 0%N; lia].
  conjs; simpl; auto.
  - intros p. rewrite !is_dir_write; auto. rewrite <- Hd. exact Hisq.
  - rewrite is_dir_write; auto.
Qed.

Lemma quiet_getenv name : quiet (alike det E d) (getenv name).
Proof. intros w0 w H. exact H. Qed.

Lemma quiet_import pkg : quiet (alike det E d) (import_ pkg).
Proof.
  intros w0 w H. unfold import_. destruct (decide (pkg ∈ site_packages w)); exact H.
Qed.

Lemma quiet_print line : quiet (alike det E d) (print line).
Proof. intros w0 w H. exact H. Qed.

Lemma quiet_construct f : quiet (alike det E d) (construct f).
Proof. intros w0 w H. unfold construct. destruct (f (services w)); exact H. Qed.

Lemma quiet_decode s : quiet (alike det E d) (decode s).
Proof. intros w0 w H. unfold decode. destruct (b64decode (services w) s); exact H. Qed.

Lemma quiet_first {A} (xs : list A) : quiet (alike det E d) (first xs).
Proof. destruct xs; [apply quiet_raise | apply quiet_ret]. Qed.

Lemma quiet_request {A} ep (f : Services -> nat -> Reply A) :
  E ep = false -> quiet (alike det E d) (request ep f).
Proof.
  intros HE w0 w H. destruct H as (He & Hp & Hs & Hd & Hdir & Hc & Hdet).
  unfold request.
  destruct (outcome (f (services w) (ncalls ep (calls w)))); simpl;
    (conjs; simpl; auto; intros ep' HE'; rewrite ncalls_snoc; simpl;
     destruct (decide (ep = ep')) as [->|_]; [congruence|];
     rewrite (Hc ep' HE'); lia).
Qed.

Lemma quiet_write_bytes q data : quiet (alike det E d) (write_bytes q data).
Proof.
  intros w0 w H. pose proof H as (He & Hp & Hs & Hd & Hdir & Hc & Hdet).
  unfold write_bytes. destruct (is_dir (fs w) q) eqn:Hisq; [exact H|].
  destruct (is_dir (fs w) (parent q)); [|exact H].
  conjs; simpl; auto.
  intros p. rewrite is_dir_write; auto.
Qed.

End primitives.

(** ** Stepping through a script fragment *)

Ltac det_oracle :=
  let S := fresh "S" in let HS := fresh "HS" in
  intros S HS ? ?;
  first [ apply (det_generate_content S HS) | apply (det_generate_images S HS)
        | apply (det_generativeai S HS) | apply (det_chat S HS)
        | apply (det_images S HS) | apply (det_messages S HS)
        | apply (det_post S HS) ].

Ltac request_side H :=
  first [ left; first [assumption | reflexivity]
        | right; split; [first [assumption | reflexivity] | det_oracle]
        | destruct H as [H|H];
          [ left; exact H | right; split; [exact H | det_oracle] ] ].

Ltac respects_step H :=
  lazymatch goal with
  | |- respects _ (bind _ _) => apply respects_bind; [|intros ?]
  | |- respects _ (try_except _ _) => apply respects_try_except; [|intros ?]
  | |- respects _ (ret _) => apply respects_ret
  | |- respects _ (raise _) => apply respects_raise
  | |- respects _ (sys_exit _) => apply respects_sys_exit
  | |- respects _ (getenv _) => apply respects_getenv
  | |- respects _ (import_ _) => apply respects_import
  | |- respects _ (print _) => apply respects_print
  | |- respects _ (construct _) => apply respects_construct
  | |- respects _ (decode _) => apply respects_decode
  | |- respects _ (first _) => apply respects_first
  | |- respects _ (request _ _) => apply respects_request; request_side H
  | |- respects _ (write_bytes _ _) =>
      apply respects_write_bytes; first [assumption | reflexivity]
  | |- respects _ (if ?c then _ else _) => destruct c
  | |- respects _ (match ?x with _ => _ end) => destruct x
  | |- respects _ (let _ := _ in _) => cbv zeta
  end.

Ltac quiet_step H :=
  lazymatch goal with
  | |- quiet _ (bind _ _) => apply quiet_bind; [|intros ?]
  | |- quiet _ (try_except _ _) => apply quiet_try_except; [|intros ?]
  | |- quiet _ (ret _) => apply quiet_ret
  | |- quiet _ (raise _) => apply quiet_raise
  | |- quiet _ (sys_exit _) => apply quiet_sys_exit
  | |- quiet _ (getenv _) => apply quiet_getenv
  | |- quiet _ (import_ _) => apply quiet_import
  | |- quiet _ (print _) => apply quiet_print
  | |- quiet _ (construct _) => apply quiet_construct
  | |- quiet _ (decode _) => apply quiet_decode
  | |- quiet _ (first _) => apply quiet_first
  | |- quiet _ (request _ _) => apply quiet_request; first [exact H | reflexivity]
  | |- quiet _ (write_bytes _ _) => apply quiet_write_bytes
  | |- quiet _ (if ?c then _ else _) => destruct c
  | |- quiet _ (match ?x with _ => _ end) => destruct x
  | |- quiet _ (let _ := _ in _) => cbv zeta
  end.


Lemma no_exit_getenv name : no_exit (getenv name).
Proof. intros w. exact I. Qed.

Lemma no_exit_import pkg : no_exit (import_ pkg).
Proof. intros w. unfold import_. destruct (decide (pkg ∈ site_packages w)); exact I. Qed.

Lemma no_exit_print line : no_exit (print line).
Proof. intros w. exact I. Qed.

Lemma no_exit_construct f : no_exit (construct f).
Proof. intros w. unfold construct. destruct (f (services w)); exact I. Qed.

Lemma no_exit_decode s : no_exit (decode s).
Proof. intros w. unfold decode. destruct (b64decode (services w) s); exact I. Qed.

Lemma no_exit_first {A} (xs : list A) : no_exit (first xs).
Proof. destruct xs; intros w; exact I. Qed.

Lemma no_exit_request {A} ep (f : Services -> nat -> Reply A) : no_exit (request ep f).
Proof.
  intros w. unfold request.
  destruct (outcome (f (services w) (ncalls ep (calls w)))); exact I.
Qed.

Lemma no_exit_write_bytes q data : no_exit (write_bytes q data).
Proof.
  intros w. unfold write_bytes.
  destruct (is_dir (fs w) q); [exact I|]. destruct (is_dir (fs w) (parent q)); exact I.
Qed.

Lemma no_exit_mkdir q : no_exit (mkdir_exist_ok q).
Proof.
  intros w. unfold mkdir_exist_ok.
  destruct (is_dir (fs w) q); [exact I|]. destruct (is_file (fs w) q); [exact I|].
  destruct (is_dir (fs w) (parent q)); exact I.
Qed.

Ltac no_exit_step :=
  lazymatch goal with
  | |- no_exit (bind _ _) => apply no_exit_bind; [|intros ?]
  | |- no_exit (try_except _ _) => apply no_exit_try_except; [|intros ?]
  | |- no_exit (ret _) => apply no_exit_ret
  | |- no_exit (raise _) => apply no_exit_raise
  | |- no_exit (getenv _) => apply no_exit_getenv
  | |- no_exit (import_ _) => apply no_exit_import
  | |- no_exit (print _) => apply no_exit_print
  | |- no_exit (construct _) => apply no_exit_construct
  | |- no_exit (decode _) => apply no_exit_decode
  | |- no_exit (first _) => apply no_exit_first
  | |- no_exit (request _ _) => apply no_exit_request
  | |- no_exit (write_bytes _ _) => apply no_exit_write_bytes
  | |- no_exit (mkdir_exist_ok _) => apply no_exit_mkdir
  | |- no_exit (if ?c then _ else _) => destruct c
  | |- no_exit (match ?x with _ => _ end) => destruct x
  | |- no_exit (let _ := _ in _) => cbv zeta
  end.

(** ** claude/llm_query.py: the three providers *)

Section llm_query_adapters.
Context (det : bool) (E : string -> bool) (d : path).
Import llm_query.

Lemma respects_query_gemini p m :
  E ep_gemini = true \/ det = true -> respects (alike det E d) (query_gemini p m).
Proof. intros H. unfold query_gemini, ep_gemini in *. repeat respects_step H. Qed.

Lemma respects_query_openai p m sp :
  E ep_openai = true \/ det = true -> respects (alike det E d) (query_openai p m sp).
Proof. intros H. unfold query_openai, ep_openai in *. repeat respects_step H. Qed.

Lemma respects_query_anthropic p m sp mt :
  E ep_anthropic = true \/ det = true ->
  respects (alike det E d) (query_anthropic p m sp mt).
Proof. intros H. unfold query_anthropic, ep_anthropic in *. repeat respects_step H. Qed.

Lemma quiet_query_gemini p m :
  E ep_gemini = false -> quiet (alike det E d) (query_gemini p m).
Proof. intros H. unfold query_gemini, ep_gemini in *. repeat quiet_step H. Qed.

Lemma quiet_query_openai p m sp :
  E ep_openai = false -> quiet (alike det E d) (query_openai p m sp).
Proof. intros H. unfold query_openai, ep_openai in *. repeat quiet_step H. Qed.

Lemma quiet_query_anthropic p m sp mt :
  E ep_anthropic = false -> quiet (alike det E d) (query_anthropic p m sp mt).
Proof. intros H. unfold query_anthropic, ep_anthropic in *. repeat quiet_step H. Qed.

Lemma no_exit_query_gemini p m : no_exit (query_gemini p m).
Proof. unfold query_gemini. repeat no_exit_step. Qed.

Lemma no_exit_query_openai p m sp : no_exit (query_openai p m sp).
Proof. unfold query_openai. repeat no_exit_step. Qed.

Lemma no_exit_query_anthropic p m sp mt : no_exit (query_anthropic p m sp mt).
Proof. unfold query_anthropic. repeat no_exit_step. Qed.

End llm_query_adapters.

(** ** The fan-out pattern *)

Lemma alike_refl det E w :
  (det = true -> deterministic (services w)) -> alike det E [] w w.
Proof. intros H. unfold alike. repeat match goal with |- _ /\ _ => split end; auto. Qed.

Lemma respects_elapsed R {A} (m : Py A) w w' :
  respects R m -> R w w' -> elapsed m w = elapsed m w'.
Proof.
  intros Hm H. destruct (Hm w w' H) as (_ & _ & dt & Hc & Hc').
  unfold elapsed. lia.
Qed.

Lemma respects_clock R {A} (m : Py A) w :
  respects R m -> R w w -> clock (snd (m w)) = (clock w + elapsed m w)%N.
Proof.
  intros Hm H. destruct (Hm w w H) as (_ & _ & dt & Hc & _).
  unfold elapsed. lia.
Qed.

(** One [try: results[k] = m  except Exception as e: results[k] = f"Error: {e}"]. *)
Lemma store_run (k : string) (rs : dict) (m : Py string) w :
  no_exit m ->
  try_except (bind m (fun v => ret (dict_set k v rs)))
             (fun e => ret (dict_set k ("Error: " +:+ exn_msg e) rs)) w
  = (Ret (dict_set k (entry_of (fst (m w))) rs), snd (m w)).
Proof.
  intros Hm. rewrite try_except_run, bind_run. specialize (Hm w).
  destruct (m w) as [[v|e|c] w1]; simpl in *; [reflexivity | reflexivity | contradiction].
Qed.

(** A fragment that respects a relation to which it is itself invisible
    gives the same result when it is run a second time. *)
Lemma run_twice R {A} (m : Py A) w :
  respects R m -> quiet R m -> R w w -> fst (m (snd (m w))) = fst (m w).
Proof.
  intros Hr Hq H. symmetry. apply Hr. apply Hq. exact H.
Qed.

Section llm_query_fan_out.
Context (dflt : llm_query.Defaults).
Import llm_query.

Lemma query_all_run prompt w :
  let g := query_gemini prompt (gemini_model dflt) in
  let o := query_openai prompt (openai_model dflt) None in
  let a := query_anthropic prompt (anthropic_model dflt) None 1024 in
  let w1 := snd (g w) in
  let w2 := snd (o w1) in
  query_all dflt prompt w =
  (Ret [("gemini", entry_of (fst (g w)));
        ("openai", entry_of (fst (o w1)));
        ("anthropic", entry_of (fst (a w2)))], snd (a w2)).
Proof.
  intros g o a w1 w2. unfold query_all. cbv zeta.
  rewrite bind_run, store_run by apply no_exit_query_gemini.
  rewrite bind_run, store_run by apply no_exit_query_openai.
  rewrite bind_run, store_run by apply no_exit_query_anthropic.
  reflexivity.
Qed.

(** Each entry is the outcome the provider has when started alone in the
    world [query_all] was started in. *)
Lemma query_all_entries prompt w :
  let g := query_gemini prompt (gemini_model dflt) in
  let o := query_openai prompt (openai_model dflt) None in
  let a := query_anthropic prompt (anthropic_model dflt) None 1024 in
  exists w',
    query_all dflt prompt w =
    (Ret [("gemini", entry_of (fst (g w)));
          ("openai", entry_of (fst (o w)));
          ("anthropic", entry_of (fst (a w)))], w') /\
    clock w' = (clock w + elapsed g w + elapsed o w + elapsed a w)%N.
Proof.
  intros g o a. rewrite query_all_run. fold g o a.
  set (w1 := snd (g w)). set (w2 := snd (o w1)).
  assert (Ho : alike false (only ep_openai) [] w w1).
  { apply quiet_query_gemini; [reflexivity|]. apply alike_refl. discriminate. }
  assert (Ha : alike false (only ep_anthropic) [] w w2).
  { apply quiet_query_openai; [reflexivity|].
    apply quiet_query_gemini; [reflexivity|]. apply alike_refl. discriminate. }
  pose proof (respects_query_openai false (only ep_openai) [] prompt
                (openai_model dflt) None (or_introl eq_refl)) as Hro.
  pose proof (respects_query_anthropic false (only ep_anthropic) [] prompt
                (anthropic_model dflt) None 1024 (or_introl eq_refl)) as Hra.
  pose proof (respects_query_gemini false (only ep_gemini) [] prompt
                (gemini_model dflt) (or_introl eq_refl)) as Hrg.
  fold g o a in Hro, Hra, Hrg.
  destruct (Hro w w1 Ho) as (Eo & _ & _). destruct (Hra w w2 Ha) as (Ea & _ & _).
  exists (snd (a w2)). split.
  - rewrite <- Eo, <- Ea. reflexivity.
  - rewrite (respects_elapsed _ o w w1 Hro Ho), (respects_elapsed _ a w w2 Hra Ha).
    assert (Hw : forall w, alike false (only ep_gemini) [] w w /\
                           alike false (only ep_openai) [] w w /\
                           alike false (only ep_anthropic) [] w w).
    { intros w0. repeat split; try discriminate; auto. }
    rewrite (respects_clock _ a w2 Hra (proj2 (proj2 (Hw w2)))).
    unfold w2. rewrite (respects_clock _ o w1 Hro (proj1 (proj2 (Hw w1)))).
    unfold w1. rewrite (respects_clock _ g w Hrg (proj1 (Hw w))). reflexivity.
Qed.

End llm_query_fan_out.

Lemma func_map_cases dflt k f :
  llm_query.func_map dflt k = Some f ->
  (k = "gemini" /\
   f = fun prompt model =>
         llm_query.query_gemini prompt (default (llm_query.gemini_model dflt) model)) \/
  (k = "openai" /\
   f = fun prompt model =>
         llm_query.query_openai prompt (default (llm_query.openai_model dflt) model) None) \/
  (k = "anthropic" /\
   f = fun prompt model =>
         llm_query.query_anthropic prompt
           (default (llm_query.anthropic_model dflt) model) None 1024).
Proof.
  unfold llm_query.func_map. intros H.
  destruct (String.eqb_spec k "gemini") as [->|_]; [left; split; congruence|].
  destruct (String.eqb_spec k "openai") as [->|_]; [right; left; split; congruence|].
  destruct (String.eqb_spec k "anthropic") as [->|_]; [right; right; split; congruence|].
  discriminate.
Qed.

(** C5, the claim refuted: three providers that answer after 5, 3 and 4
    units of time.  The requests are logged back to back and [query_all]
    takes 12 units, more than the slowest provider's 5; the requests of
    [main] of [query_llms.py] without a provider argument are back to back
    as well. *)
Lemma query_all_not_parallel :
  elapsed (llm_query.query_gemini "hi" "gemini-2.0-flash") demo_world = 5%N /\
  elapsed (llm_query.query_openai "hi" "gpt-4o" None) demo_world = 3%N /\
  elapsed (llm_query.query_anthropic "hi" "claude-sonnet-4-20250514" None 1024)
    demo_world = 4%N /\
  elapsed (llm_query.query_all llm_query.v1 "hi") demo_world = 12%N /\
  (N.max 5 (N.max 3 4) < 12)%N /\
  calls (snd (llm_query.query_all llm_query.v1 "hi" demo_world)) =
    [mkCall ep_gemini 0 5; mkCall ep_openai 5 8; mkCall ep_anthropic 8 12] /\
  calls (snd (query_llms.main query_llms.v1 ["query_llms.py"; "hi"] demo_world)) =
    [mkCall ep_generativeai 0 5; mkCall ep_openai 5 8; mkCall ep_anthropic 8 12].
Proof. repeat split; vm_compute; reflexivity. Qed.

(** C6 (as the code has it).  [query_all] takes no deadline and waits for
    every provider: when a provider needs more than [deadline] units of
    time, [query_all] returns later than [deadline] after its start, with
    all three keys, and that provider's entry is the provider's own
    outcome: its value, or ["Error: ..."] with the text of whatever the
    provider raised.  [query_all] adds no deadline of its own. *)
Theorem query_all_waits dflt prompt (w : World) (deadline : N) k fk :
  llm_query.func_map dflt k = Some fk ->
  (deadline < elapsed (fk prompt None) w)%N ->
  exists r w',
    llm_query.query_all dflt prompt w = (Ret r, w') /\
    keys r = ["gemini"; "openai"; "anthropic"] /\
    dict_get k r = Some (entry_of (fst (fk prompt None w))) /\
    (clock w + deadline < clock w')%N.
Proof.
  intros Hk Hd. destruct (query_all_entries dflt prompt w) as (w' & Q & Hc).
  cbv zeta in Q, Hc. eexists _, w'. split; [exact Q|]. split; [reflexivity|].
  destruct (func_map_cases _ _ _ Hk) as [[-> ->]|[[-> ->]|[-> ->]]];
    simpl in Hd |- *; (split; [reflexivity | lia]).
Qed.

Lemma query_all_waits_witness :
  (1 < elapsed (llm_query.query_gemini "hi" "gemini-2.0-flash") demo_world)%N /\
  exists r w',
    llm_query.query_all llm_query.v1 "hi" demo_world = (Ret r, w') /\
    keys r = ["gemini"; "openai"; "anthropic"] /\
    dict_get "gemini" r =
      Some (entry_of (fst (llm_query.query_gemini "hi" "gemini-2.0-flash" demo_world))) /\
    (clock demo_world + 1 < clock w')%N.
Proof.
  split; [vm_compute; reflexivity|].
  apply (query_all_waits llm_query.v1 "hi" demo_world 1 "gemini"
           (fun prompt model =>
              llm_query.query_gemini prompt
                (default (llm_query.gemini_model llm_query.v1) model))).
  - reflexivity.
  - vm_compute; reflexivity.
Defined.

(** C6, the claim refuted: with a deadline of 1 unit of time the request
    of [gemini] is still outstanding at the deadline (it ends at time 5),
    yet the entry of [gemini] is the answer ["ok"], not a failure, and
    [query_all] returns at time 12. *)
Lemma query_all_ignores_deadline :
  (1 < elapsed (llm_query.query_gemini "hi" "gemini-2.0-flash") demo_world)%N /\
  fst (llm_query.query_all llm_query.v1 "hi" demo_world) =
    Ret [("gemini", "ok"); ("openai", "hello"); ("anthropic", "hi there")] /\
  clock (snd (llm_query.query_all llm_query.v1 "hi" demo_world)) = 12%N.
Proof. repeat split; vm_compute; reflexivity. Qed.

(** ** Paths: [Path(str(p / name))] is [p / name] *)

Lemma app_cons c s t : String c s +:+ t = String c (s +:+ t).
Proof. reflexivity. Qed.


Lemma split_slash_no_slash s : Forall (fun x => no_slash x = true) (split_slash s).
Proof.
  induction s as [|c s IH]; simpl.
  - repeat constructor.
  - destruct (Ascii.eqb c "/") eqn:Hc.
    + constructor; [reflexivity | exact IH].
    + destruct (split_slash s) as [|x xs]; [repeat constructor; simpl; rewrite Hc; reflexivity|].
      inversion IH; subst. constructor; [|assumption]. simpl. rewrite Hc. assumption.
Qed.

Lemma split_slash_one a : no_slash a = true -> split_slash a = [a].
Proof.
  induction a as [|c a IH]; simpl; [reflexivity|].
  destruct (Ascii.eqb c "/"); [discriminate|]. intros H. rewrite (IH H). reflexivity.
Qed.

Lemma split_slash_app a b :
  no_slash a = true -> split_slash (a +:+ "/" +:+ b) = a :: split_slash b.
Proof.
  induction a as [|c a IH]; intros H.
  - reflexivity.
  - simpl in H. rewrite app_cons. simpl. destruct (Ascii.eqb c "/"); [discriminate|].
    rewrite (IH H). reflexivity.
Qed.

Lemma split_join parts :
  parts <> [] -> Forall (fun x => no_slash x = true) parts ->
  split_slash (join_slash parts) = parts.
Proof.
  induction parts as [|x [|y ys] IH]; intros Hne H.
  - contradiction.
  - apply split_slash_one. inversion H; assumption.
  - inversion H; subst. change (join_slash (x :: y :: ys)) with (x +:+ "/" +:+ join_slash (y :: ys)).
    rewrite split_slash_app by assumption. rewrite IH; [reflexivity | discriminate | assumption].
Qed.

Lemma filter_all {A} (P : A -> Prop) `{forall x, Decision (P x)} (l : list A) :
  Forall P l -> filter P l = l.
Proof.
  induction 1 as [|x l Hx Hl IH]; [reflexivity|].
  rewrite filter_cons_True by exact Hx. rewrite IH. reflexivity.
Qed.

Lemma filter_kept_good s : Forall good (filter kept (split_slash s)).
Proof.
  pose proof (split_slash_no_slash s) as H.
  induction H as [|x l Hx Hl IH]; [constructor|].
  rewrite filter_cons. destruct (decide (kept x)); [|exact IH].
  constructor; [split; assumption | exact IH].
Qed.

Lemma good_parts_no_slash parts : Forall good parts -> Forall (fun x => no_slash x = true) parts.
Proof. intros H. eapply Forall_impl; [exact H|]. intros x [_ Hx]. exact Hx. Qed.

Lemma good_parts_kept parts : Forall good parts -> Forall kept parts.
Proof. intros H. eapply Forall_impl; [exact H|]. intros x [Hx _]. exact Hx. Qed.

Lemma good_not_root x : good x -> String.eqb x "/" = false.
Proof.
  intros [_ H]. destruct (String.eqb_spec x "/") as [->|]; [discriminate | reflexivity].
Qed.

Lemma join_relative x rest : good x -> is_absolute (join_slash (x :: rest)) = false.
Proof.
  intros [[Hne _] Hs]. destruct x as [|c x]; [contradiction|].
  simpl in Hs. destruct (Ascii.eqb c "/") eqn:Hc; [discriminate|].
  destruct rest; simpl; exact Hc.
Qed.

(** [Path] undoes [str] on the paths that [Path] produces. *)
Lemma Path_path_str_relative parts :
  Forall good parts -> Path (path_str parts) = parts.
Proof.
  intros H. destruct parts as [|x rest]; [reflexivity|].
  inversion H as [|? ? Hx Hrest]; subst. unfold path_str.
  rewrite (good_not_root x Hx). unfold Path.
  rewrite (join_relative x rest Hx).
  rewrite split_join; [| discriminate | apply good_parts_no_slash; exact H].
  apply filter_all, good_parts_kept, H.
Qed.

Lemma Path_path_str_absolute parts :
  Forall good parts -> Path (path_str ("/" :: parts)) = "/" :: parts.
Proof.
  intros H. unfold path_str. simpl String.eqb. cbv iota. unfold Path.
  rewrite app_cons. simpl is_absolute. cbv iota. f_equal.
  change (split_slash (String "/" ("" +:+ join_slash parts)))
    with ("" :: split_slash (join_slash parts)).
  rewrite filter_cons_False by (intros [Hne _]; apply Hne; reflexivity).
  destruct parts as [|x rest]; [reflexivity|].
  rewrite split_join; [| discriminate | apply good_parts_no_slash; exact H].
  apply filter_all, good_parts_kept, H.
Qed.

Lemma Path_child s name :
  good name -> Path (path_str (path_join (Path s) name)) = path_join (Path s) name.
Proof.
  intros Hn. unfold path_join. unfold Path at 2 3.
  pose proof (filter_kept_good s) as Hg.
  assert (Forall good (filter kept (split_slash s) ++ [name])) as Hall.
  { apply Forall_app. split; [exact Hg|]. constructor; [exact Hn | constructor]. }
  cbv zeta. destruct (is_absolute s).
  - apply (Path_path_str_absolute _ Hall).
  - apply (Path_path_str_relative _ Hall).
Qed.

Lemma parent_child p name : good name -> parent (path_join p name) = p.
Proof.
  intros Hn. unfold path_join, parent.
  destruct p as [|x [|y p]]; simpl.
  - rewrite (good_not_root _ Hn). reflexivity.
  - reflexivity.
  - f_equal. f_equal. change (removelast ((y :: p) ++ [name]) = y :: p).
    apply removelast_last.
Qed.

Lemma good_file_names :
  good "dalle_output.png" /\ good "openai_output.png" /\
  good "imagen_output.png" /\ good "stability_output.png".
Proof. repeat split; discriminate. Qed.

Lemma child_parent s name :
  good name -> parent (Path (path_str (path_join (Path s) name))) = Path s.
Proof. intros H. rewrite Path_child by exact H. apply parent_child, H. Qed.

(** ** claude/image_generation.py and its v2: the providers *)

Section image_adapters.
Context (det : bool) (E : string -> bool) (d : path).

Lemma respects_generate_dalle p out m sz q :
  parent (Path out) = d -> E "openai.images.generate" = true \/ det = true ->
  respects (alike det E d) (image_generation.generate_dalle p out m sz q).
Proof. intros Hd H. unfold image_generation.generate_dalle. repeat respects_step H. Qed.

Lemma respects_generate_imagen p out m :
  parent (Path out) = d -> E "genai.models.generate_images" = true \/ det = true ->
  respects (alike det E d) (image_generation.generate_imagen p out m).
Proof. intros Hd H. unfold image_generation.generate_imagen. repeat respects_step H. Qed.

Lemma respects_generate_stability p out m wd ht :
  parent (Path out) = d -> E "requests.post" = true \/ det = true ->
  respects (alike det E d) (image_generation.generate_stability p out m wd ht).
Proof.
  intros Hd H.
  unfold image_generation.generate_stability, image_generation.json_of,
    image_generation.first_artifact.
  repeat respects_step H.
Qed.

Lemma respects_generate_openai_image p out m sz q :
  parent (Path out) = d -> E "openai.images.generate" = true \/ det = true ->
  respects (alike det E d) (image_generation_v2.generate_openai_image p out m sz q).
Proof.
  intros Hd H. unfold image_generation_v2.generate_openai_image. repeat respects_step H.
Qed.

Lemma respects_generate_imagen_v2 p out m :
  parent (Path out) = d -> E "genai.models.generate_images" = true \/ det = true ->
  respects (alike det E d) (image_generation_v2.generate_imagen p out m).
Proof. intros Hd H. unfold image_generation_v2.generate_imagen. repeat respects_step H. Qed.

Lemma respects_generate_stability_v2 p out m wd ht :
  parent (Path out) = d -> E "requests.post" = true \/ det = true ->
  respects (alike det E d) (image_generation_v2.generate_stability p out m wd ht).
Proof.
  intros Hd H. unfold image_generation_v2.generate_stability. repeat respects_step H.
Qed.

Lemma quiet_generate_dalle p out m sz q :
  E "openai.images.generate" = false ->
  quiet (alike det E d) (image_generation.generate_dalle p out m sz q).
Proof. intros H. unfold image_generation.generate_dalle. repeat quiet_step H. Qed.

Lemma quiet_generate_imagen p out m :
  E "genai.models.generate_images" = false ->
  quiet (alike det E d) (image_generation.generate_imagen p out m).
Proof. intros H. unfold image_generation.generate_imagen. repeat quiet_step H. Qed.

Lemma quiet_generate_stability p out m wd ht :
  E "requests.post" = false ->
  quiet (alike det E d) (image_generation.generate_stability p out m wd ht).
Proof.
  intros H.
  unfold image_generation.generate_stability, image_generation.json_of,
    image_generation.first_artifact.
  repeat quiet_step H.
Qed.

Lemma quiet_generate_openai_image p out m sz q :
  E "openai.images.generate" = false ->
  quiet (alike det E d) (image_generation_v2.generate_openai_image p out m sz q).
Proof. intros H. unfold image_generation_v2.generate_openai_image. repeat quiet_step H. Qed.

Lemma quiet_generate_imagen_v2 p out m :
  E "genai.models.generate_images" = false ->
  quiet (alike det E d) (image_generation_v2.generate_imagen p out m).
Proof. intros H. unfold image_generation_v2.generate_imagen. repeat quiet_step H. Qed.

Lemma quiet_generate_stability_v2 p out m wd ht :
  E "requests.post" = false ->
  quiet (alike det E d) (image_generation_v2.generate_stability p out m wd ht).
Proof. intros H. unfold image_generation_v2.generate_stability. repeat quiet_step H. Qed.

End image_adapters.

Lemma no_exit_generate_dalle p out m sz q :
  no_exit (image_generation.generate_dalle p out m sz q).
Proof. unfold image_generation.generate_dalle. repeat no_exit_step. Qed.

Lemma no_exit_generate_imagen p out m : no_exit (image_generation.generate_imagen p out m).
Proof. unfold image_generation.generate_imagen. repeat no_exit_step. Qed.

Lemma no_exit_generate_stability p out m wd ht :
  no_exit (image_generation.generate_stability p out m wd ht).
Proof.
  unfold image_generation.generate_stability, image_generation.json_of,
    image_generation.first_artifact.
  repeat no_exit_step.
Qed.

Lemma no_exit_generate_openai_image p out m sz q :
  no_exit (image_generation_v2.generate_openai_image p out m sz q).
Proof. unfold image_generation_v2.generate_openai_image. repeat no_exit_step. Qed.

Lemma no_exit_generate_imagen_v2 p out m :
  no_exit (image_generation_v2.generate_imagen p out m).
Proof. unfold image_generation_v2.generate_imagen. repeat no_exit_step. Qed.

Lemma no_exit_generate_stability_v2 p out m wd ht :
  no_exit (image_generation_v2.generate_stability p out m wd ht).
Proof. unfold image_generation_v2.generate_stability. repeat no_exit_step. Qed.

(** ** What the providers leave alone *)

Lemma untouched_refl w : untouched w w.
Proof. repeat split. Qed.

Lemma still_ret {A} (a : A) : still (ret a).
Proof. intros w. apply untouched_refl. Qed.

Lemma still_raise {A} e : still (@raise A e).
Proof. intros w. apply untouched_refl. Qed.

Lemma still_getenv name : still (getenv name).
Proof. intros w. apply untouched_refl. Qed.

Lemma still_import pkg : still (import_ pkg).
Proof.
  intros w. unfold import_.
  destruct (decide (pkg ∈ site_packages w)); apply untouched_refl.
Qed.

Lemma still_construct f : still (construct f).
Proof. intros w. unfold construct. destruct (f (services w)); apply untouched_refl. Qed.

Lemma still_decode s : still (decode s).
Proof.
  intros w. unfold decode. destruct (b64decode (services w) s); apply untouched_refl.
Qed.

Lemma still_first {A} (xs : list A) : still (first xs).
Proof. destruct xs; intros w; apply untouched_refl. Qed.

Lemma still_request {A} ep (f : Services -> nat -> Reply A) : still (request ep f).
Proof.
  intros w. unfold request.
  destruct (outcome (f (services w) (ncalls ep (calls w)))); repeat split.
Qed.

Lemma still_bind {A B} (m : Py A) (k : A -> Py B) :
  still m -> (forall a, still (k a)) -> still (bind m k).
Proof.
  intros Hm Hk w. rewrite bind_run. specialize (Hm w).
  destruct (m w) as [[a|e|c] w1]; simpl in *; auto.
  specialize (Hk a w1). destruct Hm as (?&?&?&?&?), Hk as (?&?&?&?&?).
  repeat split; congruence.
Qed.

Lemma tidy_still {A} (m : Py A) : still m -> tidy m.
Proof.
  intros H w. destruct (H w) as (He & Hp & Hs & Ho & Hf).
  repeat match goal with |- _ /\ _ => split end; auto.
  destruct (fst (m w)); auto. intros p. rewrite Hf. reflexivity.
Qed.

Lemma tidy_bind {A B} (m : Py A) (k : A -> Py B) :
  still m -> (forall a, tidy (k a)) -> tidy (bind m k).
Proof.
  intros Hm Hk w. rewrite bind_run. destruct (Hm w) as (He & Hp & Hs & Ho & Hf).
  destruct (m w) as [[a|e|c] w1]; simpl in *;
    try (repeat match goal with |- _ /\ _ => split end; assumption).
  destruct (Hk a w1) as (He' & Hp' & Hs' & Ho' & Hf').
  repeat match goal with |- _ /\ _ => split end; try congruence.
  rewrite <- Hf. exact Hf'.
Qed.

Lemma tidy_write_ret {A} q data (a : A) :
  tidy (bind (write_bytes q data) (fun _ => ret a)).
Proof.
  intros w. rewrite bind_run. unfold write_bytes, ret, set_fs.
  destruct (is_dir (fs w) q) eqn:Hq; simpl; [repeat split|].
  destruct (is_dir (fs w) (parent q)); simpl; repeat split.
  intros p. apply is_dir_write, Hq.
Qed.

Ltac still_step :=
  lazymatch goal with
  | |- still (bind _ _) => apply still_bind; [|intros ?]
  | |- still (ret _) => apply still_ret
  | |- still (raise _) => apply still_raise
  | |- still (getenv _) => apply still_getenv
  | |- still (import_ _) => apply still_import
  | |- still (construct _) => apply still_construct
  | |- still (decode _) => apply still_decode
  | |- still (first _) => apply still_first
  | |- still (request _ _) => apply still_request
  | |- still (if ?c then _ else _) => destruct c
  | |- still (match ?x with _ => _ end) => destruct x
  | |- still (let _ := _ in _) => cbv zeta
  end.

Ltac tidy_step :=
  lazymatch goal with
  | |- tidy (bind (write_bytes _ _) _) => apply tidy_write_ret
  | |- tidy (bind _ _) => apply tidy_bind; [repeat still_step|intros ?]
  | |- tidy (ret _) => apply tidy_still, still_ret
  | |- tidy (raise _) => apply tidy_still, still_raise
  | |- tidy (if ?c then _ else _) => destruct c
  | |- tidy (match ?x with _ => _ end) => destruct x
  | |- tidy (let _ := _ in _) => cbv zeta
  end.

Lemma tidy_generate_dalle p out m sz q :
  tidy (image_generation.generate_dalle p out m sz q).
Proof. unfold image_generation.generate_dalle. repeat tidy_step. Qed.

Lemma tidy_generate_imagen p out m : tidy (image_generation.generate_imagen p out m).
Proof. unfold image_generation.generate_imagen. repeat tidy_step. Qed.

Lemma tidy_generate_stability p out m wd ht :
  tidy (image_generation.generate_stability p out m wd ht).
Proof.
  unfold image_generation.generate_stability, image_generation.json_of,
    image_generation.first_artifact.
  repeat tidy_step.
Qed.

Lemma tidy_generate_openai_image p out m sz q :
  tidy (image_generation_v2.generate_openai_image p out m sz q).
Proof. unfold image_generation_v2.generate_openai_image. repeat tidy_step. Qed.

Lemma tidy_generate_imagen_v2 p out m :
  tidy (image_generation_v2.generate_imagen p out m).
Proof. unfold image_generation_v2.generate_imagen. repeat tidy_step. Qed.

Lemma tidy_generate_stability_v2 p out m wd ht :
  tidy (image_generation_v2.generate_stability p out m wd ht).
Proof. unfold image_generation_v2.generate_stability. repeat tidy_step. Qed.

(** ** [generate_all]: the directory, then the fan-out *)

Lemma alike_refl_dir det E d w :
  (det = true -> deterministic (services w)) -> is_dir (fs w) d = true ->
  alike det E d w w.
Proof. intros H Hd. unfold alike. repeat match goal with |- _ /\ _ => split end; auto. Qed.

Lemma fan_out_run k1 k2 k3 (a1 a2 a3 : Py string) w :
  no_exit a1 -> no_exit a2 -> no_exit a3 ->
  fan_out k1 k2 k3 a1 a2 a3 w =
  (Ret (dict_set k3 (entry_of (fst (a3 (snd (a2 (snd (a1 w)))))))
       (dict_set k2 (entry_of (fst (a2 (snd (a1 w)))))
       (dict_set k1 (entry_of (fst (a1 w))) []))),
   snd (a3 (snd (a2 (snd (a1 w)))))).
Proof.
  intros H1 H2 H3. unfold fan_out. cbv zeta.
  rewrite bind_run, store_run by exact H1.
  rewrite bind_run, store_run by exact H2.
  rewrite bind_run, store_run by exact H3.
  reflexivity.
Qed.

Lemma respects_fan_out R k1 k2 k3 (a1 a2 a3 : Py string) :
  respects R a1 -> respects R a2 -> respects R a3 ->
  respects R (fan_out k1 k2 k3 a1 a2 a3).
Proof.
  intros H1 H2 H3. unfold fan_out.
  repeat first [ apply respects_bind | apply respects_try_except | apply respects_ret
               | assumption | intros ? ].
Qed.

Lemma quiet_fan_out R k1 k2 k3 (a1 a2 a3 : Py string) :
  quiet R a1 -> quiet R a2 -> quiet R a3 -> quiet R (fan_out k1 k2 k3 a1 a2 a3).
Proof.
  intros H1 H2 H3. unfold fan_out.
  repeat first [ apply quiet_bind | apply quiet_try_except | apply quiet_ret
               | assumption | intros ? ].
Qed.

Lemma is_dir_mkdir f q : is_dir (<[q := Dir]> f) q = true.
Proof.
  unfold is_dir. destruct q; [reflexivity|]. case_decide; [reflexivity|].
  rewrite lookup_insert_eq. reflexivity.
Qed.

Lemma is_dir_mkdir_mono f q p : is_dir f p = true -> is_dir (<[q := Dir]> f) p = true.
Proof.
  unfold is_dir. destruct p; [reflexivity|]. case_decide; [reflexivity|].
  destruct (decide (q = s :: p)) as [->|Hne].
  - rewrite lookup_insert_eq. reflexivity.
  - rewrite lookup_insert_ne by exact Hne. auto.
Qed.

(** What [mkdir(exist_ok=True)] does: nothing to a directory that is
    there, a new directory under a parent that is there, and otherwise an
    error that leaves the world as it was. *)
Lemma mkdir_cases q w :
  (is_dir (fs w) q = true /\ mkdir_exist_ok q w = (Ret tt, w)) \/
  (is_dir (fs w) q = false /\
   mkdir_exist_ok q w = (Ret tt, set_fs (<[q := Dir]> (fs w)) w)) \/
  (is_dir (fs w) q = false /\ exists e, mkdir_exist_ok q w = (Raise e, w)).
Proof.
  unfold mkdir_exist_ok. destruct (is_dir (fs w) q); [left; split; reflexivity|].
  right. destruct (is_file (fs w) q); [right; split; eauto|].
  destruct (is_dir (fs w) (parent q)); [left; split; reflexivity|].
  right; split; eauto.
Qed.

Lemma mkdir_ret q w u w1 :
  mkdir_exist_ok q w = (Ret u, w1) ->
  is_dir (fs w1) q = true /\
  environ w1 = environ w /\ site_packages w1 = site_packages w /\
  services w1 = services w /\ stdout w1 = stdout w /\
  clock w1 = clock w /\ calls w1 = calls w /\
  fs w1 = (if is_dir (fs w) q then fs w else <[q := Dir]> (fs w)) /\
  forall p, is_dir (fs w) p = true -> is_dir (fs w1) p = true.
Proof.
  intros H. destruct (mkdir_cases q w) as [[Hd E]|[[Hd E]|[Hd [e E]]]];
    rewrite E in H; inversion H; subst; clear H; rewrite Hd.
  - repeat split; auto.
  - simpl. repeat split; auto using is_dir_mkdir, is_dir_mkdir_mono.
Qed.

(** The directory first, then a fragment [rest] that respects it: run
    twice against deterministic vendors, the outcome is the same. *)
Lemma mkdir_then_twice q (rest : Py dict) w :
  respects (alike true nothing q) rest -> quiet (alike true nothing q) rest ->
  deterministic (services w) ->
  let G := bind (mkdir_exist_ok q) (fun _ => rest) in
  fst (G (snd (G w))) = fst (G w).
Proof.
  intros Hr Hq Hdet G. unfold G. rewrite !bind_run.
  destruct (mkdir_cases q w) as [[Hd E]|[[Hd E]|[Hd [e E]]]]; rewrite E.
  - assert (alike true nothing q w (snd (rest w))) as Hw.
    { apply Hq, alike_refl_dir; auto. }
    destruct (rest w) as [r w4] eqn:Er; simpl in *.
    assert (is_dir (fs w4) q = true) as Hd4.
    { destruct Hw as (_ & _ & _ & Hdirs & _). rewrite <- Hdirs. exact Hd. }
    destruct (mkdir_cases q w4) as [[_ E4]|[[Hd' _]|[Hd' _]]]; try congruence.
    rewrite E4. destruct (Hr w w4 Hw) as (Hres & _). rewrite Er in Hres.
    destruct r; simpl in *; rewrite <- Hres; reflexivity.
  - set (w1 := set_fs (<[q:=Dir]> (fs w)) w).
    assert (is_dir (fs w1) q = true) as Hd1 by apply is_dir_mkdir.
    assert (alike true nothing q w1 (snd (rest w1))) as Hw.
    { apply Hq, alike_refl_dir; auto. }
    destruct (rest w1) as [r w4] eqn:Er; simpl in *.
    assert (is_dir (fs w4) q = true) as Hd4.
    { destruct Hw as (_ & _ & _ & Hdirs & _). rewrite <- Hdirs. exact Hd1. }
    destruct (mkdir_cases q w4) as [[_ E4]|[[Hd' _]|[Hd' _]]]; try congruence.
    destruct (Hr w1 w4 Hw) as (Hres & _). rewrite Er in Hres.
    destruct r; simpl in *; rewrite ?E4; simpl; rewrite <- ?Hres; reflexivity.
  - simpl. rewrite E. reflexivity.
Qed.

Lemma generate_all_fan_out p d :
  image_generation.generate_all p d =
  bind (mkdir_exist_ok (Path d))
       (fun _ => fan_out "dalle" "imagen" "stability"
                   (dalle_call p d) (imagen_call p d) (stability_call p d)).
Proof. reflexivity. Qed.

Lemma generate_all_v2_fan_out p d :
  image_generation_v2.generate_all p d =
  bind (mkdir_exist_ok (Path d))
       (fun _ => fan_out "openai" "imagen" "stability"
                   (openai_call_v2 p d) (imagen_call_v2 p d) (stability_call_v2 p d)).
Proof. reflexivity. Qed.

Lemma query_all_fan_out dflt p :
  llm_query.query_all dflt p =
  fan_out "gemini" "openai" "anthropic"
    (llm_query.query_gemini p (llm_query.gemini_model dflt))
    (llm_query.query_openai p (llm_query.openai_model dflt) None)
    (llm_query.query_anthropic p (llm_query.anthropic_model dflt) None 1024).
Proof. reflexivity. Qed.

(** After the directory, the fan-out: the run of
    [mkdir; fan_out k1 k2 k3 a1 a2 a3]. *)
Lemma mkdir_fan_out_run q k1 k2 k3 (a1 a2 a3 : Py string) w :
  no_exit a1 -> no_exit a2 -> no_exit a3 ->
  let G := bind (mkdir_exist_ok q) (fun _ => fan_out k1 k2 k3 a1 a2 a3) in
  let w1 := snd (mkdir_exist_ok q w) in
  (fst (mkdir_exist_ok q w) = Ret tt /\
   G w = (Ret (dict_set k3 (entry_of (fst (a3 (snd (a2 (snd (a1 w1)))))))
              (dict_set k2 (entry_of (fst (a2 (snd (a1 w1)))))
              (dict_set k1 (entry_of (fst (a1 w1))) []))),
          snd (a3 (snd (a2 (snd (a1 w1))))))) \/
  (exists e, fst (mkdir_exist_ok q w) = Raise e /\ G w = (Raise e, w)).
Proof.
  intros H1 H2 H3 G w1. unfold G, w1. rewrite bind_run.
  destruct (mkdir_cases q w) as [[Hd E]|[[Hd E]|[Hd [e E]]]]; rewrite E; simpl.
  - left. split; [reflexivity|]. apply fan_out_run; assumption.
  - left. split; [reflexivity|]. apply fan_out_run; assumption.
  - right. exists e. split; reflexivity.
Qed.




Lemma no_exit_calls p d :
  no_exit (dalle_call p d) /\ no_exit (imagen_call p d) /\ no_exit (stability_call p d) /\
  no_exit (openai_call_v2 p d) /\ no_exit (imagen_call_v2 p d) /\
  no_exit (stability_call_v2 p d).
Proof.
  split_ands;
    [ apply no_exit_generate_dalle | apply no_exit_generate_imagen
    | apply no_exit_generate_stability | apply no_exit_generate_openai_image
    | apply no_exit_generate_imagen_v2 | apply no_exit_generate_stability_v2 ].
Qed.

Lemma tidy_calls p d :
  tidy (dalle_call p d) /\ tidy (imagen_call p d) /\ tidy (stability_call p d) /\
  tidy (openai_call_v2 p d) /\ tidy (imagen_call_v2 p d) /\ tidy (stability_call_v2 p d).
Proof.
  split_ands;
    [ apply tidy_generate_dalle | apply tidy_generate_imagen
    | apply tidy_generate_stability | apply tidy_generate_openai_image
    | apply tidy_generate_imagen_v2 | apply tidy_generate_stability_v2 ].
Qed.

(** C1 (as the code has it).  [query_all] returns, for every prompt and
    world, a dict with exactly the keys [gemini], [openai], [anthropic],
    each once, whatever the providers do.  [generate_all] (both versions)
    returns a dict with exactly its three keys whenever the output
    directory can be made; when [mkdir] raises, [generate_all] raises the
    same error, no provider is invoked and there is no dict. *)
Theorem fan_out_keys :
  (forall dflt prompt w, exists r w',
      llm_query.query_all dflt prompt w = (Ret r, w') /\
      keys r = ["gemini"; "openai"; "anthropic"]) /\
  (forall prompt output_dir w,
      (fst (mkdir_exist_ok (Path output_dir) w) = Ret tt /\
       exists r w',
         image_generation.generate_all prompt output_dir w = (Ret r, w') /\
         keys r = ["dalle"; "imagen"; "stability"]) \/
      (exists e,
         fst (mkdir_exist_ok (Path output_dir) w) = Raise e /\
         image_generation.generate_all prompt output_dir w = (Raise e, w))) /\
  (forall prompt output_dir w,
      (fst (mkdir_exist_ok (Path output_dir) w) = Ret tt /\
       exists r w',
         image_generation_v2.generate_all prompt output_dir w = (Ret r, w') /\
         keys r = ["openai"; "imagen"; "stability"]) \/
      (exists e,
         fst (mkdir_exist_ok (Path output_dir) w) = Raise e /\
         image_generation_v2.generate_all prompt output_dir w = (Raise e, w))).
Proof.
  split; [|split].
  - intros dflt prompt w. rewrite query_all_run. eexists _, _. split; reflexivity.
  - intros p d w. rewrite generate_all_fan_out.
    destruct (no_exit_calls p d) as (N1 & N2 & N3 & _).
    destruct (mkdir_fan_out_run (Path d) "dalle" "imagen" "stability" _ _ _ w N1 N2 N3)
      as [[Hm E]|[e [Hm E]]].
    + left. split; [exact Hm|]. eexists _, _. split; [exact E | reflexivity].
    + right. exists e. split; assumption.
  - intros p d w. rewrite generate_all_v2_fan_out.
    destruct (no_exit_calls p d) as (_ & _ & _ & N1 & N2 & N3).
    destruct (mkdir_fan_out_run (Path d) "openai" "imagen" "stability" _ _ _ w N1 N2 N3)
      as [[Hm E]|[e [Hm E]]].
    + left. split; [exact Hm|]. eexists _, _. split; [exact E | reflexivity].
    + right. exists e. split; assumption.
Qed.

(** C1, the claim refuted: an output directory whose parent does not
    exist.  [generate_all] raises [FileNotFoundError] from [mkdir] and
    returns no result at all; nothing was requested from any provider. *)
Lemma generate_all_without_result :
  image_generation.generate_all "a cat" "missing/out" demo_world =
    (Raise (mkExn FileNotFoundError
              "[Errno 2] No such file or directory: 'missing/out'"), demo_world) /\
  calls demo_world = [].
Proof. split; vm_compute; reflexivity. Qed.

Lemma respects_calls p d :
  let R := alike true nothing (Path d) in
  respects R (dalle_call p d) /\ respects R (imagen_call p d) /\
  respects R (stability_call p d) /\ respects R (openai_call_v2 p d) /\
  respects R (imagen_call_v2 p d) /\ respects R (stability_call_v2 p d).
Proof.
  destruct good_file_names as (G1 & G2 & G3 & G4). cbv zeta.
  split_ands;
    [ apply respects_generate_dalle | apply respects_generate_imagen
    | apply respects_generate_stability | apply respects_generate_openai_image
    | apply respects_generate_imagen_v2 | apply respects_generate_stability_v2 ];
    first [ apply child_parent; assumption | right; reflexivity ].
Qed.

Lemma quiet_calls p d :
  let R := alike true nothing (Path d) in
  quiet R (dalle_call p d) /\ quiet R (imagen_call p d) /\
  quiet R (stability_call p d) /\ quiet R (openai_call_v2 p d) /\
  quiet R (imagen_call_v2 p d) /\ quiet R (stability_call_v2 p d).
Proof.
  cbv zeta. split_ands;
    [ apply quiet_generate_dalle | apply quiet_generate_imagen
    | apply quiet_generate_stability | apply quiet_generate_openai_image
    | apply quiet_generate_imagen_v2 | apply quiet_generate_stability_v2 ];
    reflexivity.
Qed.

(** C7.  Against deterministic vendors the fan-out gives the same thing
    twice: [query_all] run again in the world its first run left behind
    returns the same dict, and so does [generate_all] (both versions),
    which also raises the same [mkdir] error twice when the directory
    cannot be made. *)
Theorem fan_out_twice (w : World) :
  deterministic (services w) ->
  (forall dflt prompt,
      fst (llm_query.query_all dflt prompt (snd (llm_query.query_all dflt prompt w)))
      = fst (llm_query.query_all dflt prompt w)) /\
  (forall prompt output_dir,
      fst (image_generation.generate_all prompt output_dir
             (snd (image_generation.generate_all prompt output_dir w)))
      = fst (image_generation.generate_all prompt output_dir w)) /\
  (forall prompt output_dir,
      fst (image_generation_v2.generate_all prompt output_dir
             (snd (image_generation_v2.generate_all prompt output_dir w)))
      = fst (image_generation_v2.generate_all prompt output_dir w)).
Proof.
  intros Hdet. split; [|split].
  - intros dflt prompt. rewrite query_all_fan_out.
    apply (run_twice (alike true nothing [])).
    + apply respects_fan_out;
        [ apply respects_query_gemini | apply respects_query_openai
        | apply respects_query_anthropic ]; right; reflexivity.
    + apply quiet_fan_out;
        [ apply quiet_query_gemini | apply quiet_query_openai
        | apply quiet_query_anthropic ]; reflexivity.
    + apply alike_refl. intros _. exact Hdet.
  - intros p d. rewrite generate_all_fan_out.
    destruct (respects_calls p d) as (R1 & R2 & R3 & _).
    destruct (quiet_calls p d) as (Q1 & Q2 & Q3 & _).
    apply (mkdir_then_twice (Path d)); [| | exact Hdet].
    + apply respects_fan_out; assumption.
    + apply quiet_fan_out; assumption.
  - intros p d. rewrite generate_all_v2_fan_out.
    destruct (respects_calls p d) as (_ & _ & _ & R1 & R2 & R3).
    destruct (quiet_calls p d) as (_ & _ & _ & Q1 & Q2 & Q3).
    apply (mkdir_then_twice (Path d)); [| | exact Hdet].
    + apply respects_fan_out; assumption.
    + apply quiet_fan_out; assumption.
Qed.

Lemma deterministic_demo : deterministic demo_services.
Proof. constructor; intros; reflexivity. Qed.

Lemma fan_out_twice_witness :
  deterministic (services demo_world) /\
  fst (llm_query.query_all llm_query.v1 "hi" demo_world)
    = Ret [("gemini", "ok"); ("openai", "hello"); ("anthropic", "hi there")] /\
  (forall dflt prompt,
      fst (llm_query.query_all dflt prompt
             (snd (llm_query.query_all dflt prompt demo_world)))
      = fst (llm_query.query_all dflt prompt demo_world)) /\
  (forall prompt output_dir,
      fst (image_generation.generate_all prompt output_dir
             (snd (image_generation.generate_all prompt output_dir demo_world)))
      = fst (image_generation.generate_all prompt output_dir demo_world)) /\
  (forall prompt output_dir,
      fst (image_generation_v2.generate_all prompt output_dir
             (snd (image_generation_v2.generate_all prompt output_dir demo_world)))
      = fst (image_generation_v2.generate_all prompt output_dir demo_world)).
Proof.
  split; [exact deterministic_demo|]. split; [vm_compute; reflexivity|].
  apply (fan_out_twice demo_world). exact deterministic_demo.
Defined.



(** ** Running a fragment path by path *)

Lemma post_ret {A} (a : A) w Q : Q (Ret a) w -> post (ret a) w Q.
Proof. exact id. Qed.

Lemma post_raise {A} e w (Q : Res A -> World -> Prop) : Q (Raise e) w -> post (raise e) w Q.
Proof. exact id. Qed.

Lemma post_sys_exit {A} c w (Q : Res A -> World -> Prop) :
  Q (Exit c) w -> post (sys_exit c) w Q.
Proof. exact id. Qed.

Lemma post_bind {A B} (m : Py A) (k : A -> Py B) w Q :
  post m w (fun r w1 =>
              match r with
              | Ret a => post (k a) w1 Q
              | Raise e => Q (Raise e) w1
              | Exit c => Q (Exit c) w1
              end) ->
  post (bind m k) w Q.
Proof.
  unfold post. rewrite bind_run. destruct (m w) as [[a|e|c] w1]; simpl; auto.
Qed.

Lemma post_try_except {A} (m : Py A) (h : exn -> Py A) w Q :
  post m w (fun r w1 =>
              match r with
              | Raise e => post (h e) w1 Q
              | _ => Q r w1
              end) ->
  post (try_except m h) w Q.
Proof.
  unfold post. rewrite try_except_run. destruct (m w) as [[a|e|c] w1]; simpl; auto.
Qed.

Lemma post_getenv name w Q : Q (Ret (environ w !! name)) w -> post (getenv name) w Q.
Proof. exact id. Qed.

Lemma post_import pkg w Q :
  (pkg ∈ site_packages w -> Q (Ret tt) w) ->
  (pkg ∉ site_packages w ->
   Q (Raise (mkExn ModuleNotFoundError ("No module named '" +:+ pkg +:+ "'"))) w) ->
  post (import_ pkg) w Q.
Proof.
  intros H1 H2. unfold post, import_.
  destruct (decide (pkg ∈ site_packages w)); simpl; auto.
Qed.

Lemma post_print line w Q :
  Q (Ret tt) (mkWorld (environ w) (site_packages w) (services w) (fs w)
                      (stdout w ++ [line]) (clock w) (calls w)) ->
  post (print line) w Q.
Proof. exact id. Qed.

Lemma post_construct f w Q :
  (f (services w) = None -> Q (Ret tt) w) ->
  (forall e, f (services w) = Some e -> Q (Raise e) w) ->
  post (construct f) w Q.
Proof.
  intros H1 H2. unfold post, construct. destruct (f (services w)); simpl; auto.
Qed.

Lemma post_first {A} (xs : list A) w Q :
  (forall x rest, xs = x :: rest -> Q (Ret x) w) ->
  (xs = [] -> Q (Raise (mkExn IndexError "list index out of range")) w) ->
  post (first xs) w Q.
Proof. intros H1 H2. destruct xs; unfold post; simpl; eauto. Qed.

Lemma post_request {A} ep (f : Services -> nat -> Reply A) w Q :
  (forall r w',
      r = f (services w) (ncalls ep (calls w)) ->
      w' = mkWorld (environ w) (site_packages w) (services w) (fs w) (stdout w)
             (clock w + latency r)
             (calls w ++ [mkCall ep (clock w) (clock w + latency r)]) ->
      (forall a, outcome r = inr a -> Q (Ret a) w') /\
      (forall e, outcome r = inl e -> Q (Raise e) w')) ->
  post (request ep f) w Q.
Proof.
  intros H. unfold post, request.
  destruct (H _ _ eq_refl eq_refl) as [H1 H2].
  destruct (outcome (f (services w) (ncalls ep (calls w)))); simpl; auto.
Qed.

Ltac post_step :=
  lazymatch goal with
  | |- post (bind _ _) _ _ => apply post_bind
  | |- post (try_except _ _) _ _ => apply post_try_except
  | |- post (ret _) _ _ => apply post_ret
  | |- post (raise _) _ _ => apply post_raise
  | |- post (sys_exit _) _ _ => apply post_sys_exit
  | |- post (getenv _) _ _ => apply post_getenv
  | |- post (import_ _) _ _ => apply post_import; intros ?
  | |- post (print _) _ _ => apply post_print
  | |- post (construct _) _ _ => apply post_construct; [intros ? | intros ? ?]
  | |- post (first _) _ _ => apply post_first; [intros ? ? ? | intros ?]
  | |- post (request _ _) _ _ =>
      apply post_request; intros ? ? ? ?; split; intros ? ?
  | |- post (if ?c then _ else _) _ _ => destruct c eqn:?
  | |- post (let _ := _ in _) _ _ => cbv zeta
  end.

(** ** query_llms.py: the three providers *)

Ltac post_done :=
  simpl in *; subst; simpl in *;
  repeat match goal with
         | H : negb _ = true |- _ => apply negb_true_iff in H
         | H : negb _ = false |- _ => apply negb_false_iff in H
         end;
  eexists; split; [reflexivity|]; split_ands; intros;
  try (split; intros); split_ands;
  repeat match goal with H : _ /\ _ |- _ => destruct H end;
  simplify_eq; try congruence; try contradiction; try reflexivity.

Lemma query_llms_gemini_post p m w :
  post (query_llms.query_gemini p m) w (fun r w' =>
    exists v, r = Ret v /\
      (forall t, v = Some t <->
         "google.generativeai" ∈ site_packages w /\
         truthy (environ w !! "GOOGLE_API_KEY") = true /\
         generativeai_configure (services w) (environ w !! "GOOGLE_API_KEY") = None /\
         GenerativeModel (services w) m = None /\
         outcome (GenerativeModel_generate_content (services w)
                    (ncalls "generativeai.GenerativeModel.generate_content" (calls w))
                    (environ w !! "GOOGLE_API_KEY") m p) = inr t) /\
      (truthy (environ w !! "GOOGLE_API_KEY") = false ->
         calls w' = calls w /\ clock w' = clock w /\
         ("google.generativeai" ∈ site_packages w ->
          stdout w' = stdout w ++ ["Error: GOOGLE_API_KEY environment variable not set"]))).
Proof.
  unfold query_llms.query_gemini. repeat post_step; post_done.
Qed.

Lemma query_llms_openai_post p m w :
  post (query_llms.query_openai p m) w (fun r w' =>
    exists v, r = Ret v /\
      (forall t, v = Some t <->
         "openai" ∈ site_packages w /\
         truthy (environ w !! "OPENAI_API_KEY") = true /\
         OpenAI (services w) (environ w !! "OPENAI_API_KEY") = None /\
         exists rest,
           outcome (chat_completions_create (services w)
                      (ncalls "openai.chat.completions.create" (calls w))
                      (environ w !! "OPENAI_API_KEY") m [("user", p)]) = inr (t :: rest)) /\
      (truthy (environ w !! "OPENAI_API_KEY") = false ->
         calls w' = calls w /\ clock w' = clock w /\
         ("openai" ∈ site_packages w ->
          stdout w' = stdout w ++ ["Error: OPENAI_API_KEY environment variable not set"]))).
Proof.
  unfold query_llms.query_openai. repeat post_step; post_done;
    repeat match goal with H : exists _, _ |- _ => destruct H end;
    simplify_eq; try congruence; eauto.
Qed.

Lemma query_llms_anthropic_post p m w :
  post (query_llms.query_anthropic p m) w (fun r w' =>
    exists v, r = Ret v /\
      (forall t, v = Some t <->
         "anthropic" ∈ site_packages w /\
         truthy (environ w !! "ANTHROPIC_API_KEY") = true /\
         Anthropic (services w) (environ w !! "ANTHROPIC_API_KEY") = None /\
         exists rest,
           outcome (messages_create (services w)
                      (ncalls "anthropic.messages.create" (calls w))
                      (environ w !! "ANTHROPIC_API_KEY") m 4096 [("user", p)] None)
           = inr (t :: rest)) /\
      (truthy (environ w !! "ANTHROPIC_API_KEY") = false ->
         calls w' = calls w /\ clock w' = clock w /\
         ("anthropic" ∈ site_packages w ->
          stdout w' = stdout w ++ ["Error: ANTHROPIC_API_KEY environment variable not set"]))).
Proof.
  unfold query_llms.query_anthropic. repeat post_step; post_done;
    repeat match goal with H : exists _, _ |- _ => destruct H end;
    simplify_eq; try congruence; eauto.
Qed.

Lemma post_total {A} (m : Py A) w (Q : Res A -> World -> Prop) :
  (exists v, fst (m w) = Ret v) -> (forall v w', Q (Ret v) w') -> post m w Q.
Proof. intros [v Hv] H. unfold post. rewrite Hv. apply H. Qed.

Lemma query_llms_total p m w :
  (exists v, fst (query_llms.query_gemini p m w) = Ret v) /\
  (exists v, fst (query_llms.query_openai p m w) = Ret v) /\
  (exists v, fst (query_llms.query_anthropic p m w) = Ret v).
Proof.
  split_ands.
  - destruct (query_llms_gemini_post p m w) as (v & Hv & _). eauto.
  - destruct (query_llms_openai_post p m w) as (v & Hv & _). eauto.
  - destruct (query_llms_anthropic_post p m w) as (v & Hv & _). eauto.
Qed.

Lemma none_unless {A} (v : option A) (P : A -> Prop) :
  (forall t, v = Some t <-> P t) -> (forall t, ~ P t) -> v = None.
Proof.
  intros H Hn. destruct v as [t|]; [|reflexivity].
  exfalso. apply (Hn t), H. reflexivity.
Qed.

(** C9.  In [query_llms.py] and [query_llms_v2.py] each of [query_gemini],
    [query_openai], [query_anthropic] returns for every input, and the
    value is [None] when the package is missing, when the API key is
    absent or empty, when the SDK's constructor raises, when the request
    raises and (for the two that index the reply) when the reply holds no
    item: every kind of error ends in the one value [None]. *)
Theorem query_llms_errors_collapse prompt model (w : World) :
  (exists v w',
     query_llms.query_gemini prompt model w = (Ret v, w') /\
     ("google.generativeai" ∉ site_packages w -> v = None) /\
     (truthy (environ w !! "GOOGLE_API_KEY") = false -> v = None) /\
     (forall e, generativeai_configure (services w) (environ w !! "GOOGLE_API_KEY")
                = Some e -> v = None) /\
     (forall e, GenerativeModel (services w) model = Some e -> v = None) /\
     (forall e, outcome (GenerativeModel_generate_content (services w)
                  (ncalls "generativeai.GenerativeModel.generate_content" (calls w))
                  (environ w !! "GOOGLE_API_KEY") model prompt) = inl e -> v = None)) /\
  (exists v w',
     query_llms.query_openai prompt model w = (Ret v, w') /\
     ("openai" ∉ site_packages w -> v = None) /\
     (truthy (environ w !! "OPENAI_API_KEY") = false -> v = None) /\
     (forall e, OpenAI (services w) (environ w !! "OPENAI_API_KEY") = Some e -> v = None) /\
     (forall e, outcome (chat_completions_create (services w)
                  (ncalls "openai.chat.completions.create" (calls w))
                  (environ w !! "OPENAI_API_KEY") model [("user", prompt)]) = inl e ->
                v = None) /\
     (outcome (chat_completions_create (services w)
                  (ncalls "openai.chat.completions.create" (calls w))
                  (environ w !! "OPENAI_API_KEY") model [("user", prompt)]) = inr [] ->
      v = None)) /\
  (exists v w',
     query_llms.query_anthropic prompt model w = (Ret v, w') /\
     ("anthropic" ∉ site_packages w -> v = None) /\
     (truthy (environ w !! "ANTHROPIC_API_KEY") = false -> v = None) /\
     (forall e, Anthropic (services w) (environ w !! "ANTHROPIC_API_KEY") = Some e ->
                v = None) /\
     (forall e, outcome (messages_create (services w)
                  (ncalls "anthropic.messages.create" (calls w))
                  (environ w !! "ANTHROPIC_API_KEY") model 4096 [("user", prompt)] None)
                = inl e -> v = None) /\
     (outcome (messages_create (services w)
                  (ncalls "anthropic.messages.create" (calls w))
                  (environ w !! "ANTHROPIC_API_KEY") model 4096 [("user", prompt)] None)
      = inr [] -> v = None)).
Proof.
  split_ands.
  - pose proof (query_llms_gemini_post prompt model w) as H. unfold post in H.
    destruct (query_llms.query_gemini prompt model w) as [r w'].
    simpl in H. destruct H as (v & -> & Hv & _). exists v, w'. split; [reflexivity|].
    split_ands; intros; apply (none_unless _ _ Hv); intros t Ht;
      repeat match goal with H : _ /\ _ |- _ => destruct H end; congruence.
  - pose proof (query_llms_openai_post prompt model w) as H. unfold post in H.
    destruct (query_llms.query_openai prompt model w) as [r w'].
    simpl in H. destruct H as (v & -> & Hv & _). exists v, w'. split; [reflexivity|].
    split_ands; intros; apply (none_unless _ _ Hv); intros t Ht;
      repeat match goal with
             | H : _ /\ _ |- _ => destruct H
             | H : exists _, _ |- _ => destruct H
             end; congruence.
  - pose proof (query_llms_anthropic_post prompt model w) as H. unfold post in H.
    destruct (query_llms.query_anthropic prompt model w) as [r w'].
    simpl in H. destruct H as (v & -> & Hv & _). exists v, w'. split; [reflexivity|].
    split_ands; intros; apply (none_unless _ _ Hv); intros t Ht;
      repeat match goal with
             | H : _ /\ _ |- _ => destruct H
             | H : exists _, _ |- _ => destruct H
             end; congruence.
Qed.

(** C4 (as the code has it).  The providers of [query_llms.py] and
    [query_llms_v2.py] check their key first: when the key is absent or
    empty the provider returns [None] without any request to the vendor
    (the log and the clock are as before) and, the package being there,
    prints that the key is not set.  The providers under [claude/] have
    no such check. *)
Theorem query_llms_missing_key prompt model (w : World) :
  (truthy (environ w !! "GOOGLE_API_KEY") = false ->
   exists w',
     query_llms.query_gemini prompt model w = (Ret None, w') /\
     calls w' = calls w /\ clock w' = clock w /\
     ("google.generativeai" ∈ site_packages w ->
      stdout w' = stdout w ++ ["Error: GOOGLE_API_KEY environment variable not set"])) /\
  (truthy (environ w !! "OPENAI_API_KEY") = false ->
   exists w',
     query_llms.query_openai prompt model w = (Ret None, w') /\
     calls w' = calls w /\ clock w' = clock w /\
     ("openai" ∈ site_packages w ->
      stdout w' = stdout w ++ ["Error: OPENAI_API_KEY environment variable not set"])) /\
  (truthy (environ w !! "ANTHROPIC_API_KEY") = false ->
   exists w',
     query_llms.query_anthropic prompt model w = (Ret None, w') /\
     calls w' = calls w /\ clock w' = clock w /\
     ("anthropic" ∈ site_packages w ->
      stdout w' = stdout w ++ ["Error: ANTHROPIC_API_KEY environment variable not set"])).
Proof.
  split_ands; intros Hkey.
  - pose proof (query_llms_gemini_post prompt model w) as H. unfold post in H.
    destruct (query_llms.query_gemini prompt model w) as [r w'].
    simpl in H. destruct H as (v & -> & Hv & Hk). exists w'.
    rewrite (none_unless _ _ Hv) by (intros t (_ & Ht & _); congruence).
    split; [reflexivity | exact (Hk Hkey)].
  - pose proof (query_llms_openai_post prompt model w) as H. unfold post in H.
    destruct (query_llms.query_openai prompt model w) as [r w'].
    simpl in H. destruct H as (v & -> & Hv & Hk). exists w'.
    rewrite (none_unless _ _ Hv) by (intros t (_ & Ht & _); congruence).
    split; [reflexivity | exact (Hk Hkey)].
  - pose proof (query_llms_anthropic_post prompt model w) as H. unfold post in H.
    destruct (query_llms.query_anthropic prompt model w) as [r w'].
    simpl in H. destruct H as (v & -> & Hv & Hk). exists w'.
    rewrite (none_unless _ _ Hv) by (intros t (_ & Ht & _); congruence).
    split; [reflexivity | exact (Hk Hkey)].
Qed.

Lemma query_llms_missing_key_witness :
  truthy (environ no_keys_world !! "GOOGLE_API_KEY") = false /\
  exists w',
    query_llms.query_gemini "hi" "gemini-1.5-pro" no_keys_world = (Ret None, w') /\
    calls w' = calls no_keys_world /\ clock w' = clock no_keys_world /\
    ("google.generativeai" ∈ site_packages no_keys_world ->
     stdout w' = stdout no_keys_world ++
                 ["Error: GOOGLE_API_KEY environment variable not set"]).
Proof.
  split; [reflexivity|].
  apply (proj1 (query_llms_missing_key "hi" "gemini-1.5-pro" no_keys_world)).
  reflexivity.
Defined.

(** C4, the claim refuted: [generate_stability] of
    [claude/image_generation.py] in a world without [STABILITY_API_KEY].
    The request is sent all the same, and the failure is the vendor's 401
    that comes back, raised as a [ValueError]. *)
Lemma generate_stability_requests_without_key :
  environ no_keys_strict_world !! "STABILITY_API_KEY" = None /\
  fst (image_generation.generate_stability "a cat" "out.png"
         "stable-diffusion-xl-1024-v1-0" 1024 1024 no_keys_strict_world)
    = Raise (mkExn ValueError "Stability API error: unauthorized") /\
  calls (snd (image_generation.generate_stability "a cat" "out.png"
                "stable-diffusion-xl-1024-v1-0" 1024 1024 no_keys_strict_world))
    = [mkCall "requests.post" 0 8].
Proof. split_ands; vm_compute; reflexivity. Qed.

(** C3 (as the code has it).  The providers of [query_llms.py] and
    [query_llms_v2.py] are total at their own boundary: for every input
    they return.  The providers under [claude/] raise; there a failure
    is turned into an ["Error: ..."] entry one level up, by [query_all] and
    by [generate_all], whose entries are the [entry_of] the providers'
    outcomes. *)
Theorem providers_total_or_wrapped :
  (forall prompt model w,
      (exists v w', query_llms.query_gemini prompt model w = (Ret v, w')) /\
      (exists v w', query_llms.query_openai prompt model w = (Ret v, w')) /\
      (exists v w', query_llms.query_anthropic prompt model w = (Ret v, w'))) /\
  (forall dflt prompt w k f e,
      llm_query.func_map dflt k = Some f ->
      fst (f prompt None w) = Raise e ->
      exists r w',
        llm_query.query_all dflt prompt w = (Ret r, w') /\
        dict_get k r = Some ("Error: " +:+ exn_msg e)) /\
  (forall prompt output_dir w r w',
      image_generation.generate_all prompt output_dir w = (Ret r, w') ->
      let w1 := snd (mkdir_exist_ok (Path output_dir) w) in
      let w2 := snd (dalle_call prompt output_dir w1) in
      let w3 := snd (imagen_call prompt output_dir w2) in
      r = [("dalle", entry_of (fst (dalle_call prompt output_dir w1)));
           ("imagen", entry_of (fst (imagen_call prompt output_dir w2)));
           ("stability", entry_of (fst (stability_call prompt output_dir w3)))]) /\
  (forall prompt output_dir w r w',
      image_generation_v2.generate_all prompt output_dir w = (Ret r, w') ->
      let w1 := snd (mkdir_exist_ok (Path output_dir) w) in
      let w2 := snd (openai_call_v2 prompt output_dir w1) in
      let w3 := snd (imagen_call_v2 prompt output_dir w2) in
      r = [("openai", entry_of (fst (openai_call_v2 prompt output_dir w1)));
           ("imagen", entry_of (fst (imagen_call_v2 prompt output_dir w2)));
           ("stability", entry_of (fst (stability_call_v2 prompt output_dir w3)))]).
Proof.
  split_ands.
  - intros p m w. destruct (query_llms_total p m w) as ((v1 & H1) & (v2 & H2) & (v3 & H3)).
    split_ands.
    + exists v1, (snd (query_llms.query_gemini p m w)). rewrite <- H1.
      apply surjective_pairing.
    + exists v2, (snd (query_llms.query_openai p m w)). rewrite <- H2.
      apply surjective_pairing.
    + exists v3, (snd (query_llms.query_anthropic p m w)). rewrite <- H3.
      apply surjective_pairing.
  - intros dflt p w k f e Hk He.
    destruct (query_all_entries dflt p w) as (w' & Q & _). cbv zeta in Q.
    eexists _, w'. split; [exact Q|].
    destruct (func_map_cases _ _ _ Hk) as [[-> ->]|[[-> ->]|[-> ->]]];
      simpl in He |- *; rewrite He; reflexivity.
  - intros p d w r w' H w1 w2 w3. rewrite generate_all_fan_out in H.
    destruct (no_exit_calls p d) as (N1 & N2 & N3 & _).
    destruct (mkdir_fan_out_run (Path d) "dalle" "imagen" "stability" _ _ _ w N1 N2 N3)
      as [[Hm E]|[e [Hm E]]]; rewrite E in H; [|discriminate].
    inversion H. reflexivity.
  - intros p d w r w' H w1 w2 w3. rewrite generate_all_v2_fan_out in H.
    destruct (no_exit_calls p d) as (_ & _ & _ & N1 & N2 & N3).
    destruct (mkdir_fan_out_run (Path d) "openai" "imagen" "stability" _ _ _ w N1 N2 N3)
      as [[Hm E]|[e [Hm E]]]; rewrite E in H; [|discriminate].
    inversion H. reflexivity.
Qed.

(** C3, the claim refuted: two providers under [claude/] that raise past
    their own boundary, [query_gemini] when its package is missing and
    [generate_stability] on a status other than 200. *)
Lemma claude_providers_raise :
  fst (llm_query.query_gemini "hi" "gemini-2.0-flash" no_genai_world)
    = Raise (mkExn ModuleNotFoundError "No module named 'google.genai'") /\
  fst (image_generation.generate_stability "a cat" "out.png"
         "stable-diffusion-xl-1024-v1-0" 1024 1024 down_world)
    = Raise (mkExn ValueError "Stability API error: unauthorized").
Proof. split; vm_compute; reflexivity. Qed.

(** ** The command lines *)

Lemma for_each_returns {A} (xs : list A) (body : A -> Py unit) w :
  (forall x w, exists w', body x w = (Ret tt, w')) ->
  exists w', for_each xs body w = (Ret tt, w').
Proof.
  intros Hb. revert w. induction xs as [|x xs IH]; intros w; simpl.
  - eexists. reflexivity.
  - rewrite bind_run. destruct (Hb x w) as [w1 ->]. apply IH.
Qed.

Lemma llm_query_main_all dflt args w :
  llm_query.arg_provider args = "all" ->
  exists w', llm_query.main dflt args w = (Ret tt, w').
Proof.
  intros Hall. unfold llm_query.main. rewrite Hall.
  change ("all" =? "all")%string with true. cbv iota.
  rewrite bind_run, query_all_run. apply for_each_returns.
  intros [provider response] w0. eexists. reflexivity.
Qed.

Lemma llm_query_main_one dflt args f e w :
  llm_query.arg_provider args <> "all" ->
  llm_query.func_map dflt (llm_query.arg_provider args) = Some f ->
  fst (f (llm_query.arg_prompt args)
         (if truthy (llm_query.arg_model args) then llm_query.arg_model args else None) w)
    = Raise e ->
  fst (llm_query.main dflt args w) = Raise e.
Proof.
  intros Hne Hf He. unfold llm_query.main.
  destruct (String.eqb_spec (llm_query.arg_provider args) "all"); [contradiction|].
  rewrite Hf. cbv zeta. rewrite bind_run.
  destruct (f _ _ w) as [r w']. simpl in He. subst r. reflexivity.
Qed.

Section query_llms_adapters.
Context (det : bool) (E : string -> bool) (d : path).

Lemma respects_query_llms_gemini p m :
  E ep_generativeai = true \/ det = true ->
  respects (alike det E d) (query_llms.query_gemini p m).
Proof.
  intros H. unfold query_llms.query_gemini, ep_generativeai in *. repeat respects_step H.
Qed.

Lemma respects_query_llms_openai p m :
  E ep_openai = true \/ det = true ->
  respects (alike det E d) (query_llms.query_openai p m).
Proof.
  intros H. unfold query_llms.query_openai, ep_openai in *. repeat respects_step H.
Qed.

Lemma respects_query_llms_anthropic p m :
  E ep_anthropic = true \/ det = true ->
  respects (alike det E d) (query_llms.query_anthropic p m).
Proof.
  intros H. unfold query_llms.query_anthropic, ep_anthropic in *. repeat respects_step H.
Qed.

Lemma quiet_query_llms_gemini p m :
  E ep_generativeai = false -> quiet (alike det E d) (query_llms.query_gemini p m).
Proof.
  intros H. unfold query_llms.query_gemini, ep_generativeai in *. repeat quiet_step H.
Qed.

Lemma quiet_query_llms_openai p m :
  E ep_openai = false -> quiet (alike det E d) (query_llms.query_openai p m).
Proof. intros H. unfold query_llms.query_openai, ep_openai in *. repeat quiet_step H. Qed.

Lemma quiet_query_llms_anthropic p m :
  E ep_anthropic = false -> quiet (alike det E d) (query_llms.query_anthropic p m).
Proof.
  intros H. unfold query_llms.query_anthropic, ep_anthropic in *. repeat quiet_step H.
Qed.

End query_llms_adapters.

(** A provider of [query_llms.py] does not look at the standard output. *)
Lemma after_print {A} (m : Py A) line w :
  respects (alike false (fun _ => true) []) m ->
  fst (m (snd (print line w))) = fst (m w).
Proof.
  intros H. symmetry. apply H. unfold alike. simpl. split_ands; auto. discriminate.
Qed.

Lemma bind_print {A} line (k : Py A) w :
  bind (print line) (fun _ => k) w = k (snd (print line w)).
Proof. reflexivity. Qed.

Lemma query_llms_main_all dflt script prompt rest w :
  truthy (match rest with p :: _ => Some (lower p) | [] => None end) = false ->
  fst (query_llms.main dflt (script :: prompt :: rest) w) = Ret tt.
Proof.
  intros Hp. unfold query_llms.main. cbv zeta. rewrite Hp.
  change (post (A := unit)
    (print (query_llms.all_banner dflt);;
     print (str_repeat "=" 60);; print "GEMINI";; print (str_repeat "=" 60);;
     response ← query_llms.query_gemini prompt (query_llms.gemini_model dflt);
     query_llms.print_if response;;
     print "";;
     print (str_repeat "=" 60);; print "OPENAI";; print (str_repeat "=" 60);;
     response ← query_llms.query_openai prompt (query_llms.openai_model dflt);
     query_llms.print_if response;;
     print "";;
     print (str_repeat "=" 60);; print "ANTHROPIC";; print (str_repeat "=" 60);;
     response ← query_llms.query_anthropic prompt (query_llms.anthropic_model dflt);
     query_llms.print_if response) w (fun r _ => r = Ret tt)).
  unfold query_llms.print_if.
  repeat first
    [ post_step
    | apply post_total; [apply query_llms_total | intros ? ?] ];
    reflexivity.
Qed.

Lemma query_llms_main_one dflt script prompt provider rest w :
  let prov := lower provider in
  let model := head rest in
  str_truthy prov = true ->
  (prov = "gemini" ->
   forall v,
     fst (query_llms.query_gemini prompt
            (or_default model (query_llms.gemini_model dflt)) w) = Ret v ->
     truthy v = false ->
     fst (query_llms.main dflt (script :: prompt :: provider :: rest) w) = Exit 1) /\
  (prov = "openai" ->
   forall v,
     fst (query_llms.query_openai prompt
            (or_default model (query_llms.openai_model dflt)) w) = Ret v ->
     truthy v = false ->
     fst (query_llms.main dflt (script :: prompt :: provider :: rest) w) = Exit 1) /\
  (prov = "anthropic" ->
   forall v,
     fst (query_llms.query_anthropic prompt
            (or_default model (query_llms.anthropic_model dflt)) w) = Ret v ->
     truthy v = false ->
     fst (query_llms.main dflt (script :: prompt :: provider :: rest) w) = Exit 1) /\
  (prov <> "gemini" -> prov <> "openai" -> prov <> "anthropic" ->
   fst (query_llms.main dflt (script :: prompt :: provider :: rest) w) = Exit 1).
Proof.
  intros prov model Ht.
  assert (Hm : match rest with m :: _ => Some m | [] => None end = model).
  { destruct rest; reflexivity. }
  unfold query_llms.main. cbv zeta. fold prov. rewrite Hm.
  change (truthy (Some prov)) with (str_truthy prov). rewrite Ht.
  change (format_opt (Some prov)) with prov.
  split_ands.
  - intros -> v Hv Hf. change ("gemini" =? "gemini")%string with true. cbv iota.
    rewrite bind_run, bind_print.
    rewrite <- (after_print _
                  ("Querying Gemini (" +:+ or_default model (query_llms.gemini_model dflt) +:+ ")...")
                  w (respects_query_llms_gemini _ _ _ _ _ (or_introl eq_refl))) in Hv.
    destruct (query_llms.query_gemini _ _ (snd (print _ w))) as [r w'].
    simpl in Hv. subst r. rewrite Hf. reflexivity.
  - intros -> v Hv Hf. change ("openai" =? "gemini")%string with false.
    change ("openai" =? "openai")%string with true. cbv iota.
    rewrite bind_run, bind_print.
    rewrite <- (after_print _
                  ("Querying OpenAI (" +:+ or_default model (query_llms.openai_model dflt) +:+ ")...")
                  w (respects_query_llms_openai _ _ _ _ _ (or_introl eq_refl))) in Hv.
    destruct (query_llms.query_openai _ _ (snd (print _ w))) as [r w'].
    simpl in Hv. subst r. rewrite Hf. reflexivity.
  - intros -> v Hv Hf. change ("anthropic" =? "gemini")%string with false.
    change ("anthropic" =? "openai")%string with false.
    change ("anthropic" =? "anthropic")%string with true. cbv iota.
    rewrite bind_run, bind_print.
    rewrite <- (after_print _
                  ("Querying Anthropic (" +:+ or_default model (query_llms.anthropic_model dflt) +:+ ")...")
                  w (respects_query_llms_anthropic _ _ _ _ _ (or_introl eq_refl))) in Hv.
    destruct (query_llms.query_anthropic _ _ (snd (print _ w))) as [r w'].
    simpl in Hv. subst r. rewrite Hf. reflexivity.
  - intros H1 H2 H3.
    destruct (String.eqb_spec prov "gemini"); [contradiction|].
    destruct (String.eqb_spec prov "openai"); [contradiction|].
    destruct (String.eqb_spec prov "anthropic"); [contradiction|].
    reflexivity.
Qed.

(** C8 (as the code has it).  With [--provider all] (no provider argument
    for [query_llms.py]) the process exits with status 0 whether or not a
    provider succeeded.  With one named provider that fails the status is
    1: in [claude/llm_query.py] the provider's exception is not caught and
    ends the interpreter, in [query_llms.py] the empty response, or an
    unknown provider name, leads to [sys.exit(1)]. *)
Theorem cli_exit_codes :
  (forall dflt args w,
      llm_query.arg_provider args = "all" ->
      exit_code (fst (llm_query.main dflt args w)) = 0) /\
  (forall dflt args f e w,
      llm_query.arg_provider args <> "all" ->
      llm_query.func_map dflt (llm_query.arg_provider args) = Some f ->
      fst (f (llm_query.arg_prompt args)
             (if truthy (llm_query.arg_model args) then llm_query.arg_model args
              else None) w) = Raise e ->
      exit_code (fst (llm_query.main dflt args w)) = 1) /\
  (forall dflt script prompt rest w,
      truthy (match rest with p :: _ => Some (lower p) | [] => None end) = false ->
      exit_code (fst (query_llms.main dflt (script :: prompt :: rest) w)) = 0) /\
  (forall dflt script prompt provider rest w,
      str_truthy (lower provider) = true ->
      (lower provider = "gemini" ->
       forall v,
         fst (query_llms.query_gemini prompt
                (or_default (head rest) (query_llms.gemini_model dflt)) w) = Ret v ->
         truthy v = false ->
         exit_code (fst (query_llms.main dflt (script :: prompt :: provider :: rest) w))
         = 1) /\
      (lower provider = "openai" ->
       forall v,
         fst (query_llms.query_openai prompt
                (or_default (head rest) (query_llms.openai_model dflt)) w) = Ret v ->
         truthy v = false ->
         exit_code (fst (query_llms.main dflt (script :: prompt :: provider :: rest) w))
         = 1) /\
      (lower provider = "anthropic" ->
       forall v,
         fst (query_llms.query_anthropic prompt
                (or_default (head rest) (query_llms.anthropic_model dflt)) w) = Ret v ->
         truthy v = false ->
         exit_code (fst (query_llms.main dflt (script :: prompt :: provider :: rest) w))
         = 1) /\
      (lower provider <> "gemini" -> lower provider <> "openai" ->
       lower provider <> "anthropic" ->
       exit_code (fst (query_llms.main dflt (script :: prompt :: provider :: rest) w))
       = 1)).
Proof.
  split_ands.
  - intros dflt args w H. destruct (llm_query_main_all dflt args w H) as [w' ->].
    reflexivity.
  - intros dflt args f e w Hne Hf He.
    rewrite (llm_query_main_one dflt args f e w Hne Hf He). reflexivity.
  - intros dflt script prompt rest w H.
    rewrite (query_llms_main_all dflt script prompt rest w H). reflexivity.
  - intros dflt script prompt provider rest w Ht.
    destruct (query_llms_main_one dflt script prompt provider rest w Ht)
      as (Hg & Ho & Ha & Hu).
    split_ands.
    + intros H v Hv Hf. rewrite (Hg H v Hv Hf). reflexivity.
    + intros H v Hv Hf. rewrite (Ho H v Hv Hf). reflexivity.
    + intros H v Hv Hf. rewrite (Ha H v Hv Hf). reflexivity.
    + intros H1 H2 H3. rewrite (Hu H1 H2 H3). reflexivity.
Qed.

Lemma cli_exit_codes_witness :
  exit_code (fst (llm_query.main llm_query.v1 (llm_query.mkArgs "hi" "all" None)
                    demo_world)) = 0 /\
  exit_code (fst (llm_query.main llm_query.v1 (llm_query.mkArgs "hi" "gemini" None)
                    no_genai_world)) = 1 /\
  exit_code (fst (query_llms.main query_llms.v1 ["query_llms.py"; "hi"] demo_world)) = 0 /\
  exit_code (fst (query_llms.main query_llms.v1 ["query_llms.py"; "hi"; "OpenAI"]
                    no_keys_world)) = 1.
Proof.
  destruct cli_exit_codes as (H1 & H2 & H3 & H4). split_ands.
  - apply H1. reflexivity.
  - apply (H2 llm_query.v1 (llm_query.mkArgs "hi" "gemini" None)
              (fun prompt model =>
                 llm_query.query_gemini prompt
                   (default (llm_query.gemini_model llm_query.v1) model))
              (mkExn ModuleNotFoundError "No module named 'google.genai'")).
    + discriminate.
    + reflexivity.
    + vm_compute. reflexivity.
  - apply H3. reflexivity.
  - destruct (H4 query_llms.v1 "query_llms.py" "hi" "OpenAI" [] no_keys_world eq_refl)
      as (_ & Ho & _).
    apply (Ho eq_refl None); [vm_compute; reflexivity | reflexivity].
Defined.

(** C8, the claim refuted: [all] mode with no provider succeeding.  In a
    world without keys the three providers of [query_llms.py] return
    [None] and [main] ends with status 0; with every vendor down the three
    entries of [claude/llm_query.py] are errors and the status is 0. *)
Lemma all_mode_exit_zero_without_success :
  fst (query_llms.query_gemini "hi" "gemini-1.5-pro" no_keys_world) = Ret None /\
  fst (query_llms.query_openai "hi" "gpt-4o" no_keys_world) = Ret None /\
  fst (query_llms.query_anthropic "hi" "claude-3-5-sonnet-20241022" no_keys_world)
    = Ret None /\
  exit_code (fst (query_llms.main query_llms.v1 ["query_llms.py"; "hi"] no_keys_world))
    = 0 /\
  fst (llm_query.query_all llm_query.v1 "hi" down_world)
    = Ret [("gemini", "Error: 503"); ("openai", "Error: 503");
           ("anthropic", "Error: 503")] /\
  exit_code (fst (llm_query.main llm_query.v1 (llm_query.mkArgs "hi" "all" None)
                    down_world)) = 0.
Proof. split_ands; vm_compute; reflexivity. Qed.

(** ** Failure isolation *)

(** In a fan-out each entry is the outcome the provider has when it is
    started alone, right after the setup: the providers before it are
    invisible to it. *)
Lemma fan_out_alone D E2 E3 k1 k2 k3 (a1 a2 a3 : Py string) w :
  no_exit a1 -> no_exit a2 -> no_exit a3 ->
  quiet (alike false E2 D) a1 -> respects (alike false E2 D) a2 ->
  quiet (alike false E3 D) a1 -> quiet (alike false E3 D) a2 ->
  respects (alike false E3 D) a3 ->
  is_dir (fs w) D = true ->
  exists w',
    fan_out k1 k2 k3 a1 a2 a3 w =
    (Ret (dict_set k3 (entry_of (fst (a3 w)))
         (dict_set k2 (entry_of (fst (a2 w)))
         (dict_set k1 (entry_of (fst (a1 w))) []))), w').
Proof.
  intros N1 N2 N3 Q21 R2 Q31 Q32 R3 Hd.
  rewrite (fan_out_run k1 k2 k3 a1 a2 a3 w N1 N2 N3). eexists.
  assert (alike false E2 D w (snd (a1 w))) as H2.
  { apply Q21, alike_refl_dir; [discriminate | exact Hd]. }
  assert (alike false E3 D w (snd (a2 (snd (a1 w))))) as H3.
  { apply Q32, Q31, alike_refl_dir; [discriminate | exact Hd]. }
  destruct (R2 _ _ H2) as (<- & _). destruct (R3 _ _ H3) as (<- & _). reflexivity.
Qed.

Lemma dict_get_of_three j k1 k2 k3 (x1 x2 x3 : string) :
  k1 <> k2 -> k1 <> k3 -> k2 <> k3 ->
  dict_get j (dict_set k3 x3 (dict_set k2 x2 (dict_set k1 x1 []))) =
  if String.eqb j k1 then Some x1
  else if String.eqb j k2 then Some x2
  else if String.eqb j k3 then Some x3 else None.
Proof.
  intros H12 H13 H23. simpl.
  rewrite (proj2 (String.eqb_neq k2 k1)) by congruence. simpl.
  rewrite (proj2 (String.eqb_neq k3 k1)) by congruence.
  rewrite (proj2 (String.eqb_neq k3 k2)) by congruence. simpl. reflexivity.
Qed.

Lemma keys_of_three k1 k2 k3 (x1 x2 x3 : string) :
  k1 <> k2 -> k1 <> k3 -> k2 <> k3 ->
  keys (dict_set k3 x3 (dict_set k2 x2 (dict_set k1 x1 []))) = [k1; k2; k3].
Proof.
  intros H12 H13 H23. simpl.
  rewrite (proj2 (String.eqb_neq k2 k1)) by congruence. simpl.
  rewrite (proj2 (String.eqb_neq k3 k1)) by congruence.
  rewrite (proj2 (String.eqb_neq k3 k2)) by congruence. reflexivity.
Qed.

Lemma three_isolated k1 k2 k3 (a1 a2 a3 : Py string) (setup : Py unit) (run : Py dict) :
  k1 <> k2 -> k1 <> k3 -> k2 <> k3 ->
  (forall w, fst (setup w) = Ret tt ->
     exists w',
       run w =
       (Ret (dict_set k3 (entry_of (fst (a3 (snd (setup w)))))
            (dict_set k2 (entry_of (fst (a2 (snd (setup w)))))
            (dict_set k1 (entry_of (fst (a1 (snd (setup w))))) []))), w')) ->
  failure_isolated [(k1, a1); (k2, a2); (k3, a3)] setup run.
Proof.
  intros H12 H13 H23 Hrun wa wb k fk e v Sa Sb Hk Fa Fb Hothers.
  destruct (Hrun wa Sa) as (wa' & Ea). destruct (Hrun wb Sb) as (wb' & Eb).
  eexists _, _, wa', wb'. split; [exact Ea|]. split; [exact Eb|].
  rewrite !keys_of_three by assumption. split; [reflexivity|]. split; [reflexivity|].
  assert (O1 := Hothers k1 a1). assert (O2 := Hothers k2 a2). assert (O3 := Hothers k3 a3).
  rewrite !dict_get_of_three by assumption.
  assert (forall j, (j =? j)%string = true) as Hrefl by (intros; apply String.eqb_refl).
  apply elem_of_cons in Hk as [Hk|Hk]; [|apply elem_of_cons in Hk as [Hk|Hk];
    [|apply elem_of_cons in Hk as [Hk|Hk]; [|inversion Hk]]];
    injection Hk as -> ->; rewrite Fa, Fb; cbn [entry_of].
  - rewrite Hrefl. split; [reflexivity|]. split; [reflexivity|]. intros j Hj.
    rewrite !dict_get_of_three by assumption.
    rewrite (proj2 (String.eqb_neq j k1)) by exact Hj.
    rewrite O2, O3; [reflexivity | | | | ]; try congruence; set_solver.
  - rewrite (proj2 (String.eqb_neq k2 k1)) by congruence. rewrite Hrefl.
    split; [reflexivity|]. split; [reflexivity|]. intros j Hj.
    rewrite !dict_get_of_three by assumption.
    rewrite (proj2 (String.eqb_neq j k2)) by exact Hj.
    rewrite O1, O3; [reflexivity | | | | ]; try congruence; set_solver.
  - rewrite (proj2 (String.eqb_neq k3 k1)) by congruence.
    rewrite (proj2 (String.eqb_neq k3 k2)) by congruence. rewrite Hrefl.
    split; [reflexivity|]. split; [reflexivity|]. intros j Hj.
    rewrite !dict_get_of_three by assumption.
    rewrite (proj2 (String.eqb_neq j k3)) by exact Hj.
    rewrite O1, O2; [reflexivity | | | | ]; try congruence; set_solver.
Qed.

Lemma generate_all_alone p d w :
  fst (mkdir_exist_ok (Path d) w) = Ret tt ->
  let w1 := snd (mkdir_exist_ok (Path d) w) in
  (exists w',
     image_generation.generate_all p d w =
     (Ret (dict_set "stability" (entry_of (fst (stability_call p d w1)))
          (dict_set "imagen" (entry_of (fst (imagen_call p d w1)))
          (dict_set "dalle" (entry_of (fst (dalle_call p d w1))) []))), w')) /\
  (exists w',
     image_generation_v2.generate_all p d w =
     (Ret (dict_set "stability" (entry_of (fst (stability_call_v2 p d w1)))
          (dict_set "imagen" (entry_of (fst (imagen_call_v2 p d w1)))
          (dict_set "openai" (entry_of (fst (openai_call_v2 p d w1))) []))), w')).
Proof.
  intros Hs w1. rewrite generate_all_fan_out, generate_all_v2_fan_out, !bind_run.
  subst w1. destruct (mkdir_exist_ok (Path d) w) as [r w1] eqn:Emk.
  simpl in Hs. subst r. simpl snd.
  destruct (mkdir_ret _ _ _ _ Emk) as (Hd & _).
  destruct (no_exit_calls p d) as (N1 & N2 & N3 & N4 & N5 & N6).
  destruct good_file_names as (G1 & G2 & G3 & G4).
  split.
  - apply (fan_out_alone (Path d) (only "genai.models.generate_images")
             (only "requests.post")); try assumption.
    + apply quiet_generate_dalle. reflexivity.
    + apply respects_generate_imagen; [apply child_parent; assumption | left; reflexivity].
    + apply quiet_generate_dalle. reflexivity.
    + apply quiet_generate_imagen. reflexivity.
    + apply respects_generate_stability;
        [apply child_parent; assumption | left; reflexivity].
  - apply (fan_out_alone (Path d) (only "genai.models.generate_images")
             (only "requests.post")); try assumption.
    + apply quiet_generate_openai_image. reflexivity.
    + apply respects_generate_imagen_v2;
        [apply child_parent; assumption | left; reflexivity].
    + apply quiet_generate_openai_image. reflexivity.
    + apply quiet_generate_imagen_v2. reflexivity.
    + apply respects_generate_stability_v2;
        [apply child_parent; assumption | left; reflexivity].
Qed.

(** C2.  Failure isolation of the fan-out, for [query_all] (both versions
    of claude/llm_query.py) and for [generate_all] (both versions of
    claude/image_generation.py) once its directory is made.  Take a run
    in which one provider raises and a run in which it succeeds, the
    other providers behaving alike in the two starting worlds.  Both runs
    return a dict (no provider's error leaves the fan-out as an
    exception), both dicts have one entry per provider, the entry of the
    failing provider is the failure text ["Error: " ++ str(e)], and the
    entry of every other provider is the same in both runs. *)
Theorem fan_out_failure_isolation :
  (forall dflt prompt,
      failure_isolated (text_providers dflt prompt) (ret tt)
        (llm_query.query_all dflt prompt)) /\
  (forall prompt output_dir,
      failure_isolated (image_providers prompt output_dir)
        (mkdir_exist_ok (Path output_dir))
        (image_generation.generate_all prompt output_dir)) /\
  (forall prompt output_dir,
      failure_isolated (image_providers_v2 prompt output_dir)
        (mkdir_exist_ok (Path output_dir))
        (image_generation_v2.generate_all prompt output_dir)).
Proof.
  split_ands.
  - intros dflt p. apply three_isolated; try discriminate.
    intros w _. simpl. rewrite query_all_fan_out.
    apply (fan_out_alone [] (only ep_openai) (only ep_anthropic)).
    + apply no_exit_query_gemini.
    + apply no_exit_query_openai.
    + apply no_exit_query_anthropic.
    + apply quiet_query_gemini. reflexivity.
    + apply respects_query_openai. left. reflexivity.
    + apply quiet_query_gemini. reflexivity.
    + apply quiet_query_openai. reflexivity.
    + apply respects_query_anthropic. left. reflexivity.
    + reflexivity.
  - intros p d. apply three_isolated; try discriminate.
    intros w Hs. exact (proj1 (generate_all_alone p d w Hs)).
  - intros p d. apply three_isolated; try discriminate.
    intros w Hs. exact (proj2 (generate_all_alone p d w Hs)).
Qed.

Lemma fan_out_failure_isolation_witness :
  fst (llm_query.query_gemini "hi" "gemini-2.0-flash" no_genai_world)
    = Raise (mkExn ModuleNotFoundError "No module named 'google.genai'") /\
  fst (llm_query.query_gemini "hi" "gemini-2.0-flash" demo_world) = Ret "ok" /\
  exists ra rb wa' wb',
    llm_query.query_all llm_query.v1 "hi" no_genai_world = (Ret ra, wa') /\
    llm_query.query_all llm_query.v1 "hi" demo_world = (Ret rb, wb') /\
    keys ra = ["gemini"; "openai"; "anthropic"] /\
    keys rb = ["gemini"; "openai"; "anthropic"] /\
    dict_get "gemini" ra = Some "Error: No module named 'google.genai'" /\
    dict_get "gemini" rb = Some "ok" /\
    forall j, j <> "gemini" -> dict_get j ra = dict_get j rb.
Proof.
  split; [vm_compute; reflexivity|]. split; [vm_compute; reflexivity|].
  apply (proj1 fan_out_failure_isolation llm_query.v1 "hi" no_genai_world demo_world
           "gemini" (llm_query.query_gemini "hi" "gemini-2.0-flash")
           (mkExn ModuleNotFoundError "No module named 'google.genai'") "ok").
  - reflexivity.
  - reflexivity.
  - apply elem_of_cons. left. reflexivity.
  - vm_compute. reflexivity.
  - vm_compute. reflexivity.
  - intros j fj Hin Hj.
    apply elem_of_cons in Hin as [Hin|Hin]; [injection Hin as -> ->; contradiction|].
    apply elem_of_cons in Hin as [Hin|Hin];
      [injection Hin as -> ->; vm_compute; reflexivity|].
    apply elem_of_cons in Hin as [Hin|Hin];
      [injection Hin as -> ->; vm_compute; reflexivity | inversion Hin].
Defined.

(** ** One provider after the other *)

Lemma silent_print line : silent (print line).
Proof. intros w. split; [reflexivity|]. split; [reflexivity|]. intros. assumption. Qed.

Lemma silent_print_if v : silent (query_llms.print_if v).
Proof.
  unfold query_llms.print_if. destruct (truthy v); [apply silent_print|].
  intros w. split; [reflexivity|]. split; [reflexivity|]. intros. assumption.
Qed.

Lemma post_silent {B} (m : Py unit) (k : Py B) w Q :
  silent m ->
  (forall w', clock w' = clock w ->
              (forall det E d w0, alike det E d w0 w -> alike det E d w0 w') ->
              post k w' Q) ->
  post (bind m (fun _ => k)) w Q.
Proof.
  intros Hs H. apply post_bind. unfold post at 1. destruct (Hs w) as (Hr & Hc & Ha).
  rewrite Hr. apply H; assumption.
Qed.

(** A provider started in a world like [w0] does what it does in [w0],
    in the same time. *)
Lemma post_provider {A B} (m : Py A) (k : A -> Py B) E w0 w Q :
  respects (alike false E []) m ->
  alike false E [] w0 w ->
  (forall w', w' = snd (m w) -> clock w' = (clock w + elapsed m w0)%N ->
              match fst (m w0) with
              | Ret a => post (k a) w' Q
              | Raise e => Q (Raise e) w'
              | Exit c => Q (Exit c) w'
              end) ->
  post (bind m k) w Q.
Proof.
  intros Hr Ha H. apply post_bind. unfold post at 1.
  destruct (Hr w0 w Ha) as (Hres & _ & dt & H0 & H1).
  rewrite <- Hres. apply H; [reflexivity|]. unfold elapsed. lia.
Qed.

Ltac silent_steps Hc :=
  repeat (apply post_silent;
          [ first [apply silent_print | apply silent_print_if]
          | let w' := fresh "w" in
            let Hc' := fresh "Hc" in
            let Al := fresh "Al" in
            intros w' Hc' Al; rewrite Hc in Hc'; clear Hc; rename Hc' into Hc;
            repeat match goal with
                   | H : alike _ _ _ _ ?wp |- _ =>
                       lazymatch wp with w' => fail | _ => apply Al in H end
                   end;
            clear Al ]).

Lemma query_llms_main_all_elapsed dflt script prompt w :
  let g := query_llms.query_gemini prompt (query_llms.gemini_model dflt) in
  let o := query_llms.query_openai prompt (query_llms.openai_model dflt) in
  let a := query_llms.query_anthropic prompt (query_llms.anthropic_model dflt) in
  elapsed (query_llms.main dflt [script; prompt]) w
  = (elapsed g w + elapsed o w + elapsed a w)%N.
Proof.
  intros g o a.
  cut (post (query_llms.main dflt [script; prompt]) w
         (fun _ w' => clock w' = (clock w + elapsed g w + elapsed o w + elapsed a w)%N)).
  { intros H. unfold post in H. unfold elapsed at 1. rewrite H. lia. }
  destruct (query_llms_total prompt (query_llms.gemini_model dflt) w) as ((vg & Hg) & _).
  destruct (query_llms_total prompt (query_llms.openai_model dflt) w) as (_ & (vo & Ho) & _).
  destruct (query_llms_total prompt (query_llms.anthropic_model dflt) w)
    as (_ & _ & (va & Ha)).
  fold g in Hg. fold o in Ho. fold a in Ha.
  assert (Ag : alike false (only ep_generativeai) [] w w) by (apply alike_refl; discriminate).
  assert (Ao : alike false (only ep_openai) [] w w) by (apply alike_refl; discriminate).
  assert (Aa : alike false (only ep_anthropic) [] w w) by (apply alike_refl; discriminate).
  assert (Hc : clock w = (clock w + 0)%N) by lia.
  unfold query_llms.main. cbv zeta. change (truthy None) with false. cbv iota.
  silent_steps Hc.
  apply (post_provider g _ (only ep_generativeai) w);
    [apply respects_query_llms_gemini; left; reflexivity | assumption |].
  intros w' -> Hc'. rewrite Hc in Hc'. clear Hc. rename Hc' into Hc. rewrite Hg.
  apply (quiet_query_llms_gemini false (only ep_openai) [] prompt
           (query_llms.gemini_model dflt) eq_refl) in Ao.
  apply (quiet_query_llms_gemini false (only ep_anthropic) [] prompt
           (query_llms.gemini_model dflt) eq_refl) in Aa.
  clear Ag. fold g in Ao, Aa, Hc |- *.
  silent_steps Hc.
  apply (post_provider o _ (only ep_openai) w);
    [apply respects_query_llms_openai; left; reflexivity | assumption |].
  intros w' -> Hc'. rewrite Hc in Hc'. clear Hc. rename Hc' into Hc. rewrite Ho.
  apply (quiet_query_llms_openai false (only ep_anthropic) [] prompt
           (query_llms.openai_model dflt) eq_refl) in Aa.
  clear Ao. fold o in Aa, Hc |- *.
  silent_steps Hc.
  apply (post_provider a _ (only ep_anthropic) w);
    [apply respects_query_llms_anthropic; left; reflexivity | assumption |].
  intros w' -> Hc'. rewrite Hc in Hc'. clear Hc. rename Hc' into Hc. rewrite Ha.
  match goal with
  | |- post _ ?wl _ => unfold post; destruct (silent_print_if va wl) as (_ & Hc' & _)
  end.
  rewrite Hc', Hc. lia.
Qed.

(** C5 (as the code has it).  The providers run one after the other.  In
    [query_all], [openai] is started in the world [gemini] left behind
    and [anthropic] in the world [openai] left behind, and the time
    [query_all] takes is the sum of the times the three providers take,
    each measured from the world [query_all] was started in.  The same sum
    is the time of [main] of [query_llms.py] when no provider is named. *)
Theorem providers_in_sequence :
  (forall dflt prompt (w : World),
      let g := llm_query.query_gemini prompt (llm_query.gemini_model dflt) in
      let o := llm_query.query_openai prompt (llm_query.openai_model dflt) None in
      let a := llm_query.query_anthropic prompt (llm_query.anthropic_model dflt)
                 None 1024 in
      llm_query.query_all dflt prompt w =
        (Ret [("gemini", entry_of (fst (g w)));
              ("openai", entry_of (fst (o (snd (g w)))));
              ("anthropic", entry_of (fst (a (snd (o (snd (g w)))))))],
         snd (a (snd (o (snd (g w)))))) /\
      elapsed (llm_query.query_all dflt prompt) w
        = (elapsed g w + elapsed o w + elapsed a w)%N) /\
  (forall dflt script prompt (w : World),
      elapsed (query_llms.main dflt [script; prompt]) w
      = (elapsed (query_llms.query_gemini prompt (query_llms.gemini_model dflt)) w
         + elapsed (query_llms.query_openai prompt (query_llms.openai_model dflt)) w
         + elapsed (query_llms.query_anthropic prompt (query_llms.anthropic_model dflt)) w
        )%N).
Proof.
  split.
  - intros dflt prompt w g o a. split; [apply query_all_run|].
    destruct (query_all_entries dflt prompt w) as (w' & Q & Hc).
    unfold elapsed at 1. rewrite Q. simpl. fold g o a in Hc. lia.
  - intros dflt script prompt w. apply query_llms_main_all_elapsed.
Qed.

(** * More of the scripts *)

(** ** More about the providers of query_llms.py *)

Lemma post_run {A} (m : Py A) w x :
  post m w (fun r w' => (r, w') = x) -> m w = x.
Proof. unfold post. destruct (m w). exact id. Qed.

Lemma printed_nil w : printed [] w = w.
Proof. destruct w. unfold printed. simpl. rewrite app_nil_r. reflexivity. Qed.

Lemma printed_app l1 l2 w : printed l2 (printed l1 w) = printed (l1 ++ l2) w.
Proof. unfold printed. simpl. rewrite <- app_assoc. reflexivity. Qed.

Lemma print_run line w : print line w = (Ret tt, printed [line] w).
Proof. reflexivity. Qed.

(** Closes the paths of a run that the hypotheses rule out, and the one
    they select. *)
Ltac run_done :=
  subst; simpl in *;
  repeat match goal with
         | H : negb _ = true |- _ => apply negb_true_iff in H
         | H : negb _ = false |- _ => apply negb_false_iff in H
         end;
  try contradiction; try congruence;
  try (simplify_eq; reflexivity).

Ltac caught e :=
  match goal with
  | H : is_ImportError ?e0 = _ |- _ =>
      assert (e0 = e) by congruence; subst e0; rewrite H
  end; reflexivity.

Lemma query_llms_gemini_success p m w t :
  gemini_ready m w ->
  outcome (generativeai_reply p m w) = inr t ->
  query_llms.query_gemini p m w
  = (Ret (Some t), requested ep_generativeai (latency (generativeai_reply p m w)) w).
Proof.
  intros (Hp & Hk & Hc & Hm) Ho. apply post_run.
  unfold generativeai_reply, ep_generativeai, requested in *.
  unfold query_llms.query_gemini.
  repeat post_step; run_done.
Qed.

Lemma query_llms_openai_success p m w t rest :
  openai_ready w ->
  outcome (chat_reply p m w) = inr (t :: rest) ->
  query_llms.query_openai p m w
  = (Ret (Some t), requested ep_openai (latency (chat_reply p m w)) w).
Proof.
  intros (Hp & Hk & Hc) Ho. apply post_run.
  unfold chat_reply, ep_openai, requested in *. unfold query_llms.query_openai.
  repeat post_step; run_done.
Qed.

Lemma query_llms_anthropic_success p m w t rest :
  anthropic_ready w ->
  outcome (messages_reply p m w) = inr (t :: rest) ->
  query_llms.query_anthropic p m w
  = (Ret (Some t), requested ep_anthropic (latency (messages_reply p m w)) w).
Proof.
  intros (Hp & Hk & Hc) Ho. apply post_run.
  unfold messages_reply, ep_anthropic, requested in *. unfold query_llms.query_anthropic.
  repeat post_step; run_done.
Qed.

(** X1.  A provider of [query_llms.py] whose package is importable, whose
    key is set, whose SDK object can be made and whose request is answered
    returns the text of the answer (the first choice or block of it); the
    call has made exactly one request, it has taken the time of that
    request and it has printed nothing and changed nothing else. *)
Theorem query_llms_answer prompt model (w : World) :
  (forall t,
      gemini_ready model w ->
      outcome (generativeai_reply prompt model w) = inr t ->
      query_llms.query_gemini prompt model w
      = (Ret (Some t),
         requested ep_generativeai (latency (generativeai_reply prompt model w)) w)) /\
  (forall t rest,
      openai_ready w ->
      outcome (chat_reply prompt model w) = inr (t :: rest) ->
      query_llms.query_openai prompt model w
      = (Ret (Some t), requested ep_openai (latency (chat_reply prompt model w)) w)) /\
  (forall t rest,
      anthropic_ready w ->
      outcome (messages_reply prompt model w) = inr (t :: rest) ->
      query_llms.query_anthropic prompt model w
      = (Ret (Some t), requested ep_anthropic (latency (messages_reply prompt model w)) w)).
Proof.
  split_ands; intros.
  - apply query_llms_gemini_success; assumption.
  - eapply query_llms_openai_success; eassumption.
  - eapply query_llms_anthropic_success; eassumption.
Qed.

Lemma ready_demo :
  gemini_ready "gemini-1.5-pro" demo_world /\ openai_ready demo_world /\
  anthropic_ready demo_world.
Proof.
  unfold gemini_ready, openai_ready, anthropic_ready.
  split_ands; try reflexivity; vm_compute; set_solver.
Qed.

Lemma query_llms_answer_witness :
  query_llms.query_gemini "hi" "gemini-1.5-pro" demo_world
    = (Ret (Some "ok"), requested ep_generativeai 5 demo_world) /\
  query_llms.query_openai "hi" "gpt-4o" demo_world
    = (Ret (Some "hello"), requested ep_openai 3 demo_world) /\
  query_llms.query_anthropic "hi" "claude-3-5-sonnet-20241022" demo_world
    = (Ret (Some "hi there"), requested ep_anthropic 4 demo_world).
Proof.
  destruct ready_demo as (Hg & Ho & Ha).
  split_ands.
  - apply (proj1 (query_llms_answer "hi" "gemini-1.5-pro" demo_world) "ok");
      [exact Hg | reflexivity].
  - apply (proj1 (proj2 (query_llms_answer "hi" "gpt-4o" demo_world)) "hello" []);
      [exact Ho | reflexivity].
  - apply (proj2 (proj2 (query_llms_answer "hi" "claude-3-5-sonnet-20241022" demo_world))
             "hi there" []); [exact Ha | reflexivity].
Defined.

Lemma query_llms_gemini_report p m w :
  post (query_llms.query_gemini p m) w (fun r w' =>
    exists v, r = Ret v /\ reported "Gemini" "google-generativeai" "GOOGLE_API_KEY" v w w').
Proof.
  unfold query_llms.query_gemini, reported, report_line.
  repeat post_step; subst; simpl in *; try discriminate;
    eexists; (split; [reflexivity|]); split_ands;
    try reflexivity; eexists; (split; [reflexivity|]);
    first [ left; reflexivity | right; left; reflexivity
          | right; right; eexists; reflexivity
          | right; right; eexists (mkExn IndexError _); reflexivity ].
Qed.

Lemma query_llms_openai_report p m w :
  post (query_llms.query_openai p m) w (fun r w' =>
    exists v, r = Ret v /\
              reported_unless (chat_answered p m w) "OpenAI" "openai" "OPENAI_API_KEY"
                v w w').
Proof.
  unfold query_llms.query_openai, reported_unless, report_line.
  repeat post_step; subst; simpl in *; try discriminate;
    eexists; (split; [reflexivity|]); split_ands;
    try reflexivity; intros _; eexists; (split; [reflexivity|]);
    first [ left; reflexivity | right; left; reflexivity
          | right; right; eexists; reflexivity
          | right; right; eexists (mkExn IndexError _); reflexivity ].
Qed.

Lemma query_llms_anthropic_report p m w :
  post (query_llms.query_anthropic p m) w (fun r w' =>
    exists v, r = Ret v /\ reported "Anthropic" "anthropic" "ANTHROPIC_API_KEY" v w w').
Proof.
  unfold query_llms.query_anthropic, reported, report_line.
  repeat post_step; subst; simpl in *; try discriminate;
    eexists; (split; [reflexivity|]); split_ands;
    try reflexivity; eexists; (split; [reflexivity|]);
    first [ left; reflexivity | right; left; reflexivity
          | right; right; eexists; reflexivity
          | right; right; eexists (mkExn IndexError _); reflexivity ].
Qed.

(** X2.  Whatever happens, a provider of [query_llms.py] leaves the
    environment, the packages and the files as they were.  When it has an
    answer it has printed nothing; when it returns [None] it has printed
    exactly one line: that the package is not installed, that the key is
    not set, or the text of the error it caught.  For [query_openai] the
    one line is stated for the calls whose request is not answered with a
    choice: the content of the first choice is returned as it is, and only
    a reply that carries text is among the replies here. *)
Theorem query_llms_failure_output prompt model (w : World) :
  post (query_llms.query_gemini prompt model) w (fun r w' =>
    exists v, r = Ret v /\
              reported "Gemini" "google-generativeai" "GOOGLE_API_KEY" v w w') /\
  post (query_llms.query_openai prompt model) w (fun r w' =>
    exists v, r = Ret v /\
              reported_unless (chat_answered prompt model w)
                "OpenAI" "openai" "OPENAI_API_KEY" v w w') /\
  post (query_llms.query_anthropic prompt model) w (fun r w' =>
    exists v, r = Ret v /\ reported "Anthropic" "anthropic" "ANTHROPIC_API_KEY" v w w').
Proof.
  split_ands.
  - apply query_llms_gemini_report.
  - apply query_llms_openai_report.
  - apply query_llms_anthropic_report.
Qed.

Lemma query_llms_failure_output_witness :
  ~ chat_answered "hi" "gpt-4o" down_world /\
  exists v,
    fst (query_llms.query_openai "hi" "gpt-4o" down_world) = Ret v /\
    (v = None ->
     exists line,
       stdout (snd (query_llms.query_openai "hi" "gpt-4o" down_world))
       = stdout down_world ++ [line] /\
       report_line "OpenAI" "openai" "OPENAI_API_KEY" line).
Proof.
  assert (H : ~ chat_answered "hi" "gpt-4o" down_world).
  { intros [_ (t & more & Ho)]. vm_compute in Ho. discriminate Ho. }
  split; [exact H|].
  pose proof (proj1 (proj2 (query_llms_failure_output "hi" "gpt-4o" down_world))) as P.
  unfold post in P. destruct P as (v & E & _ & _ & _ & Hv).
  exists v. split; [exact E|]. intros ->. exact (Hv H).
Defined.

Lemma query_llms_gemini_refused p m w e :
  gemini_ready m w ->
  outcome (generativeai_reply p m w) = inl e ->
  query_llms.query_gemini p m w =
  (Ret None, printed [caught_line "Gemini" "google-generativeai" e]
               (requested ep_generativeai (latency (generativeai_reply p m w)) w)).
Proof.
  intros (Hp & Hk & Hc & Hm) Ho. apply post_run.
  unfold generativeai_reply, ep_generativeai, requested, printed, caught_line in *.
  unfold query_llms.query_gemini.
  repeat post_step; run_done; caught e.
Qed.

Lemma query_llms_openai_refused p m w e :
  openai_ready w ->
  outcome (chat_reply p m w) = inl e ->
  query_llms.query_openai p m w =
  (Ret None, printed [caught_line "OpenAI" "openai" e]
               (requested ep_openai (latency (chat_reply p m w)) w)).
Proof.
  intros (Hp & Hk & Hc) Ho. apply post_run.
  unfold chat_reply, ep_openai, requested, printed, caught_line in *.
  unfold query_llms.query_openai.
  repeat post_step; run_done; caught e.
Qed.

Lemma query_llms_anthropic_refused p m w e :
  anthropic_ready w ->
  outcome (messages_reply p m w) = inl e ->
  query_llms.query_anthropic p m w =
  (Ret None, printed [caught_line "Anthropic" "anthropic" e]
               (requested ep_anthropic (latency (messages_reply p m w)) w)).
Proof.
  intros (Hp & Hk & Hc) Ho. apply post_run.
  unfold messages_reply, ep_anthropic, requested, printed, caught_line in *.
  unfold query_llms.query_anthropic.
  repeat post_step; run_done; caught e.
Qed.

(** X3.  When the request of a provider of [query_llms.py] raises, the
    provider returns [None] after the request has been made and has taken
    its time, and prints one line for the error.  [except ImportError]
    comes before [except Exception], so an import error raised by the
    vendor's code during the request is reported as a package that is not
    installed; any other error is reported with its text. *)
Theorem query_llms_refused prompt model (w : World) e :
  (gemini_ready model w ->
   outcome (generativeai_reply prompt model w) = inl e ->
   query_llms.query_gemini prompt model w =
   (Ret None,
    printed [caught_line "Gemini" "google-generativeai" e]
      (requested ep_generativeai (latency (generativeai_reply prompt model w)) w))) /\
  (openai_ready w ->
   outcome (chat_reply prompt model w) = inl e ->
   query_llms.query_openai prompt model w =
   (Ret None,
    printed [caught_line "OpenAI" "openai" e]
      (requested ep_openai (latency (chat_reply prompt model w)) w))) /\
  (anthropic_ready w ->
   outcome (messages_reply prompt model w) = inl e ->
   query_llms.query_anthropic prompt model w =
   (Ret None,
    printed [caught_line "Anthropic" "anthropic" e]
      (requested ep_anthropic (latency (messages_reply prompt model w)) w))).
Proof.
  split_ands; intros.
  - apply query_llms_gemini_refused; assumption.
  - apply query_llms_openai_refused; assumption.
  - apply query_llms_anthropic_refused; assumption.
Qed.

Lemma ready_down :
  gemini_ready "gemini-1.5-pro" down_world /\ openai_ready down_world /\
  anthropic_ready down_world.
Proof.
  unfold gemini_ready, openai_ready, anthropic_ready.
  split_ands; try reflexivity; vm_compute; set_solver.
Qed.

Lemma query_llms_refused_witness :
  query_llms.query_gemini "hi" "gemini-1.5-pro" down_world
    = (Ret None, printed ["Error querying Gemini: 503"]
                   (requested ep_generativeai 1 down_world)) /\
  query_llms.query_openai "hi" "gpt-4o" down_world
    = (Ret None, printed ["Error querying OpenAI: 503"]
                   (requested ep_openai 1 down_world)) /\
  query_llms.query_anthropic "hi" "claude-3-5-sonnet-20241022" down_world
    = (Ret None, printed ["Error querying Anthropic: 503"]
                   (requested ep_anthropic 1 down_world)).
Proof.
  destruct ready_down as (Hg & Ho & Ha).
  split_ands.
  - apply (proj1 (query_llms_refused "hi" "gemini-1.5-pro" down_world
                    (mkExn (VendorError "ServerError") "503")));
      [exact Hg | reflexivity].
  - apply (proj1 (proj2 (query_llms_refused "hi" "gpt-4o" down_world
                           (mkExn (VendorError "APIError") "503"))));
      [exact Ho | reflexivity].
  - apply (proj2 (proj2 (query_llms_refused "hi" "claude-3-5-sonnet-20241022" down_world
                           (mkExn (VendorError "APIError") "503"))));
      [exact Ha | reflexivity].
Defined.

(** ** More about the command lines *)

Lemma for_each_print lines w : for_each lines print w = (Ret tt, printed lines w).
Proof.
  revert w. induction lines as [|line lines IH]; intros w.
  - simpl. rewrite printed_nil. reflexivity.
  - simpl. rewrite bind_run, print_run, IH, printed_app. reflexivity.
Qed.

Lemma query_llms_main_short dflt argv w :
  (length argv < 2)%nat ->
  query_llms.main dflt argv w = (Exit 1, printed (query_llms.usage dflt) w).
Proof.
  intros Hl.
  assert (Hm : query_llms.main dflt argv
               = (for_each (query_llms.usage dflt) print;; sys_exit 1)).
  { destruct argv as [|a [|b rest]]; try reflexivity. simpl in Hl. lia. }
  rewrite Hm, bind_run, for_each_print. reflexivity.
Qed.

Lemma query_llms_main_unknown dflt script prompt provider rest w :
  str_truthy (lower provider) = true ->
  lower provider ∉ ["gemini"; "openai"; "anthropic"] ->
  query_llms.main dflt (script :: prompt :: provider :: rest) w
  = (Exit 1, printed ["Unknown provider: " +:+ lower provider] w).
Proof.
  intros Ht Hn. unfold query_llms.main. cbv zeta.
  change (truthy (Some (lower provider))) with (str_truthy (lower provider)).
  rewrite Ht. change (format_opt (Some (lower provider))) with (lower provider).
  destruct (String.eqb_spec (lower provider) "gemini") as [E|_];
    [exfalso; apply Hn; rewrite E, !elem_of_cons; tauto|].
  destruct (String.eqb_spec (lower provider) "openai") as [E|_];
    [exfalso; apply Hn; rewrite E, !elem_of_cons; tauto|].
  destruct (String.eqb_spec (lower provider) "anthropic") as [E|_];
    [exfalso; apply Hn; rewrite E, !elem_of_cons; tauto|].
  reflexivity.
Qed.

(** X4.  [main] of [query_llms.py] on a wrong command line.  Without a
    prompt it prints the usage text and exits with status 1; with a
    provider name that is not one of the three (in any case of letters) it
    prints [Unknown provider: <name>] and exits with status 1.  In both
    cases nothing is requested from a vendor and nothing else is touched.
    An empty provider argument is no provider: all three are queried. *)
Theorem query_llms_main_misuse dflt (w : World) :
  (forall argv,
      (length argv < 2)%nat ->
      query_llms.main dflt argv w = (Exit 1, printed (query_llms.usage dflt) w)) /\
  (forall script prompt provider rest,
      str_truthy (lower provider) = true ->
      lower provider ∉ ["gemini"; "openai"; "anthropic"] ->
      query_llms.main dflt (script :: prompt :: provider :: rest) w
      = (Exit 1, printed ["Unknown provider: " +:+ lower provider] w)) /\
  (forall script prompt rest,
      query_llms.main dflt (script :: prompt :: "" :: rest) w
      = query_llms.main dflt [script; prompt] w).
Proof.
  split_ands.
  - intros argv Hl. apply query_llms_main_short, Hl.
  - intros. apply query_llms_main_unknown; assumption.
  - reflexivity.
Qed.

Lemma query_llms_main_misuse_witness :
  query_llms.main query_llms.v1 ["query_llms.py"] demo_world
    = (Exit 1, printed (query_llms.usage query_llms.v1) demo_world) /\
  query_llms.main query_llms.v1 ["query_llms.py"; "hi"; "Mistral"] demo_world
    = (Exit 1, printed ["Unknown provider: mistral"] demo_world).
Proof.
  split.
  - apply (proj1 (query_llms_main_misuse query_llms.v1 demo_world) ["query_llms.py"]).
    simpl. lia.
  - apply (proj1 (proj2 (query_llms_main_misuse query_llms.v1 demo_world))
             "query_llms.py" "hi" "Mistral" []).
    + reflexivity.
    + rewrite !elem_of_cons, elem_of_nil. intros [H|[H|[H|[]]]]; discriminate H.
Defined.

Lemma query_llms_main_gemini dflt script prompt provider rest w t :
  let model := or_default (head rest) (query_llms.gemini_model dflt) in
  lower provider = "gemini" ->
  gemini_ready model w ->
  outcome (generativeai_reply prompt model w) = inr t ->
  str_truthy t = true ->
  query_llms.main dflt (script :: prompt :: provider :: rest) w
  = (Ret tt,
     printed [nl +:+ "Response:"; t]
       (requested ep_generativeai (latency (generativeai_reply prompt model w))
          (printed ["Querying Gemini (" +:+ model +:+ ")..."] w))).
Proof.
  intros model Hp Hr Ho Ht.
  assert (Hm : match rest with m :: _ => Some m | [] => None end = head rest).
  { destruct rest; reflexivity. }
  unfold query_llms.main. cbv zeta. rewrite Hp, Hm. fold model.
  change (truthy (Some "gemini")) with true.
  change (format_opt (Some "gemini") =? "gemini")%string with true. cbv iota.
  rewrite bind_run, bind_run, print_run.
  rewrite (query_llms_gemini_success prompt model (printed _ w) t Hr Ho).
  change (truthy (Some t)) with (str_truthy t). rewrite Ht.
  rewrite bind_run, print_run. cbv iota beta.
  rewrite print_run, printed_app. reflexivity.
Qed.

Lemma query_llms_main_openai dflt script prompt provider rest w t more :
  let model := or_default (head rest) (query_llms.openai_model dflt) in
  lower provider = "openai" ->
  openai_ready w ->
  outcome (chat_reply prompt model w) = inr (t :: more) ->
  str_truthy t = true ->
  query_llms.main dflt (script :: prompt :: provider :: rest) w
  = (Ret tt,
     printed [nl +:+ "Response:"; t]
       (requested ep_openai (latency (chat_reply prompt model w))
          (printed ["Querying OpenAI (" +:+ model +:+ ")..."] w))).
Proof.
  intros model Hp Hr Ho Ht.
  assert (Hm : match rest with m :: _ => Some m | [] => None end = head rest).
  { destruct rest; reflexivity. }
  unfold query_llms.main. cbv zeta. rewrite Hp, Hm. fold model.
  change (truthy (Some "openai")) with true.
  change (format_opt (Some "openai") =? "gemini")%string with false.
  change (format_opt (Some "openai") =? "openai")%string with true. cbv iota.
  rewrite bind_run, bind_run, print_run.
  rewrite (query_llms_openai_success prompt model (printed _ w) t more Hr Ho).
  change (truthy (Some t)) with (str_truthy t). rewrite Ht.
  rewrite bind_run, print_run. cbv iota beta.
  rewrite print_run, printed_app. reflexivity.
Qed.

Lemma query_llms_main_anthropic dflt script prompt provider rest w t more :
  let model := or_default (head rest) (query_llms.anthropic_model dflt) in
  lower provider = "anthropic" ->
  anthropic_ready w ->
  outcome (messages_reply prompt model w) = inr (t :: more) ->
  str_truthy t = true ->
  query_llms.main dflt (script :: prompt :: provider :: rest) w
  = (Ret tt,
     printed [nl +:+ "Response:"; t]
       (requested ep_anthropic (latency (messages_reply prompt model w))
          (printed ["Querying Anthropic (" +:+ model +:+ ")..."] w))).
Proof.
  intros model Hp Hr Ho Ht.
  assert (Hm : match rest with m :: _ => Some m | [] => None end = head rest).
  { destruct rest; reflexivity. }
  unfold query_llms.main. cbv zeta. rewrite Hp, Hm. fold model.
  change (truthy (Some "anthropic")) with true.
  change (format_opt (Some "anthropic") =? "gemini")%string with false.
  change (format_opt (Some "anthropic") =? "openai")%string with false.
  change (format_opt (Some "anthropic") =? "anthropic")%string with true. cbv iota.
  rewrite bind_run, bind_run, print_run.
  rewrite (query_llms_anthropic_success prompt model (printed _ w) t more Hr Ho).
  change (truthy (Some t)) with (str_truthy t). rewrite Ht.
  rewrite bind_run, print_run. cbv iota beta.
  rewrite print_run, printed_app. reflexivity.
Qed.

(** X5.  [main] of [query_llms.py] with one named provider that answers
    with a non-empty text: it prints the banner with the model (the third
    argument, or the default when that is absent or empty), queries the
    provider once, prints [Response:] and the text, and returns, so that
    the exit status is 0. *)
Theorem query_llms_main_answer dflt script prompt provider rest (w : World) :
  (forall t,
      let model := or_default (head rest) (query_llms.gemini_model dflt) in
      lower provider = "gemini" ->
      gemini_ready model w ->
      outcome (generativeai_reply prompt model w) = inr t ->
      str_truthy t = true ->
      query_llms.main dflt (script :: prompt :: provider :: rest) w
      = (Ret tt,
         printed [nl +:+ "Response:"; t]
           (requested ep_generativeai (latency (generativeai_reply prompt model w))
              (printed ["Querying Gemini (" +:+ model +:+ ")..."] w)))) /\
  (forall t more,
      let model := or_default (head rest) (query_llms.openai_model dflt) in
      lower provider = "openai" ->
      openai_ready w ->
      outcome (chat_reply prompt model w) = inr (t :: more) ->
      str_truthy t = true ->
      query_llms.main dflt (script :: prompt :: provider :: rest) w
      = (Ret tt,
         printed [nl +:+ "Response:"; t]
           (requested ep_openai (latency (chat_reply prompt model w))
              (printed ["Querying OpenAI (" +:+ model +:+ ")..."] w)))) /\
  (forall t more,
      let model := or_default (head rest) (query_llms.anthropic_model dflt) in
      lower provider = "anthropic" ->
      anthropic_ready w ->
      outcome (messages_reply prompt model w) = inr (t :: more) ->
      str_truthy t = true ->
      query_llms.main dflt (script :: prompt :: provider :: rest) w
      = (Ret tt,
         printed [nl +:+ "Response:"; t]
           (requested ep_anthropic (latency (messages_reply prompt model w))
              (printed ["Querying Anthropic (" +:+ model +:+ ")..."] w)))).
Proof.
  split_ands; intros.
  - apply query_llms_main_gemini; assumption.
  - eapply query_llms_main_openai; eassumption.
  - eapply query_llms_main_anthropic; eassumption.
Qed.

Lemma query_llms_main_answer_witness :
  query_llms.main query_llms.v1 ["query_llms.py"; "hi"; "Gemini"] demo_world
    = (Ret tt,
       printed [nl +:+ "Response:"; "ok"]
         (requested ep_generativeai 5
            (printed ["Querying Gemini (gemini-1.5-pro)..."] demo_world))) /\
  query_llms.main query_llms.v1 ["query_llms.py"; "hi"; "openai"; ""] demo_world
    = (Ret tt,
       printed [nl +:+ "Response:"; "hello"]
         (requested ep_openai 3
            (printed ["Querying OpenAI (gpt-4o)..."] demo_world))) /\
  query_llms.main query_llms.v1 ["query_llms.py"; "hi"; "anthropic"; "claude-x"] demo_world
    = (Ret tt,
       printed [nl +:+ "Response:"; "hi there"]
         (requested ep_anthropic 4
            (printed ["Querying Anthropic (claude-x)..."] demo_world))).
Proof.
  destruct ready_demo as (Hg & Ho & Ha).
  split_ands.
  - exact (proj1 (query_llms_main_answer query_llms.v1 "query_llms.py" "hi" "Gemini" []
                    demo_world) "ok" eq_refl Hg eq_refl eq_refl).
  - exact (proj1 (proj2 (query_llms_main_answer query_llms.v1 "query_llms.py" "hi"
                           "openai" [""] demo_world)) "hello" [] eq_refl Ho eq_refl eq_refl).
  - exact (proj2 (proj2 (query_llms_main_answer query_llms.v1 "query_llms.py" "hi"
                           "anthropic" ["claude-x"] demo_world))
             "hi there" [] eq_refl Ha eq_refl eq_refl).
Defined.

Lemma untouched_trans w1 w2 w3 : untouched w1 w2 -> untouched w2 w3 -> untouched w1 w3.
Proof.
  unfold untouched. intros (A1 & A2 & A3 & A4 & A5) (B1 & B2 & B3 & B4 & B5).
  split_ands; congruence.
Qed.

Lemma still_llm_query_gemini p m : still (llm_query.query_gemini p m).
Proof. unfold llm_query.query_gemini. repeat still_step. Qed.

Lemma still_llm_query_openai p m sp : still (llm_query.query_openai p m sp).
Proof. unfold llm_query.query_openai. repeat still_step. Qed.

Lemma still_llm_query_anthropic p m sp mt : still (llm_query.query_anthropic p m sp mt).
Proof. unfold llm_query.query_anthropic. repeat still_step. Qed.

Lemma still_func_map dflt k f prompt model :
  llm_query.func_map dflt k = Some f -> still (f prompt model).
Proof.
  unfold llm_query.func_map. intros H.
  repeat match type of H with
         | (if ?c then _ else _) = _ => destruct c
         end; simplify_eq.
  - apply still_llm_query_gemini.
  - apply still_llm_query_openai.
  - apply still_llm_query_anthropic.
Qed.

Lemma no_exit_func_map dflt k f prompt model :
  llm_query.func_map dflt k = Some f -> no_exit (f prompt model).
Proof.
  unfold llm_query.func_map. intros H.
  repeat match type of H with
         | (if ?c then _ else _) = _ => destruct c
         end; simplify_eq.
  - apply no_exit_query_gemini.
  - apply no_exit_query_openai.
  - apply no_exit_query_anthropic.
Qed.

Lemma llm_query_main_all_output dflt args w :
  llm_query.arg_provider args = "all" ->
  let prompt := llm_query.arg_prompt args in
  let rule := str_repeat "=" 50 in
  let e1 := entry_of (fst (llm_query.query_gemini prompt (llm_query.gemini_model dflt) w)) in
  let e2 := entry_of (fst (llm_query.query_openai prompt (llm_query.openai_model dflt)
                             None w)) in
  let e3 := entry_of (fst (llm_query.query_anthropic prompt
                             (llm_query.anthropic_model dflt) None 1024 w)) in
  exists w1,
    llm_query.query_all dflt prompt w
    = (Ret [("gemini", e1); ("openai", e2); ("anthropic", e3)], w1) /\
    untouched w w1 /\
    llm_query.main dflt args w
    = (Ret tt,
       printed [nl +:+ rule; "GEMINI:"; rule; e1;
                nl +:+ rule; "OPENAI:"; rule; e2;
                nl +:+ rule; "ANTHROPIC:"; rule; e3] w1).
Proof.
  intros Hall prompt rule e1 e2 e3.
  destruct (query_all_entries dflt prompt w) as (w1 & Hq & _).
  exists w1. split; [exact Hq|]. split.
  - rewrite query_all_run in Hq. inversion Hq as [[H1 H2 H3]].
    eapply untouched_trans; [apply still_llm_query_gemini|].
    eapply untouched_trans; [apply still_llm_query_openai|].
    apply still_llm_query_anthropic.
  - unfold llm_query.main. rewrite Hall.
    change ("all" =? "all")%string with true. cbv iota.
    rewrite bind_run. fold prompt. rewrite Hq.
    cbv [for_each bind print ret printed environ site_packages services fs stdout
         clock calls].
    rewrite <- !app_assoc. reflexivity.
Qed.

Lemma llm_query_main_one_output dflt args f w :
  llm_query.arg_provider args <> "all" ->
  llm_query.func_map dflt (llm_query.arg_provider args) = Some f ->
  let model := if truthy (llm_query.arg_model args) then llm_query.arg_model args
               else None in
  post (f (llm_query.arg_prompt args) model) w (fun r w1 =>
    untouched w w1 /\
    match r with
    | Ret v => llm_query.main dflt args w = (Ret tt, printed [v] w1)
    | Raise e => llm_query.main dflt args w = (Raise e, w1)
    | Exit _ => False
    end).
Proof.
  intros Hne Hf model. unfold post.
  pose proof (still_func_map dflt _ f (llm_query.arg_prompt args) model Hf w) as Hs.
  pose proof (no_exit_func_map dflt _ f (llm_query.arg_prompt args) model Hf w) as Hx.
  split; [exact Hs|].
  unfold llm_query.main.
  destruct (String.eqb_spec (llm_query.arg_provider args) "all"); [contradiction|].
  rewrite Hf. cbv zeta. fold model. rewrite bind_run.
  destruct (f (llm_query.arg_prompt args) model w) as [[v|e|c] w1]; simpl in *;
    [reflexivity | reflexivity | contradiction].
Qed.

(** X6.  What the [__main__] block of [claude/llm_query.py] prints.  With
    [--provider all] it prints, for gemini, openai and anthropic in this
    order, a rule of fifty [=] after an empty line, the name in capitals
    with a colon, the rule again and the entry of the provider, which is
    its answer or ["Error: "] and the text of its exception.  With one
    provider it prints the answer and nothing else, and when the provider
    raises it prints nothing.  The providers themselves print nothing and
    leave the environment and the files alone. *)
Theorem llm_query_main_output dflt args (w : World) :
  (llm_query.arg_provider args = "all" ->
   let prompt := llm_query.arg_prompt args in
   let rule := str_repeat "=" 50 in
   let e1 := entry_of (fst (llm_query.query_gemini prompt (llm_query.gemini_model dflt) w)) in
   let e2 := entry_of (fst (llm_query.query_openai prompt (llm_query.openai_model dflt)
                              None w)) in
   let e3 := entry_of (fst (llm_query.query_anthropic prompt
                              (llm_query.anthropic_model dflt) None 1024 w)) in
   exists w1,
     llm_query.query_all dflt prompt w
     = (Ret [("gemini", e1); ("openai", e2); ("anthropic", e3)], w1) /\
     untouched w w1 /\
     llm_query.main dflt args w
     = (Ret tt,
        printed [nl +:+ rule; "GEMINI:"; rule; e1;
                 nl +:+ rule; "OPENAI:"; rule; e2;
                 nl +:+ rule; "ANTHROPIC:"; rule; e3] w1)) /\
  (forall f,
      llm_query.arg_provider args <> "all" ->
      llm_query.func_map dflt (llm_query.arg_provider args) = Some f ->
      let model := if truthy (llm_query.arg_model args) then llm_query.arg_model args
                   else None in
      post (f (llm_query.arg_prompt args) model) w (fun r w1 =>
        untouched w w1 /\
        match r with
        | Ret v => llm_query.main dflt args w = (Ret tt, printed [v] w1)
        | Raise e => llm_query.main dflt args w = (Raise e, w1)
        | Exit _ => False
        end)).
Proof.
  split.
  - apply llm_query_main_all_output.
  - intros f. apply llm_query_main_one_output.
Qed.

Lemma llm_query_main_output_witness :
  stdout (snd (llm_query.main llm_query.v2 (llm_query.mkArgs "hi" "all" None)
                 no_genai_world))
  = [nl +:+ str_repeat "=" 50; "GEMINI:"; str_repeat "=" 50;
     "Error: No module named 'google.genai'";
     nl +:+ str_repeat "=" 50; "OPENAI:"; str_repeat "=" 50; "hello";
     nl +:+ str_repeat "=" 50; "ANTHROPIC:"; str_repeat "=" 50; "hi there"] /\
  llm_query.main llm_query.v2 (llm_query.mkArgs "hi" "openai" (Some "gpt-5.2-mini"))
    demo_world
  = (Ret tt, printed ["hello"] (requested ep_openai 3 demo_world)).
Proof.
  split.
  - destruct (proj1 (llm_query_main_output llm_query.v2
                       (llm_query.mkArgs "hi" "all" None) no_genai_world) eq_refl)
      as (w1 & _ & (_ & _ & _ & Hs & _) & ->).
    simpl. rewrite Hs. reflexivity.
  - assert (Hne : llm_query.arg_provider (llm_query.mkArgs "hi" "openai" (Some "gpt-5.2-mini"))
                  <> "all") by discriminate.
    exact (proj2 (proj2 (llm_query_main_output llm_query.v2
                           (llm_query.mkArgs "hi" "openai" (Some "gpt-5.2-mini"))
                           demo_world) _ Hne eq_refl)).
Defined.

(** ** More about the image providers *)

Lemma post_decode s w Q :
  (forall b, b64decode (services w) s = inr b -> Q (Ret b) w) ->
  (forall e, b64decode (services w) s = inl e -> Q (Raise e) w) ->
  post (decode s) w Q.
Proof.
  intros H1 H2. unfold post, decode. destruct (b64decode (services w) s); simpl; auto.
Qed.

Lemma post_write_bytes p data w Q :
  (is_dir (fs w) p = false -> is_dir (fs w) (parent p) = true ->
   Q (Ret tt) (set_fs (<[p := File data]> (fs w)) w)) ->
  (forall e, Q (Raise e) w) ->
  post (write_bytes p data) w Q.
Proof.
  intros H1 H2. unfold post, write_bytes.
  destruct (is_dir (fs w) p) eqn:E1; simpl; auto.
  destruct (is_dir (fs w) (parent p)) eqn:E2; simpl; auto.
Qed.

Lemma post_mkdir p w Q :
  (is_dir (fs w) p = true -> Q (Ret tt) w) ->
  (is_dir (fs w) p = false -> is_file (fs w) p = false ->
   is_dir (fs w) (parent p) = true ->
   Q (Ret tt) (set_fs (<[p := Dir]> (fs w)) w)) ->
  (forall e, is_dir (fs w) p = false -> Q (Raise e) w) ->
  post (mkdir_exist_ok p) w Q.
Proof.
  intros H1 H2 H3. unfold post, mkdir_exist_ok.
  destruct (is_dir (fs w) p) eqn:E1; simpl; auto.
  destruct (is_file (fs w) p) eqn:E2; simpl; auto.
  destruct (is_dir (fs w) (parent p)) eqn:E3; simpl; auto.
Qed.

Ltac post_io :=
  first
    [ post_step
    | lazymatch goal with
      | |- post (decode _) _ _ => apply post_decode; [intros ? ? | intros ? ?]
      | |- post (write_bytes _ _) _ _ => apply post_write_bytes; [intros ? ? | intros ?]
      | |- post (mkdir_exist_ok _) _ _ =>
          apply post_mkdir; [intros ? | intros ? ? ? | intros ? ?]
      | |- post (match ?x with _ => _ end) _ _ => destruct x eqn:?
      end ].

Ltac wrote_done :=
  subst; simpl in *;
  repeat match goal with
         | H : negb _ = true |- _ => apply negb_true_iff in H
         | H : negb _ = false |- _ => apply negb_false_iff in H
         | H : (_ =? _) = true |- _ => apply Z.eqb_eq in H
         end;
  try reflexivity;
  try (split; [reflexivity|]; eexists; split; [|reflexivity]).

Lemma generate_dalle_wrote p out m sz q w :
  post (image_generation.generate_dalle p out m sz q) w
       (wrote out (b64_image (images_reply p m sz q w) w) w).
Proof.
  unfold image_generation.generate_dalle, wrote, b64_image, images_reply.
  repeat post_io; wrote_done. eauto.
Qed.

Lemma generate_imagen_wrote p out m w :
  post (image_generation.generate_imagen p out m) w
       (wrote out (first_image (imagen_reply p m w)) w).
Proof.
  unfold image_generation.generate_imagen, wrote, first_image, imagen_reply.
  repeat post_io; wrote_done. eauto.
Qed.

Lemma generate_stability_wrote p out m wd ht w :
  post (image_generation.generate_stability p out m wd ht) w
       (wrote out (artifact_image (stability_reply p m wd ht w) w) w).
Proof.
  unfold image_generation.generate_stability, image_generation.json_of,
    image_generation.first_artifact, wrote, artifact_image, stability_reply.
  repeat post_io; wrote_done.
  match goal with j : Json |- _ => destruct j end. simpl in *. subst. eauto 10.
Qed.

Lemma generate_openai_image_wrote p out m sz q w :
  post (image_generation_v2.generate_openai_image p out m sz q) w
       (wrote out (b64_image (images_reply p m sz q w) w) w).
Proof.
  unfold image_generation_v2.generate_openai_image, wrote, b64_image, images_reply.
  repeat post_io; wrote_done. eauto.
Qed.

Lemma generate_imagen_v2_wrote p out m w :
  post (image_generation_v2.generate_imagen p out m) w
       (wrote out (first_image (imagen_reply p m w)) w).
Proof.
  unfold image_generation_v2.generate_imagen, wrote, first_image, imagen_reply.
  repeat post_io; wrote_done. eauto.
Qed.

Lemma generate_stability_v2_wrote p out m wd ht w :
  post (image_generation_v2.generate_stability p out m wd ht) w
       (wrote out (content_image (stability_reply_v2 p m wd ht w)) w).
Proof.
  unfold image_generation_v2.generate_stability, wrote, content_image, stability_reply_v2.
  repeat post_io; wrote_done. eauto.
Qed.

(** X7.  An image provider of [claude/image_generation.py] or
    [claude/image_generation_v2.py] that returns has returned its
    [output_path] argument, and the only change to the file system is the
    file at that path: it holds the decoded first image of the OpenAI
    reply, the bytes of the first image of the Imagen reply, the decoded
    first artifact of the Stability v1 body, or the content of the
    Stability v2 response, whose status was 200.  A provider that raises
    has written nothing. *)
Theorem image_provider_writes_output prompt output_path model (w : World) :
  (forall size quality,
      post (image_generation.generate_dalle prompt output_path model size quality) w
        (wrote output_path (b64_image (images_reply prompt model size quality w) w) w) /\
      post (image_generation_v2.generate_openai_image prompt output_path model size quality)
        w (wrote output_path (b64_image (images_reply prompt model size quality w) w) w)) /\
  post (image_generation.generate_imagen prompt output_path model) w
    (wrote output_path (first_image (imagen_reply prompt model w)) w) /\
  post (image_generation_v2.generate_imagen prompt output_path model) w
    (wrote output_path (first_image (imagen_reply prompt model w)) w) /\
  (forall width height,
      post (image_generation.generate_stability prompt output_path model width height) w
        (wrote output_path
           (artifact_image (stability_reply prompt model width height w) w) w) /\
      post (image_generation_v2.generate_stability prompt output_path model width height) w
        (wrote output_path
           (content_image (stability_reply_v2 prompt model width height w)) w)).
Proof.
  split_ands.
  - intros size quality. split.
    + apply generate_dalle_wrote.
    + apply generate_openai_image_wrote.
  - apply generate_imagen_wrote.
  - apply generate_imagen_v2_wrote.
  - intros width height. split.
    + apply generate_stability_wrote.
    + apply generate_stability_v2_wrote.
Qed.

Lemma stability_refused p out m wd ht w response :
  outcome (stability_reply p m wd ht w) = inr response ->
  status_code response <> 200 ->
  image_generation.generate_stability p out m wd ht w
  = (Raise (mkExn ValueError ("Stability API error: " +:+ text response)),
     requested "requests.post" (latency (stability_reply p m wd ht w)) w).
Proof.
  intros Ho Hs. apply post_run.
  unfold stability_reply, requested in *. unfold image_generation.generate_stability.
  repeat post_io; wrote_done; congruence.
Qed.

Lemma stability_refused_v2 p out m wd ht w response :
  outcome (stability_reply_v2 p m wd ht w) = inr response ->
  status_code response <> 200 ->
  image_generation_v2.generate_stability p out m wd ht w
  = (Raise (mkExn ValueError ("Stability API error: " +:+ text response)),
     requested "requests.post" (latency (stability_reply_v2 p m wd ht w)) w).
Proof.
  intros Ho Hs. apply post_run.
  unfold stability_reply_v2, requested in *. unfold image_generation_v2.generate_stability.
  repeat post_io; wrote_done; congruence.
Qed.

(** X8.  [generate_stability] on a response whose status is not 200, in
    both versions of the script: it raises [ValueError] with the text
    ["Stability API error: "] followed by the text of the response, after
    the one request; the body is not looked at and nothing is written. *)
Theorem generate_stability_status prompt output_path model width height (w : World)
    response :
  (outcome (stability_reply prompt model width height w) = inr response ->
   status_code response <> 200 ->
   image_generation.generate_stability prompt output_path model width height w
   = (Raise (mkExn ValueError ("Stability API error: " +:+ text response)),
      requested "requests.post"
        (latency (stability_reply prompt model width height w)) w)) /\
  (outcome (stability_reply_v2 prompt model width height w) = inr response ->
   status_code response <> 200 ->
   image_generation_v2.generate_stability prompt output_path model width height w
   = (Raise (mkExn ValueError ("Stability API error: " +:+ text response)),
      requested "requests.post"
        (latency (stability_reply_v2 prompt model width height w)) w)).
Proof.
  split; intros.
  - apply stability_refused; assumption.
  - apply stability_refused_v2; assumption.
Qed.

Lemma generate_stability_status_witness :
  image_generation.generate_stability "a cat" "out.png" "stable-diffusion-xl-1024-v1-0"
    1024 1024 down_world
  = (Raise (mkExn ValueError "Stability API error: unauthorized"),
     requested "requests.post" 1 down_world) /\
  image_generation_v2.generate_stability "a cat" "out.png" "sd3.5-large" 1024 1024
    no_keys_strict_world
  = (Raise (mkExn ValueError "Stability API error: unauthorized"),
     requested "requests.post" 8 no_keys_strict_world).
Proof.
  split.
  - apply (proj1 (generate_stability_status "a cat" "out.png"
                    "stable-diffusion-xl-1024-v1-0" 1024 1024 down_world http_error));
      [reflexivity | discriminate].
  - apply (proj2 (generate_stability_status "a cat" "out.png" "sd3.5-large" 1024 1024
                    no_keys_strict_world http_error));
      [reflexivity | discriminate].
Defined.

(** The exception that [data["artifacts"][0]["base64"]] raises on a body
    of the wrong shape. *)
Lemma stability_body p out m wd ht w response e :
  outcome (stability_reply p m wd ht w) = inr response ->
  status_code response = 200 ->
  body_error (json response) = Some e ->
  image_generation.generate_stability p out m wd ht w
  = (Raise e, requested "requests.post" (latency (stability_reply p m wd ht w)) w).
Proof.
  intros Ho Hs Hb. apply post_run.
  unfold stability_reply, requested, body_error in *.
  unfold image_generation.generate_stability, image_generation.json_of,
    image_generation.first_artifact.
  repeat post_io; wrote_done;
    try match goal with H : (_ =? _) = false |- _ => apply Z.eqb_neq in H end;
    try congruence;
    repeat match goal with
           | H : outcome _ = inr ?a, H' : outcome _ = inr response |- _ =>
               assert (a = response) by congruence; subst a; clear H
           | H : json response = _ |- _ => rewrite H in Hb
           | j : Json |- _ => destruct j; simpl in *; subst
           end; simpl in *; congruence.
Qed.

(** X9.  [generate_stability] of [claude/image_generation.py] on a
    response with status 200 whose body is not as expected.  The error of
    [response.json()] is passed on; a body without ["artifacts"] gives
    [KeyError], an empty list of artifacts gives [IndexError], a first
    artifact without ["base64"] gives [KeyError].  In each case the
    request has been made and nothing is written. *)
Theorem generate_stability_body prompt output_path model width height (w : World)
    response :
  outcome (stability_reply prompt model width height w) = inr response ->
  status_code response = 200 ->
  let run := image_generation.generate_stability prompt output_path model width height w in
  let w' := requested "requests.post"
              (latency (stability_reply prompt model width height w)) w in
  (forall e, json response = inl e -> run = (Raise e, w')) /\
  (json response = inr (mkJson None) -> run = (Raise (mkExn KeyError "'artifacts'"), w')) /\
  (json response = inr (mkJson (Some [])) ->
   run = (Raise (mkExn IndexError "list index out of range"), w')) /\
  (forall rest, json response = inr (mkJson (Some (None :: rest))) ->
                run = (Raise (mkExn KeyError "'base64'"), w')).
Proof.
  intros Ho Hs run w'. unfold run, w'.
  split_ands; intros; eapply stability_body; try eassumption;
    match goal with H : json response = _ |- _ => rewrite H end; reflexivity.
Qed.

Lemma generate_stability_body_witness :
  image_generation.generate_stability "a cat" "out.png" "stable-diffusion-xl-1024-v1-0"
    1024 1024 blank_world
  = (Raise (mkExn IndexError "list index out of range"),
     requested "requests.post" 8 blank_world).
Proof.
  exact (proj1 (proj2 (proj2
           (generate_stability_body "a cat" "out.png" "stable-diffusion-xl-1024-v1-0"
              1024 1024 blank_world (mkHttp 200 "" "" (inr (mkJson (Some []))))
              eq_refl eq_refl)))
           eq_refl).
Defined.

Lemma imagen_empty p out m w :
  "google.genai" ∈ site_packages w ->
  genai_Client (services w) (environ w !! "GEMINI_API_KEY") = None ->
  outcome (imagen_reply p m w) = inr [] ->
  image_generation.generate_imagen p out m w
  = (Raise (mkExn ValueError "No image generated"),
     requested "genai.models.generate_images" (latency (imagen_reply p m w)) w) /\
  image_generation_v2.generate_imagen p out m w
  = (Raise (mkExn ValueError "No image generated"),
     requested "genai.models.generate_images" (latency (imagen_reply p m w)) w).
Proof.
  intros Hp Hc Ho. unfold imagen_reply, requested in *.
  split; apply post_run;
    [unfold image_generation.generate_imagen | unfold image_generation_v2.generate_imagen];
    repeat post_io; wrote_done; congruence.
Qed.

Lemma dalle_empty p out m sz q w :
  "openai" ∈ site_packages w ->
  OpenAI (services w) (environ w !! "OPENAI_API_KEY") = None ->
  outcome (images_reply p m sz q w) = inr [] ->
  image_generation.generate_dalle p out m sz q w
  = (Raise (mkExn IndexError "list index out of range"),
     requested "openai.images.generate" (latency (images_reply p m sz q w)) w) /\
  image_generation_v2.generate_openai_image p out m sz q w
  = (Raise (mkExn IndexError "list index out of range"),
     requested "openai.images.generate" (latency (images_reply p m sz q w)) w).
Proof.
  intros Hp Hc Ho. unfold images_reply, requested in *.
  split; apply post_run;
    [unfold image_generation.generate_dalle
    |unfold image_generation_v2.generate_openai_image];
    repeat post_io; wrote_done; congruence.
Qed.

(** X10.  A reply without an image, in both versions of the script.
    [generate_imagen] raises [ValueError("No image generated")]; the
    OpenAI provider indexes the empty list and raises [IndexError].  Both
    have made their request and written nothing. *)
Theorem empty_reply_raises prompt output_path model (w : World) :
  ("google.genai" ∈ site_packages w ->
   genai_Client (services w) (environ w !! "GEMINI_API_KEY") = None ->
   outcome (imagen_reply prompt model w) = inr [] ->
   let w' := requested "genai.models.generate_images"
               (latency (imagen_reply prompt model w)) w in
   image_generation.generate_imagen prompt output_path model w
   = (Raise (mkExn ValueError "No image generated"), w') /\
   image_generation_v2.generate_imagen prompt output_path model w
   = (Raise (mkExn ValueError "No image generated"), w')) /\
  (forall size quality,
      "openai" ∈ site_packages w ->
      OpenAI (services w) (environ w !! "OPENAI_API_KEY") = None ->
      outcome (images_reply prompt model size quality w) = inr [] ->
      let w' := requested "openai.images.generate"
                  (latency (images_reply prompt model size quality w)) w in
      image_generation.generate_dalle prompt output_path model size quality w
      = (Raise (mkExn IndexError "list index out of range"), w') /\
      image_generation_v2.generate_openai_image prompt output_path model size quality w
      = (Raise (mkExn IndexError "list index out of range"), w')).
Proof.
  split.
  - intros. apply imagen_empty; assumption.
  - intros. apply dalle_empty; assumption.
Qed.

Lemma all_packages_all :
  "google.genai" ∈ all_packages /\ "google.generativeai" ∈ all_packages /\
  "openai" ∈ all_packages /\ "anthropic" ∈ all_packages.
Proof. unfold all_packages. rewrite !elem_of_union, !elem_of_singleton. tauto. Qed.

Lemma empty_reply_raises_witness :
  image_generation.generate_imagen "a cat" "out.png" "imagen-3.0-generate-002" blank_world
  = (Raise (mkExn ValueError "No image generated"),
     requested "genai.models.generate_images" 6 blank_world) /\
  image_generation.generate_dalle "a cat" "out.png" "dall-e-3" "1024x1024" "standard"
    blank_world
  = (Raise (mkExn IndexError "list index out of range"),
     requested "openai.images.generate" 7 blank_world).
Proof.
  split.
  - exact (proj1 (proj1 (empty_reply_raises "a cat" "out.png" "imagen-3.0-generate-002"
                           blank_world) (proj1 all_packages_all) eq_refl eq_refl)).
  - exact (proj1 (proj2 (empty_reply_raises "a cat" "out.png" "dall-e-3" blank_world)
                    "1024x1024" "standard" (proj1 (proj2 (proj2 all_packages_all)))
                    eq_refl eq_refl)).
Defined.

(** ** The files of generate_all *)

Lemma wrote_writes s name (m : Py string) P :
  good name ->
  (forall w, post m w (wrote (path_str (path_join (Path s) name)) (P w) w)) ->
  writes (path_join (Path s) name) m.
Proof.
  intros Hg H w. specialize (H w). unfold post, wrote in H.
  rewrite (Path_child s name Hg) in H.
  destruct (fst (m w)); [|exact H|exact H].
  destruct H as (-> & data & _ & Hfs). split; [reflexivity|]. exists data. exact Hfs.
Qed.

Lemma writes_calls p d :
  let q := Path d in
  writes (path_join q "dalle_output.png") (dalle_call p d) /\
  writes (path_join q "imagen_output.png") (imagen_call p d) /\
  writes (path_join q "stability_output.png") (stability_call p d) /\
  writes (path_join q "openai_output.png") (openai_call_v2 p d) /\
  writes (path_join q "imagen_output.png") (imagen_call_v2 p d) /\
  writes (path_join q "stability_output.png") (stability_call_v2 p d).
Proof.
  destruct good_file_names as (G1 & G2 & G3 & G4). cbv zeta. split_ands.
  - eapply wrote_writes; [exact G1|]. intros w. apply generate_dalle_wrote.
  - eapply wrote_writes; [exact G3|]. intros w. apply generate_imagen_wrote.
  - eapply wrote_writes; [exact G4|]. intros w. apply generate_stability_wrote.
  - eapply wrote_writes; [exact G2|]. intros w. apply generate_openai_image_wrote.
  - eapply wrote_writes; [exact G3|]. intros w. apply generate_imagen_v2_wrote.
  - eapply wrote_writes; [exact G4|]. intros w. apply generate_stability_v2_wrote.
Qed.

Lemma writes_other x (m : Py string) w y :
  writes x m -> y <> x -> fs (snd (m w)) !! y = fs w !! y.
Proof.
  intros H Hy. specialize (H w). destruct (fst (m w)).
  - destruct H as (_ & data & ->). apply lookup_insert_ne. congruence.
  - rewrite H. reflexivity.
  - contradiction.
Qed.

Lemma writes_stored x (m : Py string) w : writes x m -> stored x (fst (m w)) (snd (m w)).
Proof.
  intros H. specialize (H w). unfold stored. destruct (fst (m w)); [|exact I|exact I].
  destruct H as (-> & data & ->). split; [reflexivity|]. exists data.
  apply lookup_insert_eq.
Qed.

Lemma stored_other x r w w' :
  fs w' !! x = fs w !! x -> stored x r w -> stored x r w'.
Proof. unfold stored. intros E. destruct r; [|exact id|exact id]. rewrite E. exact id. Qed.

Lemma writes_no_exit x m : writes x m -> no_exit m.
Proof. intros H w. specialize (H w). destruct (fst (m w)); [exact I|exact I|exact H]. Qed.

Lemma fan_out_files q n1 n2 n3 k1 k2 k3 (a1 a2 a3 : Py string) w :
  writes (path_join q n1) a1 -> writes (path_join q n2) a2 -> writes (path_join q n3) a3 ->
  n1 <> n2 -> n1 <> n3 -> n2 <> n3 ->
  fst (mkdir_exist_ok q w) = Ret tt ->
  let x1 := a1 (snd (mkdir_exist_ok q w)) in
  let x2 := a2 (snd x1) in
  let x3 := a3 (snd x2) in
  bind (mkdir_exist_ok q) (fun _ => fan_out k1 k2 k3 a1 a2 a3) w
  = (Ret (dict_set k3 (entry_of (fst x3))
            (dict_set k2 (entry_of (fst x2)) (dict_set k1 (entry_of (fst x1)) []))),
     snd x3) /\
  stored (path_join q n1) (fst x1) (snd x3) /\
  stored (path_join q n2) (fst x2) (snd x3) /\
  stored (path_join q n3) (fst x3) (snd x3) /\
  forall y, y ∉ [q; path_join q n1; path_join q n2; path_join q n3] ->
            fs (snd x3) !! y = fs w !! y.
Proof.
  intros W1 W2 W3 N12 N13 N23 Hm x1 x2 x3.
  assert (D : forall a b, a <> b -> path_join q a <> path_join q b).
  { intros a b Hab E. apply Hab. unfold path_join in E.
    apply app_inv_head in E. congruence. }
  split_ands.
  - destruct (mkdir_fan_out_run q k1 k2 k3 a1 a2 a3 w
                (writes_no_exit _ _ W1) (writes_no_exit _ _ W2) (writes_no_exit _ _ W3))
      as [[_ E]|(e & E & _)]; [exact E | congruence].
  - apply (stored_other _ _ (snd x1)); [|apply writes_stored, W1].
    unfold x3. rewrite (writes_other _ a3 _ _ W3) by (apply D; congruence).
    unfold x2. rewrite (writes_other _ a2 _ _ W2) by (apply D; congruence).
    reflexivity.
  - apply (stored_other _ _ (snd x2)); [|apply writes_stored, W2].
    unfold x3. rewrite (writes_other _ a3 _ _ W3) by (apply D; congruence).
    reflexivity.
  - apply writes_stored, W3.
  - intros y Hy. rewrite !not_elem_of_cons in Hy. destruct Hy as (Y0 & Y1 & Y2 & Y3 & _).
    unfold x3. rewrite (writes_other _ a3 _ _ W3) by exact Y3.
    unfold x2. rewrite (writes_other _ a2 _ _ W2) by exact Y2.
    unfold x1. rewrite (writes_other _ a1 _ _ W1) by exact Y1.
    destruct (mkdir_cases q w) as [[Hd E]|[[Hd E]|[Hd [e E]]]]; rewrite E; simpl.
    + reflexivity.
    + apply lookup_insert_ne. congruence.
    + reflexivity.
Qed.

(** X11.  [generate_all], in both versions of the script, when the output
    directory exists or can be made.  The dict holds, in the order of the
    calls, the entry of each provider run after the ones before it.  Each
    provider that returned has returned the string of its own path under
    the directory, and its file is in the file system when [generate_all]
    returns: the later providers write to other paths.  Apart from the
    directory and the three files, no path of the file system has
    changed. *)
Theorem generate_all_files prompt output_dir (w : World) :
  let q := Path output_dir in
  fst (mkdir_exist_ok q w) = Ret tt ->
  (let x1 := dalle_call prompt output_dir (snd (mkdir_exist_ok q w)) in
   let x2 := imagen_call prompt output_dir (snd x1) in
   let x3 := stability_call prompt output_dir (snd x2) in
   image_generation.generate_all prompt output_dir w
   = (Ret [("dalle", entry_of (fst x1)); ("imagen", entry_of (fst x2));
           ("stability", entry_of (fst x3))], snd x3) /\
   stored (path_join q "dalle_output.png") (fst x1) (snd x3) /\
   stored (path_join q "imagen_output.png") (fst x2) (snd x3) /\
   stored (path_join q "stability_output.png") (fst x3) (snd x3) /\
   forall y,
     y ∉ [q; path_join q "dalle_output.png"; path_join q "imagen_output.png";
          path_join q "stability_output.png"] ->
     fs (snd x3) !! y = fs w !! y) /\
  (let x1 := openai_call_v2 prompt output_dir (snd (mkdir_exist_ok q w)) in
   let x2 := imagen_call_v2 prompt output_dir (snd x1) in
   let x3 := stability_call_v2 prompt output_dir (snd x2) in
   image_generation_v2.generate_all prompt output_dir w
   = (Ret [("openai", entry_of (fst x1)); ("imagen", entry_of (fst x2));
           ("stability", entry_of (fst x3))], snd x3) /\
   stored (path_join q "openai_output.png") (fst x1) (snd x3) /\
   stored (path_join q "imagen_output.png") (fst x2) (snd x3) /\
   stored (path_join q "stability_output.png") (fst x3) (snd x3) /\
   forall y,
     y ∉ [q; path_join q "openai_output.png"; path_join q "imagen_output.png";
          path_join q "stability_output.png"] ->
     fs (snd x3) !! y = fs w !! y).
Proof.
  intros q Hm.
  destruct (writes_calls prompt output_dir) as (W1 & W2 & W3 & W4 & W5 & W6).
  split.
  - rewrite generate_all_fan_out.
    apply (fan_out_files q _ _ _ "dalle" "imagen" "stability" _ _ _ w W1 W2 W3);
      [discriminate | discriminate | discriminate | exact Hm].
  - rewrite generate_all_v2_fan_out.
    apply (fan_out_files q _ _ _ "openai" "imagen" "stability" _ _ _ w W4 W5 W6);
      [discriminate | discriminate | discriminate | exact Hm].
Qed.

Lemma generate_all_files_witness :
  fst (mkdir_exist_ok (Path "out") demo_world) = Ret tt /\
  exists rs w',
    image_generation.generate_all "a cat" "out" demo_world = (Ret rs, w') /\
    stored (path_join (Path "out") "dalle_output.png")
      (fst (dalle_call "a cat" "out" (snd (mkdir_exist_ok (Path "out") demo_world)))) w'.
Proof.
  assert (Hm : fst (mkdir_exist_ok (Path "out") demo_world) = Ret tt)
    by (vm_compute; reflexivity).
  split; [exact Hm|].
  pose proof (proj1 (generate_all_files "a cat" "out" demo_world Hm)) as H.
  cbv zeta in H. destruct H as (E & S1 & _).
  eexists _, _. split; [exact E | exact S1].
Defined.

(** ** The command lines of the image scripts *)

Lemma tidy_stdout {A} (m : Py A) w : tidy m -> stdout (snd (m w)) = stdout w.
Proof. intros H. destruct (H w) as (_ & _ & _ & Hs & _). exact Hs. Qed.

Lemma fan_out_prints q k1 k2 k3 (a1 a2 a3 : Py string) w :
  no_exit a1 -> no_exit a2 -> no_exit a3 -> tidy a1 -> tidy a2 -> tidy a3 ->
  k1 <> k2 -> k1 <> k3 -> k2 <> k3 ->
  let G := bind (mkdir_exist_ok q) (fun _ => fan_out k1 k2 k3 a1 a2 a3) in
  let M := results ← G;
           for_each results (fun '(provider, result) => print (provider +:+ ": " +:+ result))
  in
  (forall e, fst (mkdir_exist_ok q w) = Raise e -> M w = (Raise e, w)) /\
  (fst (mkdir_exist_ok q w) = Ret tt ->
   exists e1 e2 e3 w1,
     G w = (Ret [(k1, e1); (k2, e2); (k3, e3)], w1) /\
     stdout w1 = stdout w /\
     M w = (Ret tt, printed [k1 +:+ ": " +:+ e1; k2 +:+ ": " +:+ e2; k3 +:+ ": " +:+ e3] w1)).
Proof.
  intros X1 X2 X3 T1 T2 T3 N12 N13 N23 G M.
  destruct (mkdir_fan_out_run q k1 k2 k3 a1 a2 a3 w X1 X2 X3) as [[Hm E]|(e & Hm & E)];
    fold G in E.
  - split; [intros e He; congruence|]. intros _.
    apply String.eqb_neq in N12, N13, N23.
    assert (N21 : (k2 =? k1)%string = false) by (rewrite String.eqb_sym; exact N12).
    assert (N31 : (k3 =? k1)%string = false) by (rewrite String.eqb_sym; exact N13).
    assert (N32 : (k3 =? k2)%string = false) by (rewrite String.eqb_sym; exact N23).
    simpl dict_set in E. rewrite N21 in E. simpl dict_set in E. rewrite N31 in E.
    simpl dict_set in E. rewrite N32 in E. simpl dict_set in E.
    eexists _, _, _, _. split; [exact E|]. split.
    + rewrite (tidy_stdout a3 _ T3), (tidy_stdout a2 _ T2), (tidy_stdout a1 _ T1).
      destruct (mkdir_exist_ok q w) as [r w0] eqn:Em. simpl in Hm. subst r.
      apply (mkdir_ret q w tt w0 Em).
    + unfold M. rewrite bind_run, E.
      cbv [for_each bind print ret printed environ site_packages services fs stdout
           clock calls].
      rewrite <- !app_assoc. reflexivity.
  - split; [|intros H; congruence].
    intros e' He. assert (e' = e) by congruence. subst e'.
    unfold M. rewrite bind_run, E. reflexivity.
Qed.

Lemma saved_to (m : Py string) out P w :
  tidy m -> post m w (wrote out P w) ->
  post m w (fun r w1 =>
    stdout w1 = stdout w /\
    match r with
    | Ret v =>
        v = out /\
        (output ← m; print ("Image saved to: " +:+ output)) w
        = (Ret tt, printed ["Image saved to: " +:+ out] w1)
    | Raise e =>
        fs w1 = fs w /\
        (output ← m; print ("Image saved to: " +:+ output)) w = (Raise e, w1)
    | Exit _ => False
    end).
Proof.
  intros T H. unfold post in *. split; [apply tidy_stdout, T|].
  rewrite bind_run. unfold wrote in H.
  destruct (m w) as [[v|e|c] w1]; simpl in *.
  - destruct H as (-> & _). split; reflexivity.
  - split; [exact H | reflexivity].
  - exact H.
Qed.

Lemma image_main_one args f w :
  image_generation.arg_provider args <> "all" ->
  image_generation.func_map (image_generation.arg_provider args) = Some f ->
  post (f (image_generation.arg_prompt args) (image_generation.arg_output args)) w
    (fun r w1 =>
       stdout w1 = stdout w /\
       match r with
       | Ret v =>
           v = image_generation.arg_output args /\
           image_generation.main args w
           = (Ret tt,
              printed ["Image saved to: " +:+ image_generation.arg_output args] w1)
       | Raise e => fs w1 = fs w /\ image_generation.main args w = (Raise e, w1)
       | Exit _ => False
       end).
Proof.
  intros Hne Hf. unfold image_generation.main.
  destruct (String.eqb_spec (image_generation.arg_provider args) "all"); [contradiction|].
  rewrite Hf. unfold image_generation.func_map in Hf.
  repeat match type of Hf with
         | (if ?c then _ else _) = _ => destruct c
         end; simplify_eq.
  - eapply saved_to; [apply tidy_generate_dalle | apply generate_dalle_wrote].
  - eapply saved_to; [apply tidy_generate_imagen | apply generate_imagen_wrote].
  - eapply saved_to; [apply tidy_generate_stability | apply generate_stability_wrote].
Qed.

Lemma image_main_one_v2 args f w :
  image_generation_v2.arg_provider args <> "all" ->
  image_generation_v2.func_map (image_generation_v2.arg_provider args) = Some f ->
  post (f (image_generation_v2.arg_prompt args) (image_generation_v2.arg_output args)) w
    (fun r w1 =>
       stdout w1 = stdout w /\
       match r with
       | Ret v =>
           v = image_generation_v2.arg_output args /\
           image_generation_v2.main args w
           = (Ret tt,
              printed ["Image saved to: " +:+ image_generation_v2.arg_output args] w1)
       | Raise e => fs w1 = fs w /\ image_generation_v2.main args w = (Raise e, w1)
       | Exit _ => False
       end).
Proof.
  intros Hne Hf. unfold image_generation_v2.main.
  destruct (String.eqb_spec (image_generation_v2.arg_provider args) "all"); [contradiction|].
  rewrite Hf. unfold image_generation_v2.func_map in Hf.
  repeat match type of Hf with
         | (if ?c then _ else _) = _ => destruct c
         end; simplify_eq.
  - eapply saved_to; [apply tidy_generate_openai_image | apply generate_openai_image_wrote].
  - eapply saved_to; [apply tidy_generate_imagen_v2 | apply generate_imagen_v2_wrote].
  - eapply saved_to; [apply tidy_generate_stability_v2 | apply generate_stability_v2_wrote].
Qed.

Lemma image_main_all args w :
  image_generation.arg_provider args = "all" ->
  let q := Path (image_generation.arg_output_dir args) in
  (forall e, fst (mkdir_exist_ok q w) = Raise e ->
             image_generation.main args w = (Raise e, w)) /\
  (fst (mkdir_exist_ok q w) = Ret tt ->
   exists e1 e2 e3 w1,
     image_generation.generate_all (image_generation.arg_prompt args)
       (image_generation.arg_output_dir args) w
     = (Ret [("dalle", e1); ("imagen", e2); ("stability", e3)], w1) /\
     stdout w1 = stdout w /\
     image_generation.main args w
     = (Ret tt, printed ["dalle: " +:+ e1; "imagen: " +:+ e2; "stability: " +:+ e3] w1)).
Proof.
  intros Hall q. unfold image_generation.main. rewrite Hall.
  change ("all" =? "all")%string with true. cbv iota.
  rewrite generate_all_fan_out.
  destruct (no_exit_calls (image_generation.arg_prompt args)
              (image_generation.arg_output_dir args)) as (X1 & X2 & X3 & _).
  destruct (tidy_calls (image_generation.arg_prompt args)
              (image_generation.arg_output_dir args)) as (T1 & T2 & T3 & _).
  apply (fan_out_prints q "dalle" "imagen" "stability" _ _ _ w X1 X2 X3 T1 T2 T3);
    discriminate.
Qed.

Lemma image_main_all_v2 args w :
  image_generation_v2.arg_provider args = "all" ->
  let q := Path (image_generation_v2.arg_output_dir args) in
  (forall e, fst (mkdir_exist_ok q w) = Raise e ->
             image_generation_v2.main args w = (Raise e, w)) /\
  (fst (mkdir_exist_ok q w) = Ret tt ->
   exists e1 e2 e3 w1,
     image_generation_v2.generate_all (image_generation_v2.arg_prompt args)
       (image_generation_v2.arg_output_dir args) w
     = (Ret [("openai", e1); ("imagen", e2); ("stability", e3)], w1) /\
     stdout w1 = stdout w /\
     image_generation_v2.main args w
     = (Ret tt, printed ["openai: " +:+ e1; "imagen: " +:+ e2; "stability: " +:+ e3] w1)).
Proof.
  intros Hall q. unfold image_generation_v2.main. rewrite Hall.
  change ("all" =? "all")%string with true. cbv iota.
  rewrite generate_all_v2_fan_out.
  destruct (no_exit_calls (image_generation_v2.arg_prompt args)
              (image_generation_v2.arg_output_dir args)) as (_ & _ & _ & X1 & X2 & X3).
  destruct (tidy_calls (image_generation_v2.arg_prompt args)
              (image_generation_v2.arg_output_dir args)) as (_ & _ & _ & T1 & T2 & T3).
  apply (fan_out_prints q "openai" "imagen" "stability" _ _ _ w X1 X2 X3 T1 T2 T3);
    discriminate.
Qed.

(** X12.  The [__main__] block of [claude/image_generation.py].  With
    [--provider all]: when the output directory cannot be made the error
    of [mkdir] ends the script before anything is printed or requested;
    otherwise the script returns and prints one line per provider,
    [dalle: ...], [imagen: ...], [stability: ...] in this order, each with
    the entry of the dict.  With one provider: when the provider returns,
    the script prints [Image saved to: ] followed by the [--output]
    argument; when it raises, the script ends with that exception, has
    printed nothing and has written nothing. *)
Theorem image_generation_main_output args (w : World) :
  (image_generation.arg_provider args = "all" ->
   let q := Path (image_generation.arg_output_dir args) in
   (forall e, fst (mkdir_exist_ok q w) = Raise e ->
              image_generation.main args w = (Raise e, w)) /\
   (fst (mkdir_exist_ok q w) = Ret tt ->
    exists e1 e2 e3 w1,
      image_generation.generate_all (image_generation.arg_prompt args)
        (image_generation.arg_output_dir args) w
      = (Ret [("dalle", e1); ("imagen", e2); ("stability", e3)], w1) /\
      stdout w1 = stdout w /\
      image_generation.main args w
      = (Ret tt,
         printed ["dalle: " +:+ e1; "imagen: " +:+ e2; "stability: " +:+ e3] w1))) /\
  (forall f,
      image_generation.arg_provider args <> "all" ->
      image_generation.func_map (image_generation.arg_provider args) = Some f ->
      post (f (image_generation.arg_prompt args) (image_generation.arg_output args)) w
        (fun r w1 =>
           stdout w1 = stdout w /\
           match r with
           | Ret v =>
               v = image_generation.arg_output args /\
               image_generation.main args w
               = (Ret tt,
                  printed ["Image saved to: " +:+ image_generation.arg_output args] w1)
           | Raise e => fs w1 = fs w /\ image_generation.main args w = (Raise e, w1)
           | Exit _ => False
           end)).
Proof.
  split.
  - apply image_main_all.
  - intros f. apply image_main_one.
Qed.

(** X13.  The [__main__] block of [claude/image_generation_v2.py] behaves
    in the same way, with the providers [openai], [imagen] and
    [stability]. *)
Theorem image_generation_v2_main_output args (w : World) :
  (image_generation_v2.arg_provider args = "all" ->
   let q := Path (image_generation_v2.arg_output_dir args) in
   (forall e, fst (mkdir_exist_ok q w) = Raise e ->
              image_generation_v2.main args w = (Raise e, w)) /\
   (fst (mkdir_exist_ok q w) = Ret tt ->
    exists e1 e2 e3 w1,
      image_generation_v2.generate_all (image_generation_v2.arg_prompt args)
        (image_generation_v2.arg_output_dir args) w
      = (Ret [("openai", e1); ("imagen", e2); ("stability", e3)], w1) /\
      stdout w1 = stdout w /\
      image_generation_v2.main args w
      = (Ret tt,
         printed ["openai: " +:+ e1; "imagen: " +:+ e2; "stability: " +:+ e3] w1))) /\
  (forall f,
      image_generation_v2.arg_provider args <> "all" ->
      image_generation_v2.func_map (image_generation_v2.arg_provider args) = Some f ->
      post (f (image_generation_v2.arg_prompt args) (image_generation_v2.arg_output args)) w
        (fun r w1 =>
           stdout w1 = stdout w /\
           match r with
           | Ret v =>
               v = image_generation_v2.arg_output args /\
               image_generation_v2.main args w
               = (Ret tt,
                  printed ["Image saved to: " +:+ image_generation_v2.arg_output args] w1)
           | Raise e => fs w1 = fs w /\ image_generation_v2.main args w = (Raise e, w1)
           | Exit _ => False
           end)).
Proof.
  split.
  - apply image_main_all_v2.
  - intros f. apply image_main_one_v2.
Qed.

Lemma image_generation_main_output_witness :
  exists e,
    image_generation.main (image_generation.mkArgs "a cat" "all" "output.png" "missing/out")
      demo_world
    = (Raise e, demo_world).
Proof.
  assert (Hm : fst (mkdir_exist_ok (Path "missing/out") demo_world)
               = Raise (no_parent ∅ ["missing"; "out"])) by (vm_compute; reflexivity).
  eexists.
  exact (proj1 (proj1 (image_generation_main_output
                         (image_generation.mkArgs "a cat" "all" "output.png" "missing/out")
                         demo_world) eq_refl) _ Hm).
Defined.

Lemma image_generation_v2_main_output_witness :
  exists e,
    image_generation_v2.main
      (image_generation_v2.mkArgs "a cat" "all" "output.png" "missing/out") demo_world
    = (Raise e, demo_world).
Proof.
  assert (Hm : fst (mkdir_exist_ok (Path "missing/out") demo_world)
               = Raise (no_parent ∅ ["missing"; "out"])) by (vm_compute; reflexivity).
  eexists.
  exact (proj1 (proj1 (image_generation_v2_main_output
                         (image_generation_v2.mkArgs "a cat" "all" "output.png"
                            "missing/out")
                         demo_world) eq_refl) _ Hm).
Defined.

(** ** image_generation_v2.py *)

Lemma post_setenv name value w Q :
  Q (Ret tt) (mkWorld (<[name := value]> (environ w)) (site_packages w) (services w)
                      (fs w) (stdout w) (clock w) (calls w)) ->
  post (setenv name value) w Q.
Proof. exact id. Qed.

Lemma post_weaken {A} (m : Py A) w (Q Q' : Res A -> World -> Prop) :
  post m w Q -> (forall r w', Q r w' -> Q' r w') -> post m w Q'.
Proof. unfold post. auto. Qed.

Ltac post_v2 :=
  first
    [ post_io
    | lazymatch goal with
      | |- post (setenv _ _) _ _ => apply post_setenv
      end ].

Section generators.
Import image_generation_v2_script.
Variable V : Vendors.

Lemma generate_image_openai_explained p m sz q n w :
  post (generate_image_openai V p m sz q n) w (fun r w' =>
    exists v, r = Ret v /\ explained v w w').
Proof.
  unfold generate_image_openai, explained.
  repeat post_v2; subst; simpl in *; eexists; (split; [reflexivity|]);
    try reflexivity; eexists [_]; (split; [discriminate|reflexivity]).
Qed.

Lemma generate_image_replicate_explained p m w :
  post (generate_image_replicate V p m) w (fun r w' =>
    exists v, r = Ret v /\ explained v w w').
Proof.
  unfold generate_image_replicate, run, explained.
  repeat post_v2; subst; simpl in *; eexists; (split; [reflexivity|]);
    try reflexivity; eexists [_]; (split; [discriminate|reflexivity]).
Qed.

Lemma download_image_returns u out w :
  post (download_image V u out) w (fun r w' =>
    exists b : bool, r = Ret b /\
      if b then stdout w' = stdout w
      else fs w' = fs w /\ exists line, stdout w' = stdout w ++ [line]).
Proof.
  unfold download_image, raise_for_status.
  repeat post_v2; subst; simpl in *; eexists; (split; [reflexivity|]);
    try reflexivity; (split; [reflexivity|]); eexists; reflexivity.
Qed.

End generators.

Lemma set_fs_id w : set_fs (fs w) w = w.
Proof. destruct w. reflexivity. Qed.

Lemma no_slash_app a b : no_slash (a +:+ b) = no_slash a && no_slash b.
Proof.
  induction a as [|c a IH]; simpl; [reflexivity|].
  rewrite IH. apply andb_assoc.
Qed.

Lemma no_slash_replace s : no_slash (replace_char "/" "_" s) = true.
Proof.
  unfold replace_char. induction s as [|c s IH]; simpl; [reflexivity|].
  rewrite IH. destruct (Ascii.eqb_spec c "/") as [->|Hc]; [reflexivity|].
  apply Ascii.eqb_neq in Hc. rewrite Hc. reflexivity.
Qed.

Lemma no_slash_uint d : no_slash (NilEmpty.string_of_uint d) = true.
Proof. induction d; simpl; auto. Qed.

Lemma no_slash_str_of_nat n : no_slash (str_of_nat n) = true.
Proof. apply no_slash_uint. Qed.

Lemma str_of_nat_inj i j : str_of_nat i = str_of_nat j -> i = j.
Proof.
  unfold str_of_nat. intros H.
  assert (E : Some (Nat.to_uint i) = Some (Nat.to_uint j)).
  { rewrite <- !NilEmpty.usu. rewrite H. reflexivity. }
  inversion E as [E']. apply DecimalNat.Unsigned.to_uint_inj, E'.
Qed.

Lemma append_inv_head (s a b : string) : s +:+ a = s +:+ b -> a = b.
Proof. induction s as [|c s IH]; simpl; intros H; [exact H|]. inversion H. auto. Qed.

Lemma length_append (a b : string) :
  String.length (a +:+ b) = (String.length a + String.length b)%nat.
Proof. induction a as [|c a IH]; simpl; [reflexivity|]. rewrite IH. reflexivity. Qed.

Lemma append_inv_tail (s a b : string) : a +:+ s = b +:+ s -> a = b.
Proof.
  revert b. induction a as [|c a IH]; intros [|c' b] H; simpl in *.
  - reflexivity.
  - exfalso. apply (f_equal String.length) in H. simpl in H.
    rewrite !length_append in H. simpl in H. lia.
  - exfalso. apply (f_equal String.length) in H. simpl in H.
    rewrite !length_append in H. simpl in H. lia.
  - inversion H. f_equal. auto.
Qed.

(** *** The files of generate_image_stability *)

Section stability_files.
Import image_generation_v2_script.
Variable V : Vendors.

Lemma stability_name_good m j :
  good ("stability_" +:+ replace_char "/" "_" m +:+ "_" +:+ str_of_nat j +:+ ".png").
Proof.
  split; [split; discriminate|].
  rewrite !no_slash_app, no_slash_replace, no_slash_str_of_nat. reflexivity.
Qed.

Lemma stability_path_parent m j : parent (stability_path m j) = ["generated_images"].
Proof. unfold stability_path. apply (parent_child _ _ (stability_name_good m j)). Qed.

Lemma stability_path_inj m i j : stability_path m i = stability_path m j -> i = j.
Proof.
  unfold stability_path, path_join. intros H. apply app_inv_head in H.
  inversion H as [E].
  apply append_inv_head, append_inv_head, append_inv_head, append_inv_tail in E.
  apply str_of_nat_inj, E.
Qed.

Lemma stability_path_dir m j : stability_path m j <> ["generated_images"].
Proof. discriminate. Qed.

Lemma saved_other m x : forall datas i f,
  (forall j, (i <= j)%nat -> x <> stability_path m j) ->
  saved m i datas f !! x = f !! x.
Proof.
  induction datas as [|d datas IH]; intros i f Hx; simpl; [reflexivity|].
  rewrite IH by (intros j Hj; apply Hx; lia).
  apply lookup_insert_ne. intros E. apply (Hx i); [lia | congruence].
Qed.

(** The [k]-th saved image is in the file of the artifact [i + k]. *)
Lemma saved_lookup m : forall datas i f k data,
  datas !! k = Some data ->
  saved m i datas f !! stability_path m (i + k) = Some (File data).
Proof.
  induction datas as [|d datas IH]; intros i f k data Hk; [discriminate|].
  destruct k as [|k]; simpl in *.
  - inversion Hk; subst. rewrite Nat.add_0_r.
    rewrite saved_other.
    + apply lookup_insert_eq.
    + intros j Hj E. apply stability_path_inj in E. lia.
  - replace (i + S k)%nat with (S i + k)%nat by lia. apply IH, Hk.
Qed.

Lemma write_bytes_run p data w :
  is_dir (fs w) p = false -> is_dir (fs w) (parent p) = true ->
  write_bytes p data w = (Ret tt, set_fs (<[p := File data]> (fs w)) w).
Proof. intros H1 H2. unfold write_bytes. rewrite H1, H2. reflexivity. Qed.

Lemma save_artifact_run m i a acc w :
  is_dir (fs w) ["generated_images"] = true ->
  is_dir (fs w) (stability_path m i) = false ->
  save_artifact m i a acc w
  = match base64 a with
    | None => (Raise (mkExn KeyError "'base64'"), w)
    | Some b64 =>
        match b64decode (services w) b64 with
        | inl e => (Raise e, w)
        | inr data =>
            (Ret (acc ++ [path_str (stability_path m i)]),
             set_fs (<[stability_path m i := File data]> (fs w)) w)
        end
    end.
Proof.
  intros Hd Hf. unfold save_artifact, base64_of. cbv zeta.
  destruct (base64 a) as [b64|]; [|reflexivity].
  rewrite bind_run. change (ret b64 w) with (@Ret string b64, w). cbv iota beta.
  rewrite bind_run. unfold decode at 1.
  destruct (b64decode (services w) b64) as [e|data]; [reflexivity|].
  cbv iota beta. rewrite bind_run, write_bytes_run; [reflexivity | exact Hf |].
  rewrite stability_path_parent. exact Hd.
Qed.

(** The loop over the artifacts, in a world where the directory exists
    and no directory stands where a file is to be written: the images that
    can be decoded are saved one after the other, up to the first artifact
    that has no image. *)
Lemma save_loop m : forall arts i acc w,
  is_dir (fs w) ["generated_images"] = true ->
  (forall j, (i <= j < i + length arts)%nat -> is_dir (fs w) (stability_path m j) = false) ->
  for_enumerate arts i (save_artifact m) acc w
  = (match artifact_error (services w) arts with
     | None => Ret (acc ++ stability_paths m i (length arts))
     | Some e => Raise e
     end,
     set_fs (saved m i (decoded (services w) arts) (fs w)) w).
Proof.
  induction arts as [|a arts IH]; intros i acc w Hd Hf.
  - simpl. unfold stability_paths. simpl. rewrite app_nil_r, set_fs_id. reflexivity.
  - cbn [for_enumerate artifact_error decoded length] in *.
    assert (Hi : is_dir (fs w) (stability_path m i) = false) by (apply Hf; lia).
    rewrite bind_run, (save_artifact_run m i a acc w Hd Hi).
    destruct (base64 a) as [b64|]; [|cbn [saved]; rewrite set_fs_id; reflexivity].
    destruct (b64decode (services w) b64) as [e|data];
      [cbn [saved]; rewrite set_fs_id; reflexivity|].
    cbv iota beta. rewrite IH.
    + cbn [saved fs set_fs services]. unfold stability_paths. cbn [seq map].
      rewrite <- app_assoc. reflexivity.
    + cbn [fs set_fs]. rewrite is_dir_write by exact Hi. exact Hd.
    + intros j Hj. cbn [fs set_fs]. rewrite is_dir_write by exact Hi. apply Hf. lia.
Qed.

Lemma decoded_images s : forall ok rest k art data,
  Forall (fun a => is_Some (image_of s a)) ok ->
  ok !! k = Some art -> image_of s art = Some data ->
  decoded s (ok ++ rest) !! k = Some data.
Proof.
  induction ok as [|a ok IH]; intros rest k art data Hg Hk Hi; [discriminate|].
  inversion Hg as [|? ? [d Ha] Hg']; subst. simpl.
  destruct k as [|k]; simpl in Hk.
  - inversion Hk; subst. unfold image_of in Hi.
    destruct (base64 art) as [b64|]; [|discriminate].
    destruct (b64decode s b64) as [e|d']; [discriminate|]. inversion Hi; subst.
    reflexivity.
  - unfold image_of in Ha. destruct (base64 a) as [b64|]; [|discriminate].
    destruct (b64decode s b64) as [e|d']; [discriminate|]. simpl.
    eapply IH; eassumption.
Qed.

Lemma artifact_error_none s arts :
  Forall (fun a => is_Some (image_of s a)) arts -> artifact_error s arts = None.
Proof.
  induction 1 as [|a arts [d Ha] _ IH]; simpl; [reflexivity|].
  unfold image_of in Ha. destruct (base64 a); [|discriminate].
  destruct (b64decode s s0); [discriminate|]. exact IH.
Qed.

Lemma artifact_error_some s good bad rest :
  Forall (fun a => is_Some (image_of s a)) good -> image_of s bad = None ->
  exists e, artifact_error s (good ++ bad :: rest) = Some e.
Proof.
  induction 1 as [|a arts [d Ha] _ IH]; simpl; intros Hb.
  - unfold image_of in Hb. destruct (base64 bad); [|eauto].
    destruct (b64decode s s0); [eauto|discriminate].
  - unfold image_of in Ha. destruct (base64 a); [|discriminate].
    destruct (b64decode s s0); [discriminate|]. auto.
Qed.

End stability_files.

(** *** generate_image_stability *)

Lemma mkdir_run p w :
  is_file (fs w) p = false -> is_dir (fs w) (parent p) = true ->
  mkdir_exist_ok p w
  = (Ret tt, set_fs (if is_dir (fs w) p then fs w else <[p := Dir]> (fs w)) w).
Proof.
  intros H1 H2. unfold mkdir_exist_ok.
  destruct (is_dir (fs w) p); [rewrite set_fs_id; reflexivity|].
  rewrite H1, H2. reflexivity.
Qed.

Lemma is_dir_mkdir_other f q p : p <> q -> is_dir (<[q := Dir]> f) p = is_dir f p.
Proof.
  intros Hne. unfold is_dir. destruct p; [reflexivity|]. case_decide; [reflexivity|].
  rewrite lookup_insert_ne by congruence. reflexivity.
Qed.

Lemma post_eq {A} (m : Py A) w x Q : m w = x -> Q (fst x) (snd x) -> post m w Q.
Proof. intros <-. exact id. Qed.

Ltac post_lin :=
  first
    [ post_step
    | lazymatch goal with
      | |- post (decode _) _ _ => apply post_decode; [intros ? ? | intros ? ?]
      | |- post (setenv _ _) _ _ => apply post_setenv
      | |- post (match ?x with _ => _ end) _ _ => destruct x eqn:?
      end ].

Section stability_run.
Import image_generation_v2_script.
Variable V : Vendors.

Lemma generate_image_stability_run p m wd ht st w response body :
  "requests" ∈ site_packages w ->
  truthy (environ w !! "STABILITY_API_KEY") = true ->
  outcome (stability_form_reply V p m wd ht st w) = inr response ->
  status_code response = 200 ->
  json response = inr body ->
  is_file (fs w) ["generated_images"] = false ->
  (forall j, (j < length (default [] (artifacts body)))%nat ->
             is_dir (fs w) (stability_path m j) = false) ->
  let arts := default [] (artifacts body) in
  let w1 := requested "requests.post" (latency (stability_form_reply V p m wd ht st w)) w in
  let dir := if is_dir (fs w) ["generated_images"] then fs w
             else <[["generated_images"] := Dir]> (fs w) in
  let w2 := set_fs (saved m 0 (decoded (services w) arts) dir) w1 in
  generate_image_stability V p m wd ht st w
  = match artifact_error (services w) arts with
    | Some e => (Ret None, printed [stability_caught e] w2)
    | None =>
        match artifacts body with
        | None => (Ret (Some (mkStabilityResult [] m None)), w2)
        | Some [] =>
            (Ret None,
             printed ["Error generating image with Stability AI: list index out of range"]
               w2)
        | Some (a :: rest) =>
            (Ret (Some (mkStabilityResult (stability_paths m 0 (length arts)) m (seed a))),
             w2)
        end
    end.
Proof.
  intros Hp Hk Ho Hs Hj Hf Hn arts w1 dir w2. apply post_run.
  unfold stability_form_reply in *. unfold generate_image_stability, json_of.
  change (Path "generated_images") with ["generated_images"].
  repeat post_lin; subst;
    repeat match goal with
           | H : negb _ = true |- _ => apply negb_true_iff in H
           | H : negb _ = false |- _ => apply negb_false_iff in H
           | H : outcome ?r = inr ?a, H' : outcome ?r = inr response |- _ =>
               assert (a = response) by congruence; subst a; clear H
           end;
    try contradiction; try congruence;
    try (match goal with H : (status_code response =? 200) = false |- _ =>
           rewrite Hs in H; discriminate H end).
  eapply post_eq; [apply mkdir_run; [exact Hf | reflexivity]|].
  cbn [fst snd]. apply post_bind.
  eapply post_eq; [apply save_loop|].
  - cbn [fs set_fs requested]. fold dir. unfold dir.
    destruct (is_dir (fs w) ["generated_images"]) eqn:Ed; [exact Ed|].
    apply is_dir_mkdir.
  - intros j Hlt. cbn [fs set_fs requested]. fold dir. unfold dir.
    assert (b = body) by congruence. subst b.
    destruct (is_dir (fs w) ["generated_images"]) eqn:Ed; [apply Hn; lia|].
    rewrite is_dir_mkdir_other by apply stability_path_dir. apply Hn. lia.
  - cbn [fst snd services set_fs requested fs]. fold dir.
    assert (b = body) by congruence. subst b. fold arts.
    destruct (artifact_error (services w) arts) as [e|] eqn:Ee; cbv iota beta.
    + unfold stability_caught. repeat post_lin; reflexivity.
    + unfold arts in *. destruct (artifacts body) as [[|a rest]|];
        repeat post_lin;
        try match goal with
            | H : _ = _ :: _ |- _ => simpl in H; inversion H; subst
            | H : _ = [] |- _ => simpl in H; try discriminate H
            end;
        try match goal with
            | H : is_ImportError _ = true |- _ => discriminate H
            end;
        reflexivity.
Qed.

End stability_run.

(** *** The generators of image_generation_v2.py *)

Lemma import_run pkg w : pkg ∈ site_packages w -> import_ pkg w = (Ret tt, w).
Proof. intros H. unfold import_. rewrite decide_True by exact H. reflexivity. Qed.

Ltac lin_done response :=
  subst;
  repeat match goal with
         | H : negb _ = true |- _ => apply negb_true_iff in H
         | H : negb _ = false |- _ => apply negb_false_iff in H
         | H : outcome ?r = inr ?a, H' : outcome ?r = inr response |- _ =>
             assert (a = response) by congruence; subst a; clear H
         end;
  try contradiction; try congruence.

Section generator_facts.
Import image_generation_v2_script.
Variable V : Vendors.

Lemma save_artifact_silent m i a acc w :
  post (save_artifact m i a acc) w (fun r w' =>
    stdout w' = stdout w /\ match r with Exit _ => False | _ => True end).
Proof.
  unfold save_artifact, base64_of. repeat post_io; subst; simpl; auto.
Qed.

Lemma save_loop_silent m : forall arts i acc w,
  post (for_enumerate arts i (save_artifact m) acc) w (fun r w' =>
    stdout w' = stdout w /\ match r with Exit _ => False | _ => True end).
Proof.
  induction arts as [|a arts IH]; intros i acc w; simpl.
  - split; [reflexivity | exact I].
  - apply post_bind. eapply post_weaken; [apply save_artifact_silent|].
    intros [acc'|e|c] w' [Hs Hx]; [|auto|contradiction].
    eapply post_weaken; [apply IH|]. intros r w'' [Hs' Hx']. split; [congruence|exact Hx'].
Qed.

Ltac explained_done :=
  subst; simpl in *;
  eexists; (split; [reflexivity|]);
  first
    [ congruence
    | eexists [_]; split; [discriminate|];
      first [reflexivity | f_equal; congruence]
    | eexists [_; _]; split; [discriminate|];
      rewrite <- app_assoc; reflexivity ].

Lemma generate_image_stability_explained p m wd ht st w :
  post (generate_image_stability V p m wd ht st) w (fun r w' =>
    exists v, r = Ret v /\ explained v w w').
Proof.
  unfold generate_image_stability, json_of, explained.
  repeat first
    [ post_io
    | lazymatch goal with
      | |- post (for_enumerate _ _ _ _) _ _ =>
          eapply post_weaken; [apply save_loop_silent|];
          intros [?|?|?] ? [? ?]; [ | | contradiction]
      end ];
    try explained_done.
Qed.

Lemma generate_image_openai_no_key p m sz q n w :
  "openai" ∈ site_packages w ->
  truthy (environ w !! "OPENAI_API_KEY") = false ->
  generate_image_openai V p m sz q n w
  = (Ret None, printed ["Error: OPENAI_API_KEY environment variable not set"] w).
Proof.
  intros Hp Hk. apply post_run. unfold generate_image_openai.
  repeat post_lin; lin_done (@nil Image); reflexivity.
Qed.

Lemma generate_image_stability_no_key p m wd ht st w :
  "requests" ∈ site_packages w ->
  truthy (environ w !! "STABILITY_API_KEY") = false ->
  generate_image_stability V p m wd ht st w
  = (Ret None, printed ["Error: STABILITY_API_KEY environment variable not set"] w).
Proof.
  intros Hp Hk. unfold generate_image_stability.
  rewrite try_except_run, bind_run, import_run by exact Hp. cbv iota beta.
  rewrite bind_run. change (getenv "STABILITY_API_KEY" w)
    with (@Ret (option string) (environ w !! "STABILITY_API_KEY"), w).
  cbv iota beta. rewrite Hk. reflexivity.
Qed.

Lemma generate_image_replicate_no_key p m w :
  "replicate" ∈ site_packages w ->
  truthy (environ w !! "REPLICATE_API_TOKEN") = false ->
  generate_image_replicate V p m w
  = (Ret None, printed ["Error: REPLICATE_API_TOKEN environment variable not set"] w).
Proof.
  intros Hp Hk. apply post_run. unfold generate_image_replicate, run.
  repeat post_lin; lin_done (OutStr ""); reflexivity.
Qed.

Lemma generate_image_openai_run p m sz q n w :
  openai_ready w ->
  let reply := openai_images_reply V p m sz q n w in
  let w' := requested "openai.images.generate" (latency reply) w in
  (forall img rest,
      outcome reply = inr (img :: rest) ->
      generate_image_openai V p m sz q n w
      = (Ret (Some (mkOpenAIResult (map url (img :: rest)) m (revised_prompt img))), w')) /\
  (outcome reply = inr [] ->
   generate_image_openai V p m sz q n w
   = (Ret None,
      printed ["Error generating image with OpenAI: list index out of range"] w')).
Proof.
  intros (Hp & Hk & Hc) reply w'. unfold w', reply, openai_images_reply. clear w' reply.
  split; [intros img rest Ho | intros Ho]; apply post_run; unfold generate_image_openai;
    destruct (String.eqb m "dall-e-3");
    repeat post_lin; subst;
    repeat match goal with
           | H : negb _ = true |- _ => apply negb_true_iff in H
           | H : negb _ = false |- _ => apply negb_false_iff in H
           end;
    try contradiction; try congruence;
    try match goal with
        | H : outcome ?r = inr ?a, H' : outcome ?r = inr ?b |- _ =>
            assert (a = b) by congruence; subst; try discriminate
        end;
    try match goal with H : _ :: _ = _ :: _ |- _ => inversion H; subst end;
    try match goal with H : is_ImportError _ = true |- _ => discriminate H end;
    try discriminate; reflexivity.
Qed.

Lemma generate_image_replicate_run p m w output :
  replicate_ready w ->
  outcome (replicate_reply V p m w) = inr output ->
  generate_image_replicate V p m w
  = (Ret (Some (mkReplicateResult (urls_of output) m)),
     requested "replicate.run" (latency (replicate_reply V p m w)) w).
Proof.
  intros (Hp & Hk) Ho. unfold replicate_reply in *.
  assert (He : <["REPLICATE_API_TOKEN" := format_opt (environ w !! "REPLICATE_API_TOKEN")]>
                 (environ w) = environ w).
  { apply insert_id. destruct (environ w !! "REPLICATE_API_TOKEN"); [reflexivity|].
    discriminate Hk. }
  apply post_run. unfold generate_image_replicate, run, urls_of.
  destruct (contains "flux" (lower m));
    repeat post_lin; subst;
    repeat match goal with
           | H : negb _ = true |- _ => apply negb_true_iff in H
           | H : negb _ = false |- _ => apply negb_false_iff in H
           end;
    try contradiction; try congruence;
    cbn [environ calls services clock fs stdout site_packages] in *;
    rewrite ?He, ?lookup_insert_eq in *;
    try match goal with
        | H : outcome ?r = inr ?a, H' : outcome ?r = inr ?b |- _ =>
            assert (a = b) by congruence; subst
        end;
    try congruence; try reflexivity.
Qed.

Lemma generate_image_replicate_environ p m w :
  post (generate_image_replicate V p m) w (fun r w' =>
    environ w' = environ w /\ fs w' = fs w /\ exists v, r = Ret v /\ explained v w w').
Proof.
  unfold generate_image_replicate, run, explained.
  repeat post_lin; subst; cbn [environ fs stdout];
    (split; [|split; [reflexivity|]]);
    try reflexivity;
    try (apply insert_id;
         match goal with
         | H : negb (truthy ?o) = false |- _ =>
             destruct o; [reflexivity | discriminate H]
         end);
    try (eexists; split; [reflexivity|]; simpl;
         first [reflexivity | eexists [_]; split; [discriminate | reflexivity]]).
Qed.

Lemma download_image_run u out w response :
  "requests" ∈ site_packages w ->
  outcome (get_reply V u w) = inr response ->
  (status_code response < 400 \/ 600 <= status_code response) ->
  is_dir (fs w) (Path out) = false ->
  is_dir (fs w) (parent (Path out)) = true ->
  download_image V u out w
  = (Ret true,
     set_fs (<[Path out := File (content response)]> (fs w))
       (requested "requests.get" (latency (get_reply V u w)) w)).
Proof.
  intros Hp Ho Hs Hd Hpar. unfold get_reply in *.
  unfold download_image. rewrite try_except_run, bind_run, import_run by exact Hp.
  cbv iota beta. rewrite bind_run. unfold request at 1. rewrite Ho. cbv iota beta zeta.
  rewrite bind_run.
  assert (Hr : forall w0, raise_for_status response w0 = (Ret tt, w0)).
  { intros w0. unfold raise_for_status. cbv zeta.
    destruct (400 <=? status_code response) eqn:E1;
      destruct (status_code response <? 500) eqn:E2;
      destruct (500 <=? status_code response) eqn:E3;
      destruct (status_code response <? 600) eqn:E4; try reflexivity; exfalso; lia. }
  rewrite Hr. cbv iota beta. rewrite bind_run, write_bytes_run; [reflexivity | exact Hd | exact Hpar].
Qed.

Lemma download_image_refused u out w response :
  "requests" ∈ site_packages w ->
  outcome (get_reply V u w) = inr response ->
  400 <= status_code response < 600 ->
  exists line,
    download_image V u out w
    = (Ret false, printed [line] (requested "requests.get" (latency (get_reply V u w)) w)).
Proof.
  intros Hp Ho Hs. unfold get_reply in *.
  unfold download_image. rewrite try_except_run, bind_run, import_run by exact Hp.
  cbv iota beta. rewrite bind_run. unfold request at 1. rewrite Ho. cbv iota beta zeta.
  rewrite bind_run. unfold raise_for_status. cbv zeta.
  destruct (400 <=? status_code response) eqn:E1; [|exfalso; lia].
  destruct (status_code response <? 500) eqn:E2; simpl.
  - eexists. reflexivity.
  - destruct (500 <=? status_code response) eqn:E3; [|exfalso; lia].
    destruct (status_code response <? 600) eqn:E4; [|exfalso; lia]. simpl.
    eexists. reflexivity.
Qed.

Lemma post_for_each_total {A} (xs : list A) (body : A -> Py unit) w
    (Q : Res unit -> World -> Prop) :
  (forall x w, exists w', body x w = (Ret tt, w')) ->
  (forall w', Q (Ret tt) w') ->
  post (for_each xs body) w Q.
Proof.
  intros Hb Hq. unfold post.
  destruct (for_each_returns xs body w Hb) as [w' ->]. apply Hq.
Qed.

Lemma main_short argv w :
  (length argv < 2)%nat -> main V argv w = (Exit 1, printed usage w).
Proof.
  intros Hl.
  assert (Hm : main V argv = (for_each usage print;; sys_exit 1)).
  { destruct argv as [|a [|b rest]]; try reflexivity. simpl in Hl. lia. }
  rewrite Hm, bind_run, for_each_print. reflexivity.
Qed.

Lemma main_unknown script prompt provider rest w :
  lower provider ∉ ["openai"; "stability"; "replicate"] ->
  main V (script :: prompt :: provider :: rest) w
  = (Exit 1,
     printed ["Generating image with " +:+ lower provider +:+ " (using latest models)...";
              "Prompt: " +:+ prompt +:+ nl;
              "Unknown provider: " +:+ lower provider;
              "Available providers: openai, stability, replicate"] w).
Proof.
  intros Hn. unfold main. cbv zeta.
  destruct (String.eqb_spec (lower provider) "openai") as [E|_];
    [exfalso; apply Hn; rewrite E, !elem_of_cons; tauto|].
  destruct (String.eqb_spec (lower provider) "stability") as [E|_];
    [exfalso; apply Hn; rewrite E, !elem_of_cons; tauto|].
  destruct (String.eqb_spec (lower provider) "replicate") as [E|_];
    [exfalso; apply Hn; rewrite E, !elem_of_cons; tauto|].
  cbv [bind print sys_exit printed environ site_packages services fs stdout clock calls].
  rewrite <- !app_assoc. reflexivity.
Qed.

Lemma main_stability script prompt provider rest w :
  lower provider = "stability" ->
  exists w', main V (script :: prompt :: provider :: rest) w = (Ret tt, w').
Proof.
  intros Hp.
  assert (H : post (main V (script :: prompt :: provider :: rest)) w
                (fun r _ => r = Ret tt)).
  { unfold main. cbv zeta. rewrite Hp.
    change ("stability" =? "openai")%string with false.
    change ("stability" =? "stability")%string with true. cbv iota.
    repeat first
      [ post_lin
      | lazymatch goal with
        | |- post (generate_image_stability _ _ _ _ _ _) _ _ =>
            eapply post_weaken; [apply generate_image_stability_explained|];
            intros ? ? (? & -> & _)
        | |- post (for_each _ _) _ _ =>
            apply post_for_each_total; [intros ? ?; eexists; reflexivity | intros ?]
        end ];
      reflexivity. }
  unfold post in H. destruct (main V _ w) as [r w']. simpl in H. subst r. eauto.
Qed.

Lemma main_openai_none script prompt rest w w1 :
  let provider := match rest with p :: _ => lower p | [] => "openai" end in
  provider = "openai" ->
  generate_image_openai V prompt "dall-e-3" "1024x1024" "standard" 1
    (printed ["Generating image with openai (using latest models)...";
              "Prompt: " +:+ prompt +:+ nl] w)
  = (Ret None, w1) ->
  main V (script :: prompt :: rest) w = (Ret tt, w1).
Proof.
  intros provider Hp Hg. unfold main. cbv zeta. fold provider. rewrite Hp.
  change ("openai" =? "openai")%string with true. cbv iota.
  rewrite bind_run, print_run. cbv iota beta. rewrite bind_run, print_run. cbv iota beta.
  rewrite printed_app. rewrite bind_run.
  change (["Generating image with " +:+ "openai" +:+ " (using latest models)..."] ++
          ["Prompt: " +:+ prompt +:+ nl])
    with ["Generating image with openai (using latest models)...";
          "Prompt: " +:+ prompt +:+ nl].
  rewrite Hg. reflexivity.
Qed.

Lemma main_replicate_none script prompt provider rest w w1 :
  lower provider = "replicate" ->
  generate_image_replicate V prompt "black-forest-labs/flux-dev"
    (printed ["Generating image with replicate (using latest models)...";
              "Prompt: " +:+ prompt +:+ nl] w)
  = (Ret None, w1) ->
  main V (script :: prompt :: provider :: rest) w = (Ret tt, w1).
Proof.
  intros Hp Hg. unfold main. cbv zeta. rewrite Hp.
  change ("replicate" =? "openai")%string with false.
  change ("replicate" =? "stability")%string with false.
  change ("replicate" =? "replicate")%string with true. cbv iota.
  rewrite bind_run, print_run. cbv iota beta. rewrite bind_run, print_run. cbv iota beta.
  rewrite printed_app. rewrite bind_run.
  change (["Generating image with " +:+ "replicate" +:+ " (using latest models)..."] ++
          ["Prompt: " +:+ prompt +:+ nl])
    with ["Generating image with replicate (using latest models)...";
          "Prompt: " +:+ prompt +:+ nl].
  rewrite Hg. reflexivity.
Qed.

End generator_facts.

(** *** What the generators guarantee *)

Section generator_theorems.
Import image_generation_v2_script.
Variable V : Vendors.

(** X14.  The three generators of [image_generation_v2.py] and
    [download_image] return for every input: no exception and no exit
    leaves them.  A generator that has a result has printed nothing, one
    that returns [None] has printed at least one line.  [download_image]
    has printed nothing when it returns [True]; when it returns [False] it
    has printed one line and written no file. *)
Theorem generators_explained prompt model (w : World) :
  (forall size quality n,
      post (generate_image_openai V prompt model size quality n) w (fun r w' =>
        exists v, r = Ret v /\ explained v w w')) /\
  (forall width height steps,
      post (generate_image_stability V prompt model width height steps) w (fun r w' =>
        exists v, r = Ret v /\ explained v w w')) /\
  post (generate_image_replicate V prompt model) w (fun r w' =>
    exists v, r = Ret v /\ explained v w w') /\
  (forall url output_path,
      post (download_image V url output_path) w (fun r w' =>
        exists b : bool, r = Ret b /\
          if b then stdout w' = stdout w
          else fs w' = fs w /\ exists line, stdout w' = stdout w ++ [line])).
Proof.
  split_ands.
  - intros. apply generate_image_openai_explained.
  - intros. apply generate_image_stability_explained.
  - apply generate_image_replicate_explained.
  - intros. apply download_image_returns.
Qed.

(** X15.  A generator of [image_generation_v2.py] whose package is
    importable and whose key is absent or empty prints that the key is not
    set and returns [None]; nothing is requested, made or written. *)
Theorem generators_missing_key prompt model (w : World) :
  (forall size quality n,
      "openai" ∈ site_packages w ->
      truthy (environ w !! "OPENAI_API_KEY") = false ->
      generate_image_openai V prompt model size quality n w
      = (Ret None, printed ["Error: OPENAI_API_KEY environment variable not set"] w)) /\
  (forall width height steps,
      "requests" ∈ site_packages w ->
      truthy (environ w !! "STABILITY_API_KEY") = false ->
      generate_image_stability V prompt model width height steps w
      = (Ret None, printed ["Error: STABILITY_API_KEY environment variable not set"] w)) /\
  ("replicate" ∈ site_packages w ->
   truthy (environ w !! "REPLICATE_API_TOKEN") = false ->
   generate_image_replicate V prompt model w
   = (Ret None, printed ["Error: REPLICATE_API_TOKEN environment variable not set"] w)).
Proof.
  split_ands; intros.
  - apply generate_image_openai_no_key; assumption.
  - apply generate_image_stability_no_key; assumption.
  - apply generate_image_replicate_no_key; assumption.
Qed.

(** X16.  [generate_image_openai] when the package, the key and the
    client are there.  For a reply with images the result holds the URLs
    of all of them in order, the model, and the revised prompt of the
    first image; one request has been made and nothing is printed.  A
    reply without images is indexed all the same: the [IndexError] is
    caught, its text is printed and the result is [None].  The request
    for ["dall-e-3"] asks for one image with the given quality whatever
    [n] is; for another model it asks for [n] images and sends no
    quality. *)
Theorem generate_image_openai_result prompt model size quality n (w : World) :
  openai_ready w ->
  let reply := openai_images_reply V prompt model size quality n w in
  let w' := requested "openai.images.generate" (latency reply) w in
  (forall img rest,
      outcome reply = inr (img :: rest) ->
      generate_image_openai V prompt model size quality n w
      = (Ret (Some (mkOpenAIResult (map url (img :: rest)) model (revised_prompt img))),
         w')) /\
  (outcome reply = inr [] ->
   generate_image_openai V prompt model size quality n w
   = (Ret None,
      printed ["Error generating image with OpenAI: list index out of range"] w')).
Proof. apply generate_image_openai_run. Qed.

(** X17.  [generate_image_stability] on a response with status 200 whose
    body has no artifact.  Without the key ["artifacts"] the call counts
    as a success: the result has no image path and no seed.  With an
    empty list under ["artifacts"] the seed is looked up in the first
    element of the empty list: the [IndexError] is caught, its text is
    printed and the result is [None].  In both cases the directory
    [generated_images] has been made if it was not there. *)
Theorem generate_image_stability_artifacts prompt model width height steps (w : World)
    response :
  stability_ok V prompt model width height steps w response ->
  let run := generate_image_stability V prompt model width height steps w in
  let w1 := requested "requests.post"
              (latency (stability_form_reply V prompt model width height steps w)) w in
  let w2 := set_fs (if is_dir (fs w) ["generated_images"] then fs w
                    else <[["generated_images"] := Dir]> (fs w)) w1 in
  (json response = inr (mkBody None) ->
   run = (Ret (Some (mkStabilityResult [] model None)), w2)) /\
  (json response = inr (mkBody (Some [])) ->
   run = (Ret None,
          printed ["Error generating image with Stability AI: list index out of range"]
            w2)).
Proof.
  intros (Hp & Hk & Ho & Hs & Hf) run w1 w2. unfold run.
  split; intros Hj;
    rewrite (generate_image_stability_run V prompt model width height steps w response _
               Hp Hk Ho Hs Hj Hf) by (intros j Hlt; simpl in Hlt; lia);
    reflexivity.
Qed.

(** X18.  [generate_image_stability] on a response with status 200 whose
    artifacts all have an image, when no directory stands where a file is
    to be written.  The result lists the paths
    [generated_images/stability_<model>_<i>.png], one per artifact in
    order, with every slash of the model name replaced, and has the seed
    of the first artifact.  When the function returns, the file of each
    artifact holds its decoded image: no file is overwritten by a later
    one. *)
Theorem generate_image_stability_files prompt model width height steps (w : World)
    response a rest :
  stability_ok V prompt model width height steps w response ->
  json response = inr (mkBody (Some (a :: rest))) ->
  Forall (fun art => is_Some (image_of (services w) art)) (a :: rest) ->
  (forall j, (j < length (a :: rest))%nat ->
             is_dir (fs w) (stability_path model j) = false) ->
  exists w',
    generate_image_stability V prompt model width height steps w
    = (Ret (Some (mkStabilityResult (stability_paths model 0 (length (a :: rest))) model
                    (seed a))), w') /\
    forall k art data,
      (a :: rest) !! k = Some art -> image_of (services w) art = Some data ->
      fs w' !! stability_path model k = Some (File data).
Proof.
  intros (Hp & Hk & Ho & Hs & Hf) Hj Hall Hn.
  rewrite (generate_image_stability_run V prompt model width height steps w response _
             Hp Hk Ho Hs Hj Hf Hn).
  cbn [artifacts default from_option id]. rewrite (artifact_error_none _ _ Hall).
  eexists. split; [reflexivity|].
  intros k art data Hk' Hi. cbn [fs set_fs].
  apply (saved_lookup model _ 0 _ k data).
  rewrite <- (app_nil_r (a :: rest)). eapply decoded_images; eassumption.
Qed.

(** X19.  [generate_image_stability] when an artifact has no image (no
    ["base64"] entry, or one that does not decode) after artifacts that
    have one.  The error is caught, one line is printed and the result is
    [None]; the images of the artifacts before the failing one have been
    written and stay in their files. *)
Theorem generate_image_stability_partial prompt model width height steps (w : World)
    response good bad rest :
  stability_ok V prompt model width height steps w response ->
  json response = inr (mkBody (Some (good ++ bad :: rest))) ->
  Forall (fun art => is_Some (image_of (services w) art)) good ->
  image_of (services w) bad = None ->
  (forall j, (j < length (good ++ bad :: rest))%nat ->
             is_dir (fs w) (stability_path model j) = false) ->
  exists e w',
    generate_image_stability V prompt model width height steps w = (Ret None, w') /\
    stdout w' = stdout w ++ [stability_caught e] /\
    forall k art data,
      good !! k = Some art -> image_of (services w) art = Some data ->
      fs w' !! stability_path model k = Some (File data).
Proof.
  intros (Hp & Hk & Ho & Hs & Hf) Hj Hall Hbad Hn.
  rewrite (generate_image_stability_run V prompt model width height steps w response _
             Hp Hk Ho Hs Hj Hf Hn).
  cbn [artifacts default from_option id].
  destruct (artifact_error_some (services w) good bad rest Hall Hbad) as [e ->].
  exists e. eexists. split; [reflexivity|]. split; [reflexivity|].
  intros k art data Hk' Hi. cbn [fs set_fs printed].
  apply (saved_lookup model _ 0 _ k data).
  eapply decoded_images; eassumption.
Qed.

(** X20.  [generate_image_replicate] leaves the environment as it found
    it, although it assigns to [os.environ]: it writes back the token it
    has just read.  It writes no file.  When the package and the token are
    there and the model answers, the result holds the URLs (the list
    itself, or the one string, or the [str] of anything else) and the
    model; one request has been made and nothing is printed. *)
Theorem generate_image_replicate_result prompt model (w : World) :
  post (generate_image_replicate V prompt model) w (fun r w' =>
    environ w' = environ w /\ fs w' = fs w /\ exists v, r = Ret v /\ explained v w w') /\
  (forall output,
      replicate_ready w ->
      outcome (replicate_reply V prompt model w) = inr output ->
      generate_image_replicate V prompt model w
      = (Ret (Some (mkReplicateResult (urls_of output) model)),
         requested "replicate.run" (latency (replicate_reply V prompt model w)) w)).
Proof.
  split.
  - apply generate_image_replicate_environ.
  - intros. apply generate_image_replicate_run; assumption.
Qed.

(** X21.  [download_image] when [requests] is importable and the request
    is answered.  A status from 400 to 599 makes [raise_for_status] raise:
    one line is printed, nothing is written and the result is [False].
    Any other status, not only 200, counts as a success: when the output
    path can be written, the content of the response is written there and
    the result is [True]. *)
Theorem download_image_result url output_path (w : World) response :
  "requests" ∈ site_packages w ->
  outcome (get_reply V url w) = inr response ->
  let w1 := requested "requests.get" (latency (get_reply V url w)) w in
  (status_code response < 400 \/ 600 <= status_code response ->
   is_dir (fs w) (Path output_path) = false ->
   is_dir (fs w) (parent (Path output_path)) = true ->
   download_image V url output_path w
   = (Ret true, set_fs (<[Path output_path := File (content response)]> (fs w)) w1)) /\
  (400 <= status_code response < 600 ->
   exists line, download_image V url output_path w = (Ret false, printed [line] w1)).
Proof.
  intros Hp Ho w1. split.
  - intros. apply (download_image_run V url output_path w response); assumption.
  - intros. apply (download_image_refused V url output_path w response); assumption.
Qed.

(** X22.  The exit status of [main] of [image_generation_v2.py].  Without
    a prompt it prints the usage text and exits with status 1; with a
    provider that is not [openai], [stability] or [replicate] (in any case
    of letters) it prints two lines more than the banner and exits with
    status 1.  With the provider [stability] it returns, so the status is
    0, whatever happens to the request; with [openai] (also the default)
    or [replicate] it returns with status 0 when the generator has
    returned [None]: a failed generation is not an error of the
    process. *)
Theorem image_generation_v2_main_exit (w : World) :
  (forall argv, (length argv < 2)%nat -> main V argv w = (Exit 1, printed usage w)) /\
  (forall script prompt provider rest,
      lower provider ∉ ["openai"; "stability"; "replicate"] ->
      main V (script :: prompt :: provider :: rest) w
      = (Exit 1,
         printed
           ["Generating image with " +:+ lower provider +:+ " (using latest models)...";
            "Prompt: " +:+ prompt +:+ nl;
            "Unknown provider: " +:+ lower provider;
            "Available providers: openai, stability, replicate"] w)) /\
  (forall script prompt provider rest,
      lower provider = "stability" ->
      exists w', main V (script :: prompt :: provider :: rest) w = (Ret tt, w')) /\
  (forall script prompt rest w1,
      match rest with p :: _ => lower p | [] => "openai" end = "openai" ->
      generate_image_openai V prompt "dall-e-3" "1024x1024" "standard" 1
        (printed ["Generating image with openai (using latest models)...";
                  "Prompt: " +:+ prompt +:+ nl] w)
      = (Ret None, w1) ->
      main V (script :: prompt :: rest) w = (Ret tt, w1)) /\
  (forall script prompt provider rest w1,
      lower provider = "replicate" ->
      generate_image_replicate V prompt "black-forest-labs/flux-dev"
        (printed ["Generating image with replicate (using latest models)...";
                  "Prompt: " +:+ prompt +:+ nl] w)
      = (Ret None, w1) ->
      main V (script :: prompt :: provider :: rest) w = (Ret tt, w1)).
Proof.
  split_ands.
  - intros. apply main_short; assumption.
  - intros. apply main_unknown; assumption.
  - intros. apply main_stability; assumption.
  - intros. apply main_openai_none; assumption.
  - intros. eapply main_replicate_none; eassumption.
Qed.

End generator_theorems.

(** *** The generators on the sample vendors *)

Lemma image_packages_all :
  "openai" ∈ image_packages /\ "requests" ∈ image_packages /\ "replicate" ∈ image_packages.
Proof.
  unfold image_packages. rewrite !elem_of_union, !elem_of_singleton. tauto.
Qed.

Lemma is_dir_empty p : p <> [] -> p <> ["/"] -> is_dir ∅ p = false.
Proof.
  intros H1 H2. unfold is_dir. destruct p; [contradiction|].
  rewrite decide_False by exact H2. rewrite lookup_empty. reflexivity.
Qed.

Lemma generators_missing_key_witness :
  image_generation_v2_script.generate_image_stability demo_vendors "a cat"
    "stable-diffusion-xl-1024-v1-0" 1024 1024 30 image_world_no_keys
  = (Ret None,
     printed ["Error: STABILITY_API_KEY environment variable not set"] image_world_no_keys).
Proof.
  apply (proj1 (proj2 (generators_missing_key demo_vendors "a cat"
                         "stable-diffusion-xl-1024-v1-0" image_world_no_keys))).
  - apply image_packages_all.
  - reflexivity.
Defined.

Lemma generate_image_openai_result_witness :
  openai_ready image_world /\
  image_generation_v2_script.generate_image_openai demo_vendors "a cat" "dall-e-3"
    "1024x1024" "standard" 4 image_world
  = (Ret (Some (image_generation_v2_script.mkOpenAIResult ["https://img.example/0"]
                  "dall-e-3" (Some "a cat, detailed"))),
     requested "openai.images.generate" 7 image_world).
Proof.
  assert (Hr : openai_ready image_world).
  { split; [apply image_packages_all|]. split; vm_compute; reflexivity. }
  split; [exact Hr|].
  exact (proj1 (generate_image_openai_result demo_vendors "a cat" "dall-e-3" "1024x1024"
                  "standard" 4 image_world Hr) _ _ eq_refl).
Defined.

Lemma stability_ok_sample body code prompt model :
  stability_ok (vendors_with body code) prompt model 1024 1024 30 image_world
    (image_generation_v2_script.mkResponse 200 "OK"
       (default "https://api.stability.ai" (environ image_world !! "API_HOST")
        +:+ "/v1/generation/" +:+ model +:+ "/text-to-image") "" "" (inr body)).
Proof.
  split; [apply image_packages_all|].
  split; [vm_compute; reflexivity|].
  split; [reflexivity|]. split; [reflexivity|]. vm_compute. reflexivity.
Qed.

Lemma generate_image_stability_artifacts_witness :
  let w2 := set_fs (if is_dir (fs image_world) ["generated_images"] then fs image_world
                    else <[["generated_images"] := Dir]> (fs image_world))
              (requested "requests.post" 8 image_world) in
  image_generation_v2_script.generate_image_stability
    (vendors_with (image_generation_v2_script.mkBody None) 200) "a cat" "sdxl" 1024 1024 30
    image_world
  = (Ret (Some (image_generation_v2_script.mkStabilityResult [] "sdxl" None)), w2) /\
  image_generation_v2_script.generate_image_stability
    (vendors_with (image_generation_v2_script.mkBody (Some [])) 200) "a cat" "sdxl"
    1024 1024 30 image_world
  = (Ret None,
     printed ["Error generating image with Stability AI: list index out of range"] w2).
Proof.
  intros w2. split.
  - exact (proj1 (generate_image_stability_artifacts _ "a cat" "sdxl" 1024 1024 30
                    image_world _ (stability_ok_sample _ 200 "a cat" "sdxl")) eq_refl).
  - exact (proj2 (generate_image_stability_artifacts _ "a cat" "sdxl" 1024 1024 30
                    image_world _ (stability_ok_sample _ 200 "a cat" "sdxl")) eq_refl).
Defined.

Lemma no_dir_sample model j :
  is_dir (fs image_world) (image_generation_v2_script.stability_path model j) = false.
Proof.
  change (fs image_world) with (∅ : gmap path node).
  apply is_dir_empty; discriminate.
Qed.

Lemma generate_image_stability_files_witness :
  exists w',
    image_generation_v2_script.generate_image_stability demo_vendors "a cat"
      "stability-ai/sdxl" 1024 1024 30 image_world
    = (Ret (Some (image_generation_v2_script.mkStabilityResult
                    ["generated_images/stability_stability-ai_sdxl_0.png";
                     "generated_images/stability_stability-ai_sdxl_1.png"]
                    "stability-ai/sdxl" (Some 42))), w') /\
    fs w' !! ["generated_images"; "stability_stability-ai_sdxl_0.png"]
    = Some (File "cG5n") /\
    fs w' !! ["generated_images"; "stability_stability-ai_sdxl_1.png"]
    = Some (File "anBn").
Proof.
  destruct (generate_image_stability_files demo_vendors "a cat" "stability-ai/sdxl"
              1024 1024 30 image_world _ _ _
              (stability_ok_sample _ 200 "a cat" "stability-ai/sdxl") eq_refl)
    as (w' & E & Hfiles).
  - repeat constructor; eexists; reflexivity.
  - intros j _. apply no_dir_sample.
  - exists w'. split; [exact E|]. split.
    + exact (Hfiles 0%nat _ "cG5n" eq_refl eq_refl).
    + exact (Hfiles 1%nat _ "anBn" eq_refl eq_refl).
Defined.

Lemma generate_image_stability_partial_witness :
  exists e w',
    image_generation_v2_script.generate_image_stability
      (vendors_with
         (image_generation_v2_script.mkBody
            (Some [image_generation_v2_script.mkArtifact (Some "cG5n") (Some 42);
                   image_generation_v2_script.mkArtifact None (Some 43)])) 200)
      "a cat" "sdxl" 1024 1024 30 image_world
    = (Ret None, w') /\
    stdout w' = stdout image_world ++ [stability_caught e] /\
    fs w' !! ["generated_images"; "stability_sdxl_0.png"] = Some (File "cG5n").
Proof.
  destruct (generate_image_stability_partial _ "a cat" "sdxl" 1024 1024 30 image_world _
              [image_generation_v2_script.mkArtifact (Some "cG5n") (Some 42)]
              (image_generation_v2_script.mkArtifact None (Some 43)) []
              (stability_ok_sample _ 200 "a cat" "sdxl") eq_refl)
    as (e & w' & E & Hs & Hfiles).
  - repeat constructor; eexists; reflexivity.
  - reflexivity.
  - intros j _. apply no_dir_sample.
  - exists e, w'. split; [exact E|]. split; [exact Hs|].
    exact (Hfiles 0%nat _ "cG5n" eq_refl eq_refl).
Defined.

Lemma generate_image_replicate_result_witness :
  image_generation_v2_script.generate_image_replicate demo_vendors "a cat"
    "black-forest-labs/flux-dev" image_world
  = (Ret (Some (image_generation_v2_script.mkReplicateResult ["https://rep.example/0"]
                  "black-forest-labs/flux-dev")),
     requested "replicate.run" 9 image_world).
Proof.
  apply (proj2 (generate_image_replicate_result demo_vendors "a cat"
                  "black-forest-labs/flux-dev" image_world)
           (image_generation_v2_script.OutStr "https://rep.example/0")).
  - split; [apply image_packages_all | vm_compute; reflexivity].
  - reflexivity.
Defined.

Lemma download_image_result_witness :
  image_generation_v2_script.download_image (vendors_with
      (image_generation_v2_script.mkBody None) 304)
    "https://img.example/0" "generated_images/dalle_0.png"
    (set_fs (<[["generated_images"] := Dir]> ∅) image_world)
  = (Ret true,
     set_fs (<[Path "generated_images/dalle_0.png" := File "bytes"]>
               (<[["generated_images"] := Dir]> ∅))
       (requested "requests.get" 2 (set_fs (<[["generated_images"] := Dir]> ∅) image_world)))
  /\
  exists line,
    image_generation_v2_script.download_image (vendors_with
        (image_generation_v2_script.mkBody None) 404)
      "https://img.example/0" "generated_images/dalle_0.png" image_world
    = (Ret false, printed [line] (requested "requests.get" 2 image_world)).
Proof.
  split.
  - assert (H1 : is_dir (fs (set_fs (<[["generated_images"] := Dir]> ∅) image_world))
                   (Path "generated_images/dalle_0.png") = false)
      by (vm_compute; reflexivity).
    assert (H2 : is_dir (fs (set_fs (<[["generated_images"] := Dir]> ∅) image_world))
                   (parent (Path "generated_images/dalle_0.png")) = true)
      by (vm_compute; reflexivity).
    exact (proj1 (download_image_result
                    (vendors_with (image_generation_v2_script.mkBody None) 304)
                    "https://img.example/0" "generated_images/dalle_0.png"
                    (set_fs (<[["generated_images"] := Dir]> ∅) image_world)
                    (image_generation_v2_script.mkResponse 304 "" "https://img.example/0"
                       "" "bytes" (inl (mkExn ValueError "not JSON")))
                    (proj1 (proj2 image_packages_all)) eq_refl)
             (or_introl eq_refl) H1 H2).
  - assert (H : 400 <= 404 < 600) by lia.
    exact (proj2 (download_image_result
                    (vendors_with (image_generation_v2_script.mkBody None) 404)
                    "https://img.example/0" "generated_images/dalle_0.png" image_world
                    (image_generation_v2_script.mkResponse 404 "" "https://img.example/0"
                       "" "bytes" (inl (mkExn ValueError "not JSON")))
                    (proj1 (proj2 image_packages_all)) eq_refl) H).
Defined.

Lemma image_generation_v2_main_exit_witness :
  image_generation_v2_script.main demo_vendors ["image_generation_v2.py"] image_world
  = (Exit 1, printed image_generation_v2_script.usage image_world) /\
  exists w',
    image_generation_v2_script.main demo_vendors
      ["image_generation_v2.py"; "a cat"; "Stability"] image_world_no_keys
    = (Ret tt, w').
Proof.
  split.
  - apply (proj1 (image_generation_v2_main_exit demo_vendors image_world)). simpl. lia.
  - apply (proj1 (proj2 (proj2 (image_generation_v2_main_exit demo_vendors
                                  image_world_no_keys)))
             "image_generation_v2.py" "a cat" "Stability" []).
    reflexivity.
Defined.

(** *** The download loops of main *)

Section download_loops.
Import image_generation_v2_script.
Variable V : Vendors.

Lemma download_image_dirs u out w :
  post (download_image V u out) w (fun r w' =>
    (exists b : bool, r = Ret b) /\ forall p, is_dir (fs w') p = is_dir (fs w) p).
Proof.
  unfold download_image, raise_for_status.
  repeat post_io; subst; cbn [fs set_fs]; (split; [eexists; reflexivity|]);
    intros p; try reflexivity.
  all: apply is_dir_write; assumption.
Qed.

Lemma generate_image_openai_fs p m sz q n w :
  post (generate_image_openai V p m sz q n) w (fun r w' =>
    fs w' = fs w /\ exists v, r = Ret v).
Proof.
  unfold generate_image_openai.
  repeat post_lin; subst; cbn [fs]; (split; [reflexivity|]); eexists; reflexivity.
Qed.

Lemma post_mkdir_exact p w Q :
  (is_dir (fs w) p = true -> Q (Ret tt) w) ->
  (is_dir (fs w) p = false -> is_file (fs w) p = true ->
   Q (Raise (mkExn FileExistsError ("[Errno 17] File exists: '" +:+ path_str p +:+ "'"))) w) ->
  (is_dir (fs w) p = false -> is_file (fs w) p = false ->
   is_dir (fs w) (parent p) = true -> Q (Ret tt) (set_fs (<[p := Dir]> (fs w)) w)) ->
  (is_dir (fs w) p = false -> is_file (fs w) p = false ->
   is_dir (fs w) (parent p) = false -> Q (Raise (no_parent (fs w) p)) w) ->
  post (mkdir_exist_ok p) w Q.
Proof.
  intros H1 H2 H3 H4. unfold post, mkdir_exist_ok.
  destruct (is_dir (fs w) p) eqn:E1; simpl; auto.
  destruct (is_file (fs w) p) eqn:E2; simpl; auto.
  destruct (is_dir (fs w) (parent p)) eqn:E3; simpl; auto.
Qed.

(** One pass of the loop and the rest of it, once the directory is
    there. *)
Lemma download_rest prefix i url w (rest : unit -> Py unit)
    (Q : Res unit -> World -> Prop) :
  is_dir (fs w) ["generated_images"] = true ->
  (forall u w', is_dir (fs w') ["generated_images"] = true -> post (rest u) w' Q) ->
  post (ok ← download_image V url
               (path_str (path_join ["generated_images"]
                            (prefix +:+ "_" +:+ str_of_nat i +:+ ".png")));
        bind (if ok
              then print ("     Downloaded to: "
                          +:+ path_str (path_join ["generated_images"]
                                          (prefix +:+ "_" +:+ str_of_nat i +:+ ".png")))
              else ret tt)
             rest) w Q.
Proof.
  intros Hd Hrest. apply post_bind. eapply post_weaken; [apply download_image_dirs|].
  intros r w' [[b ->] Hdirs].
  assert (Hd' : is_dir (fs w') ["generated_images"] = true) by (rewrite Hdirs; exact Hd).
  apply post_bind. destruct b.
  - apply post_print. apply Hrest. exact Hd'.
  - apply post_ret. apply Hrest. exact Hd'.
Qed.

Lemma bind_assoc {A B C} (m : Py A) (f : A -> Py B) (g : B -> Py C) w :
  bind (bind m f) g w = bind m (fun a => bind (f a) g) w.
Proof. rewrite !bind_run. destruct (m w) as [[a|e|c] w']; reflexivity. Qed.

Lemma post_bind_assoc {A B C} (m : Py A) (f : A -> Py B) (g : B -> Py C) w Q :
  post (bind m (fun a => bind (f a) g)) w Q -> post (bind (bind m f) g) w Q.
Proof. unfold post. rewrite bind_assoc. exact id. Qed.

(** Once the directory is there, the loop goes through every URL. *)
Lemma download_all_dir prefix urls : forall i w,
  is_dir (fs w) ["generated_images"] = true ->
  post (for_enumerate urls i
          (fun i url _ =>
             print ("  " +:+ str_of_nat (i + 1) +:+ ". " +:+ url);;
             let output_dir := Path "generated_images" in
             mkdir_exist_ok output_dir;;
             let output_path :=
               path_join output_dir (prefix +:+ "_" +:+ str_of_nat i +:+ ".png") in
             ok ← download_image V url (path_str output_path);
             if ok then print ("     Downloaded to: " +:+ path_str output_path) else ret tt)
          tt) w
    (fun r w' => r = Ret tt).
Proof.
  change (Path "generated_images") with ["generated_images"]. cbv zeta.
  induction urls as [|url urls IH]; intros i w Hd; [reflexivity|].
  cbn [for_enumerate].
  apply post_bind_assoc, post_bind, post_print.
  apply post_bind_assoc, post_bind, post_mkdir_exact; cbn [fs]; try congruence.
  intros _. apply post_bind_assoc. apply download_rest; [exact Hd|].
  intros [] w' Hd'. apply IH, Hd'.
Qed.

Lemma download_all_status prefix urls w :
  post (download_all V prefix urls) w (fun r w' =>
    r = Ret tt \/
    (is_file (fs w) ["generated_images"] = true /\
     r = Raise (mkExn FileExistsError "[Errno 17] File exists: 'generated_images'"))).
Proof.
  unfold download_all.
  destruct urls as [|url urls]; [left; reflexivity|].
  assert (Hrest : forall (u : unit) w', is_dir (fs w') ["generated_images"] = true ->
            post (for_enumerate urls 1
                    (fun i url _ =>
                       print ("  " +:+ str_of_nat (i + 1) +:+ ". " +:+ url);;
                       let output_dir := Path "generated_images" in
                       mkdir_exist_ok output_dir;;
                       let output_path :=
                         path_join output_dir (prefix +:+ "_" +:+ str_of_nat i +:+ ".png")
                       in
                       ok ← download_image V url (path_str output_path);
                       if ok then print ("     Downloaded to: " +:+ path_str output_path)
                       else ret tt) u) w'
              (fun r _ =>
                 r = Ret tt \/
                 (is_file (fs w) ["generated_images"] = true /\
                  r = Raise (mkExn FileExistsError
                               "[Errno 17] File exists: 'generated_images'")))).
  { intros [] w' Hd'.
    eapply post_weaken; [apply (download_all_dir prefix urls 1 w' Hd')|].
    intros r w'' ->. left. reflexivity. }
  revert Hrest. change (Path "generated_images") with ["generated_images"]. cbv zeta.
  intros Hrest. cbn [for_enumerate].
  apply post_bind_assoc, post_bind, post_print.
  apply post_bind_assoc, post_bind, post_mkdir_exact; cbn [fs].
  - intros Hd. apply post_bind_assoc. apply download_rest; [exact Hd | exact Hrest].
  - intros Hd Hf. right. split; [exact Hf | reflexivity].
  - intros Hd Hf _. apply post_bind_assoc. apply download_rest; [|exact Hrest].
    cbn [fs set_fs]. apply is_dir_mkdir.
  - intros _ _ Hp. discriminate Hp.
Qed.

(** X23.  The [openai] and [replicate] branches of [main] of
    [image_generation_v2.py] end in one of two ways.  They return, so
    that the exit status is 0: a download that fails is reported and the
    loop goes on with the next URL.  Or [generated_images] is a file and
    there is a URL to download: then [mkdir] raises [FileExistsError] in
    the first pass of the loop, nothing catches it and the script ends
    with a non-zero status. *)
Theorem main_download_status script prompt rest (w : World) :
  let provider := match rest with p :: _ => lower p | [] => "openai" end in
  provider = "openai" \/ provider = "replicate" ->
  post (main V (script :: prompt :: rest)) w (fun r _ =>
    r = Ret tt \/
    (is_file (fs w) ["generated_images"] = true /\
     r = Raise (mkExn FileExistsError "[Errno 17] File exists: 'generated_images'"))).
Proof.
  intros provider Hp. unfold main. cbv zeta. fold provider.
  apply post_bind, post_print. apply post_bind, post_print.
  destruct Hp as [-> | ->].
  - change ("openai" =? "openai")%string with true. cbv iota.
    apply post_bind. eapply post_weaken; [apply generate_image_openai_fs|].
    intros r w' [Hfs [[result|] ->]]; [|left; reflexivity].
    cbn [fs] in Hfs.
    apply post_bind, post_print. apply post_bind.
    eapply post_weaken; [apply download_all_status|].
    intros [[]|e|c] w''; cbn [fs]; rewrite Hfs; intros [H|[Hf H]]; try discriminate H.
    + destruct (truthy (openai_revised_prompt result)); [apply post_print|apply post_ret];
        left; reflexivity.
    + right. split; assumption.
  - change ("replicate" =? "openai")%string with false.
    change ("replicate" =? "stability")%string with false.
    change ("replicate" =? "replicate")%string with true. cbv iota.
    apply post_bind. eapply post_weaken; [apply generate_image_replicate_environ|].
    intros r w' (_ & Hfs & [[result|] [-> _]]); [|left; reflexivity].
    cbn [fs] in Hfs.
    apply post_bind, post_print.
    eapply post_weaken; [apply download_all_status|].
    intros r w''; cbn [fs]; rewrite Hfs. exact id.
Qed.

End download_loops.

Lemma main_download_status_witness :
  post (image_generation_v2_script.main demo_vendors ["image_generation_v2.py"; "a cat"])
    image_world (fun r _ =>
      r = Ret tt \/
      (is_file (fs image_world) ["generated_images"] = true /\
       r = Raise (mkExn FileExistsError "[Errno 17] File exists: 'generated_images'"))).
Proof.
  exact (main_download_status demo_vendors "image_generation_v2.py" "a cat" [] image_world
           (or_introl eq_refl)).
Defined.

(** ** query_llms.py: the output of the all mode *)

Lemma print_if_run v w :
  query_llms.print_if v w
  = (Ret tt, printed (if truthy v then [format_opt v] else []) w).
Proof.
  unfold query_llms.print_if. destruct (truthy v); [reflexivity|].
  rewrite printed_nil. reflexivity.
Qed.

(** Brings a world built from [printed] and [requested] to its fields. *)
Ltac world_fields :=
  unfold printed, requested;
  cbn [fst snd environ site_packages services fs stdout clock calls].

Lemma ncalls_other ep cs c : endpoint c <> ep -> ncalls ep (cs ++ [c]) = ncalls ep cs.
Proof. intros H. rewrite ncalls_snoc, decide_False by exact H. lia. Qed.

(** X24.  [main] of [query_llms.py] without a provider argument, when the
    three providers answer.  It prints the banner and then, for Gemini,
    OpenAI and Anthropic in this order, a rule of sixty [=], the name in
    capitals, the rule again and the answer, with an empty line between
    the sections; an answer that is the empty text is not printed.  Each
    provider is asked once, one after the other, and the script
    returns. *)
Theorem query_llms_main_all_output dflt script prompt (w : World) t1 t2 more2 t3 more3 :
  gemini_ready (query_llms.gemini_model dflt) w ->
  openai_ready w ->
  anthropic_ready w ->
  let r1 := generativeai_reply prompt (query_llms.gemini_model dflt) w in
  let r2 := chat_reply prompt (query_llms.openai_model dflt) w in
  let r3 := messages_reply prompt (query_llms.anthropic_model dflt) w in
  outcome r1 = inr t1 ->
  outcome r2 = inr (t2 :: more2) ->
  outcome r3 = inr (t3 :: more3) ->
  let rule := str_repeat "=" 60 in
  exists w',
    query_llms.main dflt [script; prompt] w = (Ret tt, w') /\
    stdout w'
    = stdout w ++ [query_llms.all_banner dflt; rule; "GEMINI"; rule]
      ++ (if truthy (Some t1) then [t1] else []) ++ [""; rule; "OPENAI"; rule]
      ++ (if truthy (Some t2) then [t2] else []) ++ [""; rule; "ANTHROPIC"; rule]
      ++ (if truthy (Some t3) then [t3] else []) /\
    clock w' = (clock w + latency r1 + latency r2 + latency r3)%N /\
    map endpoint (calls w')
    = map endpoint (calls w) ++ [ep_generativeai; ep_openai; ep_anthropic].
Proof.
  intros Hg Ho Ha r1 r2 r3 O1 O2 O3 rule.
  assert (H : post (query_llms.main dflt [script; prompt]) w (fun r w' =>
            r = Ret tt /\
            stdout w'
            = stdout w ++ [query_llms.all_banner dflt; rule; "GEMINI"; rule]
              ++ (if truthy (Some t1) then [t1] else []) ++ [""; rule; "OPENAI"; rule]
              ++ (if truthy (Some t2) then [t2] else []) ++ [""; rule; "ANTHROPIC"; rule]
              ++ (if truthy (Some t3) then [t3] else []) /\
            clock w' = (clock w + latency r1 + latency r2 + latency r3)%N /\
            map endpoint (calls w')
            = map endpoint (calls w) ++ [ep_generativeai; ep_openai; ep_anthropic])).
  { unfold query_llms.main. cbv zeta.
    change (truthy None) with false. cbv iota.
    do 4 (apply post_bind, post_print; world_fields).
    apply post_bind.
    eapply post_eq; [apply (query_llms_gemini_success prompt _ _ t1); [exact Hg | exact O1]|].
    unfold generativeai_reply. world_fields.
    apply post_bind. eapply post_eq; [apply print_if_run|]. world_fields.
    do 4 (apply post_bind, post_print; world_fields).
    apply post_bind.
    eapply post_eq;
      [ apply (query_llms_openai_success prompt _ _ t2 more2);
        [ exact Ho
        | unfold chat_reply; world_fields;
          rewrite ncalls_other by discriminate; exact O2 ]
      | ].
    unfold chat_reply. world_fields. rewrite ncalls_other by discriminate.
    apply post_bind. eapply post_eq; [apply print_if_run|]. world_fields.
    do 4 (apply post_bind, post_print; world_fields).
    apply post_bind.
    eapply post_eq;
      [ apply (query_llms_anthropic_success prompt _ _ t3 more3);
        [ exact Ha
        | unfold messages_reply; world_fields;
          rewrite !ncalls_other by discriminate; exact O3 ]
      | ].
    unfold messages_reply. world_fields. rewrite !ncalls_other by discriminate.
    eapply post_eq; [apply print_if_run|]. world_fields.
    split; [reflexivity|]; split; [|split];
      unfold r1, r2, r3, chat_reply, messages_reply, generativeai_reply;
      rewrite ?map_app, <- ?app_assoc; reflexivity. }
  unfold post in H. destruct (query_llms.main dflt [script; prompt] w) as [r w'].
  cbn [fst snd] in H. destruct H as (-> & H). exists w'. split; [reflexivity | exact H].
Qed.

Lemma query_llms_main_all_output_witness :
  exists w',
    query_llms.main query_llms.v1 ["query_llms.py"; "hi"] demo_world = (Ret tt, w') /\
    stdout w'
    = ["Querying all providers..." +:+ nl; str_repeat "=" 60; "GEMINI";
       str_repeat "=" 60; "ok"; ""; str_repeat "=" 60; "OPENAI"; str_repeat "=" 60;
       "hello"; ""; str_repeat "=" 60; "ANTHROPIC"; str_repeat "=" 60; "hi there"] /\
    clock w' = 12%N.
Proof.
  destruct ready_demo as (Hg & Ho & Ha).
  destruct (query_llms_main_all_output query_llms.v1 "query_llms.py" "hi" demo_world
              "ok" "hello" [] "hi there" [] Hg Ho Ha eq_refl eq_refl eq_refl)
    as (w' & E & Hs & Hc & _).
  exists w'. split; [exact E|]. split; [exact Hs | exact Hc].
Defined.

(** ** claude/llm_query.py: the answer of a provider *)

Lemma llm_query_gemini_success p m w t :
  "google.genai" ∈ site_packages w ->
  genai_Client (services w) (environ w !! "GEMINI_API_KEY") = None ->
  outcome (genai_reply p m w) = inr t ->
  llm_query.query_gemini p m w
  = (Ret t, requested ep_gemini (latency (genai_reply p m w)) w).
Proof.
  intros Hp Hc Ho. apply post_run.
  unfold genai_reply, ep_gemini, requested in *. unfold llm_query.query_gemini.
  repeat post_step; run_done.
Qed.

Lemma llm_query_openai_success p m sp w t rest :
  "openai" ∈ site_packages w ->
  OpenAI (services w) (environ w !! "OPENAI_API_KEY") = None ->
  outcome (system_chat_reply p m sp w) = inr (t :: rest) ->
  llm_query.query_openai p m sp w
  = (Ret t, requested ep_openai (latency (system_chat_reply p m sp w)) w).
Proof.
  intros Hp Hc Ho. apply post_run.
  unfold system_chat_reply, ep_openai, requested in *. unfold llm_query.query_openai.
  cbv zeta. destruct (truthy sp); repeat post_step; run_done.
Qed.

Lemma llm_query_anthropic_success p m sp mt w t rest :
  "anthropic" ∈ site_packages w ->
  Anthropic (services w) (environ w !! "ANTHROPIC_API_KEY") = None ->
  outcome (system_messages_reply p m sp mt w) = inr (t :: rest) ->
  llm_query.query_anthropic p m sp mt w
  = (Ret t, requested ep_anthropic (latency (system_messages_reply p m sp mt w)) w).
Proof.
  intros Hp Hc Ho. apply post_run.
  unfold system_messages_reply, ep_anthropic, requested in *.
  unfold llm_query.query_anthropic.
  cbv zeta. destruct (truthy sp); repeat post_step; run_done.
Qed.

(** X25.  A provider of [claude/llm_query.py] whose package is
    importable, whose client can be made and whose request is answered
    returns the text of the answer (for OpenAI and Anthropic the first
    choice or block of it) after exactly one request, and has changed
    nothing else.  The key goes to the client as the environment has it,
    without a check.  A system prompt that is [None] or empty is left out
    of the request; another one is sent as the first message to OpenAI and
    as the [system] parameter to Anthropic. *)
Theorem llm_query_answer prompt model (w : World) :
  (forall t,
      "google.genai" ∈ site_packages w ->
      genai_Client (services w) (environ w !! "GEMINI_API_KEY") = None ->
      outcome (genai_reply prompt model w) = inr t ->
      llm_query.query_gemini prompt model w
      = (Ret t, requested ep_gemini (latency (genai_reply prompt model w)) w)) /\
  (forall system_prompt t rest,
      "openai" ∈ site_packages w ->
      OpenAI (services w) (environ w !! "OPENAI_API_KEY") = None ->
      outcome (system_chat_reply prompt model system_prompt w) = inr (t :: rest) ->
      llm_query.query_openai prompt model system_prompt w
      = (Ret t,
         requested ep_openai (latency (system_chat_reply prompt model system_prompt w)) w))
  /\
  (forall system_prompt max_tokens t rest,
      "anthropic" ∈ site_packages w ->
      Anthropic (services w) (environ w !! "ANTHROPIC_API_KEY") = None ->
      outcome (system_messages_reply prompt model system_prompt max_tokens w)
      = inr (t :: rest) ->
      llm_query.query_anthropic prompt model system_prompt max_tokens w
      = (Ret t,
         requested ep_anthropic
           (latency (system_messages_reply prompt model system_prompt max_tokens w)) w)).
Proof.
  split_ands; intros.
  - apply llm_query_gemini_success; assumption.
  - eapply llm_query_openai_success; eassumption.
  - eapply llm_query_anthropic_success; eassumption.
Qed.

Lemma llm_query_answer_witness :
  llm_query.query_gemini "hi" "gemini-2.0-flash" no_keys_world
  = (Ret "ok", requested ep_gemini 5 no_keys_world) /\
  llm_query.query_openai "hi" "gpt-4o" (Some "") demo_world
  = (Ret "hello", requested ep_openai 3 demo_world).
Proof.
  split.
  - exact (proj1 (llm_query_answer "hi" "gemini-2.0-flash" no_keys_world) "ok"
             (proj1 all_packages_all) eq_refl eq_refl).
  - exact (proj1 (proj2 (llm_query_answer "hi" "gpt-4o" demo_world)) (Some "") "hello" []
             (proj1 (proj2 (proj2 all_packages_all))) eq_refl eq_refl).
Defined.
